(** * Stock lifecycle, monitoring and alerting of the inventory application

    A shallow embedding of [main/models.py], [main/common.py],
    [main/middleware.py] and the views of [main/views.py] that mutate
    routers and categories, followed by the properties of the
    stock-lifecycle and monitoring subsystem.

    Conventions of the embedding.
    - A database table is the list of its rows in primary-key order; a new row
      takes the key [new_id], one more than the largest key in use.
    - A foreign key is the key of the row it points to ([option] when the
      column is nullable).
    - A calendar date is its day number in [Z]; the clock ([date.today()])
      is the parameter [today] of every operation that reads it.
    - [created_at] columns are never read by the code below and are left out.
    - [send_email] catches every exception it meets and touches no table, so
      a call to it is a no-op on the database; what has to exist for its
      arguments to be evaluated (the acting store) is kept.
    - Django runs in autocommit mode: what a view wrote before an exception is
      caught stays written. The monad [M] therefore returns the database also
      when it raises. *)

From Stdlib Require Import List String ZArith Bool Arith Lia.
From Stdlib Require Import DecimalString.
Import ListNotations.

Local Open Scope string_scope.
Local Open Scope list_scope.

(* ================================================================== *)
(** ** models.py: the tables *)

Module Store.
Record t := mk { id : nat; name : string; alert_on : Z }.
End Store.

Module User.
Record t := mk { id : nat; role : option string; store : option nat }.
End User.

Module Category.
Record t := mk
  { id : nat; name : string; store : nat; type : string;
    deleted : bool; alerted : bool; alert_on : Z }.

Definition set_alerted (v : bool) (c : t) : t :=
  mk (id c) (name c) (store c) (type c) (deleted c) v (alert_on c).
Definition set_deleted (v : bool) (c : t) : t :=
  mk (id c) (name c) (store c) (type c) v (alerted c) (alert_on c).
Definition set_name_type (n : string) (ty : string) (c : t) : t :=
  mk (id c) n (store c) ty (deleted c) (alerted c) (alert_on c).
End Category.

Module Router.
Definition STATUSES : list (string * string) :=
  [ ("in_stock", "In stock"); ("new_sale", "New sale");
    ("collected", "Collected"); ("return", "Return");
    ("swap", "Device swap") ].

(** [STATUSES[i][0]] *)
Definition STATUS (i : nat) : string := fst (nth i STATUSES ("", "")).

Record t := mk
  { id : nat; store : option nat; category : option nat;
    serial_number : string; emei : option string; status : string;
    reason : option string; deleted : bool; shipped : bool }.

Definition set_store (v : option nat) (r : t) : t :=
  mk (id r) v (category r) (serial_number r) (emei r) (status r)
     (reason r) (deleted r) (shipped r).
Definition set_status (v : string) (r : t) : t :=
  mk (id r) (store r) (category r) (serial_number r) (emei r) v
     (reason r) (deleted r) (shipped r).
Definition set_reason (v : option string) (r : t) : t :=
  mk (id r) (store r) (category r) (serial_number r) (emei r) (status r)
     v (deleted r) (shipped r).
Definition set_deleted (v : bool) (r : t) : t :=
  mk (id r) (store r) (category r) (serial_number r) (emei r) (status r)
     (reason r) v (shipped r).
End Router.

Module Log.
Record t := mk
  { id : nat; store : option nat; user : option nat; action : string;
    instance : string; serial_number : option string;
    category_name : option string; instance_id : option nat }.
End Log.

Module Monitoring.
Record t := mk
  { id : nat; store : nat; category : option nat; routers : Z; day : Z }.
End Monitoring.

Module Action.
Record t := mk
  { id : nat; store : option nat; user : option nat; action : string;
    order_number : option string; shipped : bool; router : option nat;
    router2 : option nat; reason : option string; comment : option string }.
End Action.

Module Notification.
Record t := mk { id : nat; store : nat; date_sent : Z }.
End Notification.

(** The single relational store of record. *)
Record DB := mkDB
  { Store_objects : list Store.t;
    Category_objects : list Category.t;
    Router_objects : list Router.t;
    Log_objects : list Log.t;
    Monitoring_objects : list Monitoring.t;
    Action_objects : list Action.t;
    Notification_objects : list Notification.t }.

Definition with_categories (l : list Category.t) (db : DB) : DB :=
  mkDB (Store_objects db) l (Router_objects db) (Log_objects db)
       (Monitoring_objects db) (Action_objects db) (Notification_objects db).
Definition with_routers (l : list Router.t) (db : DB) : DB :=
  mkDB (Store_objects db) (Category_objects db) l (Log_objects db)
       (Monitoring_objects db) (Action_objects db) (Notification_objects db).
Definition with_logs (l : list Log.t) (db : DB) : DB :=
  mkDB (Store_objects db) (Category_objects db) (Router_objects db) l
       (Monitoring_objects db) (Action_objects db) (Notification_objects db).
Definition with_monitorings (l : list Monitoring.t) (db : DB) : DB :=
  mkDB (Store_objects db) (Category_objects db) (Router_objects db)
       (Log_objects db) l (Action_objects db) (Notification_objects db).
Definition with_actions (l : list Action.t) (db : DB) : DB :=
  mkDB (Store_objects db) (Category_objects db) (Router_objects db)
       (Log_objects db) (Monitoring_objects db) l (Notification_objects db).
Definition with_notifications (l : list Notification.t) (db : DB) : DB :=
  mkDB (Store_objects db) (Category_objects db) (Router_objects db)
       (Log_objects db) (Monitoring_objects db) (Action_objects db) l.

(* ================================================================== *)
(** ** The ORM: queries, keys, and a state monad with exceptions *)

Definition new_id (ids : list nat) : nat := S (fold_right Nat.max 0 ids).

Definition opt_nat_eqb (a b : option nat) : bool :=
  match a, b with
  | Some x, Some y => Nat.eqb x y
  | None, None => true
  | _, _ => false
  end.

(** Python truthiness of a string that may be [None]. *)
Definition truthy (s : option string) : bool :=
  match s with
  | None => false
  | Some s => negb (String.eqb s "")
  end.

Inductive Exn : Type :=
  | AttributeError | DoesNotExist | MultipleObjectsReturned | IntegrityError.

Definition M (A : Type) : Type := DB -> DB * (Exn + A).

Definition ret {A} (a : A) : M A := fun db => (db, inr a).
Definition raise {A} (e : Exn) : M A := fun db => (db, inl e).
Definition bind {A B} (c : M A) (k : A -> M B) : M B :=
  fun db =>
    match c db with
    | (db', inl e) => (db', inl e)
    | (db', inr a) => k a db'
    end.
Definition gets {A} (f : DB -> A) : M A := fun db => (db, inr (f db)).
Definition modify (f : DB -> DB) : M unit := fun db => (f db, inr tt).

Notation "x <- c ;; k" := (bind c (fun x => k))
  (at level 61, c at next level, right associativity).
Notation "c ;;; k" := (bind c (fun _ => k))
  (at level 61, right associativity).

(** [Store.count_routers] and [Category.count_routers]:
    [self.router_set.filter(deleted=False,status="in_stock").count()]. *)
Definition Store_count_routers (db : DB) (sid : nat) : Z :=
  Z.of_nat (List.length (filter
    (fun r => opt_nat_eqb (Router.store r) (Some sid)
              && negb (Router.deleted r)
              && String.eqb (Router.status r) "in_stock")
    (Router_objects db))).

Definition Category_count_routers (db : DB) (cid : nat) : Z :=
  Z.of_nat (List.length (filter
    (fun r => opt_nat_eqb (Router.category r) (Some cid)
              && negb (Router.deleted r)
              && String.eqb (Router.status r) "in_stock")
    (Router_objects db))).

(** Following a foreign key to a store row. *)
Definition get_store (sid : nat) : M Store.t :=
  fun db =>
    match find (fun s => Nat.eqb (Store.id s) sid) (Store_objects db) with
    | Some s => (db, inr s)
    | None => (db, inl DoesNotExist)
    end.

(** [today_midnight()] compared with a [DateField]: the date of today. *)
Definition notified_since (today : Z) (sid : nat) (db : DB) : bool :=
  existsb (fun n => Nat.eqb (Notification.store n) sid
                    && (today <=? Notification.date_sent n)%Z)
          (Notification_objects db).

Definition Notification_create (today : Z) (sid : nat) : M unit :=
  modify (fun db =>
    with_notifications
      (Notification_objects db ++
       [Notification.mk (new_id (map Notification.id (Notification_objects db)))
                        sid today]) db).

(** The [post_save] receiver of [Router]. *)
Definition router_changed (today : Z) (instance : Router.t) : M unit :=
  match Router.store instance with
  | None => ret tt
  | Some sid =>
      store <- get_store sid ;;
      count <- gets (fun db => Store_count_routers db sid) ;;
      seen <- gets (notified_since today sid) ;;
      if (count <? Store.alert_on store)%Z && negb seen
      then Notification_create today sid
      else ret tt
  end.

(** The rows of the router table after [r.save()]: an UPDATE by primary key,
    an INSERT when the key is not there. *)
Definition saved_rows (r : Router.t) (rows : list Router.t) : list Router.t :=
  if existsb (fun r' => Nat.eqb (Router.id r') (Router.id r)) rows
  then map (fun r' => if Nat.eqb (Router.id r') (Router.id r) then r else r')
           rows
  else rows ++ [r].

(** [router.save()], then the [post_save] signal. The unique constraint on
    [serial_number] is checked where a serial number is written: in
    [Router_create] and in [RouterView_put]. *)
Definition Router_save (today : Z) (r : Router.t) : M unit :=
  modify (fun db => with_routers (saved_rows r (Router_objects db)) db) ;;;
  router_changed today r.

Definition serial_taken (sn : string) (db : DB) : bool :=
  existsb (fun r => String.eqb (Router.serial_number r) sn) (Router_objects db).

(** [Router.objects.create(store=..,category=..,serial_number=..,emei=..)]:
    the other columns take their defaults. *)
Definition Router_create (today : Z) (store category : option nat)
    (sn : string) (emei : option string) : M Router.t :=
  taken <- gets (serial_taken sn) ;;
  if taken then raise IntegrityError
  else
    i <- gets (fun db => new_id (map Router.id (Router_objects db))) ;;
    let r := Router.mk i store category sn emei (Router.STATUS 0) None
                       false false in
    modify (fun db => with_routers (Router_objects db ++ [r]) db) ;;;
    router_changed today r ;;;
    ret r.

(** [Router.objects.get_or_create(serial_number=sn)] *)
Definition Router_get_or_create (today : Z) (sn : string)
    : M (Router.t * bool) :=
  found <- gets (fun db =>
    filter (fun r => String.eqb (Router.serial_number r) sn)
           (Router_objects db)) ;;
  match found with
  | [] => r <- Router_create today None None sn None ;; ret (r, true)
  | [r] => ret (r, false)
  | _ :: _ :: _ => raise MultipleObjectsReturned
  end.

(* ================================================================== *)
(** ** views.py: responses and the actions workflow *)

(** [JsonResponse(res, status=res['status'])]: the status and the message
    (absent once [del res['message']] ran). *)
Record Response := mkResponse { status : nat; message : option string }.

Definition response_ok : Response := mkResponse 200 None.
Definition response_error (msg : string) : Response := mkResponse 500 (Some msg).

(** What a view does with its [try: ... except Exception: logger.exception(e)]:
    the response stays the one built before the [try]. *)
Definition try_except (default : Response) (body : M Response)
    : DB -> DB * Response :=
  fun db =>
    match body db with
    | (db', inr res) => (db', res)
    | (db', inl _) => (db', default)
    end.

(** [store.user_set...]: an attribute of the acting store, which must not be
    [None]. *)
Definition user_set (store : option nat) : M unit :=
  match store with
  | Some _ => ret tt
  | None => raise AttributeError
  end.

(** The JSON body of a POST to the actions endpoint. *)
Record ActionBody := mkActionBody
  { body_action : string;
    body_sn1 : string;
    body_sn2 : option string;
    body_order_number : option string;
    body_return_reason : option string;
    body_swap_reason : option string;
    body_comment : option string }.

Definition Action_create (a : Action.t) : M unit :=
  modify (fun db => with_actions (Action_objects db ++ [a]) db).

(** The failures of the lifecycle engine, as the responses that carry them. *)
Definition RouterNotFound : Response :=
  response_error "We can't find the router with the provided details".
Definition InvalidTransition (why : string) : Response := response_error why.
Definition UnexpectedError : Response :=
  response_error "An errror occured while processing the request".

(** What a branch of the [if action_type == ...] chain leaves behind: an early
    [return JsonResponse(..)], or the locals the code after the chain reads. *)
Record Locals := mkLocals
  { l_router1 : Router.t;
    l_router2 : option Router.t;
    l_reason : option string;
    l_action_router_2 : option Router.t;
    l_action_order_number : option string }.

Definition ActionsView_branch (store : option nat) (body : ActionBody)
    (router1 : Router.t) (router2 : option Router.t)
    : M (Response + Locals) :=
  let action_type := body_action body in
  if String.eqb action_type "return" then
    let router1 := Router.set_status (Router.STATUS 3) router1 in
    let router1 := Router.set_reason (body_return_reason body) router1 in
    user_set store ;;;
    let router1 := Router.set_store store router1 in
    ret (inr (mkLocals router1 router2 (body_return_reason body) None None))
  else if String.eqb action_type "swap" then
    let router1 := Router.set_status (Router.STATUS 2) router1 in
    match router2 with
    | None => raise AttributeError
    | Some r2 =>
        let r2 := Router.set_status (Router.STATUS 4) r2 in
        let r2 := Router.set_reason (body_return_reason body) r2 in
        user_set store ;;;
        let router1 := Router.set_store store router1 in
        ret (inr (mkLocals router1 (Some r2) (body_swap_reason body)
                           (Some r2) None))
    end
  else if String.eqb action_type "collect" then
    if negb (String.eqb (Router.status router1) (Router.STATUS 1))
       && negb (String.eqb (Router.status router1) (Router.STATUS 0))
    then
      if String.eqb (Router.status router1) (Router.STATUS 2)
      then ret (inl (InvalidTransition "This router is already collected."))
      else ret (inl (InvalidTransition "This router is not sold."))
    else
      let router1 := Router.set_status (Router.STATUS 2) router1 in
      ret (inr (mkLocals router1 router2 None None (body_order_number body)))
  else if String.eqb action_type "sale" then
    if negb (String.eqb (Router.status router1) (Router.STATUS 0))
    then
      if String.eqb (Router.status router1) (Router.STATUS 1)
      then ret (inl (InvalidTransition "This router is already sold."))
      else if String.eqb (Router.status router1) (Router.STATUS 2)
      then ret (inl (InvalidTransition "This router is already collected."))
      else ret (inl (InvalidTransition "This router is not in stock."))
    else
      let router1 := Router.set_status (Router.STATUS 1) router1 in
      user_set store ;;;
      ret (inr (mkLocals router1 router2 None None (body_order_number body)))
  else
    ret (inr (mkLocals router1 router2 None None None)).

(** [Router.objects.filter(store=store,serial_number=sn1).first()] *)
Definition in_store (store : option nat) (sn : string) (r : Router.t) : bool :=
  opt_nat_eqb (Router.store r) store && String.eqb (Router.serial_number r) sn.

(** The global fallback: [get_or_create] by serial number, the new row taking
    the acting store (in memory, until it is saved). *)
Definition get_or_create_for (today : Z) (store : option nat) (sn : string)
    : M Router.t :=
  rc <- Router_get_or_create today sn ;;
  ret (if snd rc then Router.set_store store (fst rc) else fst rc).

(** Lines 1067-1076: the primary router. *)
Definition resolve_router1 (today : Z) (store : option nat)
    (body : ActionBody) : M (option Router.t) :=
  router1 <- gets (fun db =>
    find (in_store store (body_sn1 body)) (Router_objects db)) ;;
  match router1 with
  | Some r => ret (Some r)
  | None =>
      if String.eqb (body_action body) "return"
         || String.eqb (body_action body) "swap"
      then r <- get_or_create_for today store (body_sn1 body) ;; ret (Some r)
      else ret None
  end.

(** Lines 1081-1084: the secondary router, whatever the action. *)
Definition resolve_router2 (today : Z) (store : option nat)
    (body : ActionBody) : M (option Router.t) :=
  match body_sn2 body with
  | Some sn2 =>
      if truthy (Some sn2)
      then r <- get_or_create_for today store sn2 ;; ret (Some r)
      else ret None
  | None => ret None
  end.

(** Lines 1150-1156: the action row, then the two saves. *)
Definition ActionsView_commit (today : Z) (user : User.t) (body : ActionBody)
    (l : Locals) : M Response :=
  i <- gets (fun db => new_id (map Action.id (Action_objects db))) ;;
  Action_create
    (Action.mk i (User.store user) (Some (User.id user)) (body_action body)
       (l_action_order_number l) false
       (Some (Router.id (l_router1 l)))
       (option_map Router.id (l_action_router_2 l))
       (l_reason l) (body_comment body)) ;;;
  Router_save today (l_router1 l) ;;;
  match l_router2 l with
  | Some r2 => Router_save today r2
  | None => ret tt
  end ;;;
  ret response_ok.

(** [ActionsView.post], the [apply_action] of the lifecycle engine. *)
Definition ActionsView_post (today : Z) (user : User.t) (body : ActionBody)
    : DB -> DB * Response :=
  try_except UnexpectedError (
    let store := User.store user in
    router1 <- resolve_router1 today store body ;;
    match router1 with
    | None => ret RouterNotFound
    | Some router1 =>
        router2 <- resolve_router2 today store body ;;
        after <- ActionsView_branch store body router1 router2 ;;
        match after with
        | inl res => ret res
        | inr l => ActionsView_commit today user body l
        end
    end).

(* ================================================================== *)
(** ** views.py: creating, editing and soft-deleting categories and routers *)

Definition is_store_manager (user : User.t) : bool :=
  match User.role user with
  | Some role => String.eqb role "store_manager"
  | None => false
  end.

Definition forbidden (msg : string) : Response := mkResponse 403 (Some msg).

(** A column declared without [null=True] refuses [None]. *)
Definition not_null {A} (v : option A) : M A :=
  match v with
  | Some a => ret a
  | None => raise IntegrityError
  end.

Definition Log_create (store user : option nat) (instance : string)
    (instance_id : nat) (serial_number category_name : option string)
    (action : string) : M unit :=
  modify (fun db =>
    with_logs
      (Log_objects db ++
       [Log.mk (new_id (map Log.id (Log_objects db))) store user action
               instance serial_number category_name (Some instance_id)]) db).

(** [category.save()] of a row read from the table. *)
Definition Category_save (c : Category.t) : M unit :=
  modify (fun db =>
    with_categories
      (map (fun c' => if Nat.eqb (Category.id c') (Category.id c)
                      then c else c') (Category_objects db)) db).

Definition Category_by_id (i : option nat) (db : DB) : option Category.t :=
  match i with
  | Some i => find (fun c => Nat.eqb (Category.id c) i) (Category_objects db)
  | None => None
  end.

Record CategoryBody := mkCategoryBody
  { cbody_id : option nat;
    cbody_name : option string;
    cbody_type : option string }.

(** [CreateCategoryView.post] *)
Definition CreateCategoryView_post (user : User.t) (body : CategoryBody)
    : DB -> DB * Response :=
  try_except (response_error "An error occured while processing the request") (
    if negb (is_store_manager user)
    then ret (forbidden "You don't have enough permissions")
    else
      name <- not_null (cbody_name body) ;;
      type <- not_null (cbody_type body) ;;
      store <- not_null (User.store user) ;;
      i <- gets (fun db => new_id (map Category.id (Category_objects db))) ;;
      let category := Category.mk i name store type false false 50 in
      modify (fun db =>
        with_categories (Category_objects db ++ [category]) db) ;;;
      Category_save category ;;;
      Log_create (User.store user) (Some (User.id user)) "category"
                 (Category.id category) None (Some (Category.name category))
                 "add" ;;;
      ret response_ok).

Definition own_category (user : User.t) (i : option nat) (db : DB)
    : option Category.t :=
  match i with
  | Some i =>
      find (fun c => opt_nat_eqb (Some (Category.store c)) (User.store user)
                     && Nat.eqb (Category.id c) i) (Category_objects db)
  | None => None
  end.

(** [CategoryView.put] *)
Definition CategoryView_put (user : User.t) (body : CategoryBody)
    : DB -> DB * Response :=
  try_except (response_error "An error occured while processing the request") (
    if negb (is_store_manager user)
    then ret (forbidden "You don't have enough permissions")
    else
      category <- gets (own_category user (cbody_id body)) ;;
      match category with
      | Some category =>
          name <- not_null (cbody_name body) ;;
          type <- not_null (cbody_type body) ;;
          let category := Category.set_name_type name type category in
          Category_save category ;;;
          Log_create (User.store user) (Some (User.id user)) "category"
                     (Category.id category) None
                     (Some (Category.name category)) "edit" ;;;
          ret (mkResponse 200 (Some "Category edited successfully"))
      | None =>
          ret (response_error "An error occured while processing the request")
      end).

(** [CategoryView.delete] *)
Definition CategoryView_delete (user : User.t) (body : CategoryBody)
    : DB -> DB * Response :=
  try_except (response_error "Something wrong hapenned") (
    if negb (is_store_manager user)
    then ret (forbidden "You don't have enough permissions")
    else
      category <- gets (own_category user (cbody_id body)) ;;
      match category with
      | Some category =>
          let category := Category.set_deleted true category in
          Category_save category ;;;
          Log_create (User.store user) (Some (User.id user)) "category"
                     (Category.id category) None
                     (Some (Category.name category)) "delete" ;;;
          ret (mkResponse 200 (Some "Category deleted successfully"))
      | None => ret (response_error "Something wrong hapenned")
      end).

Record RouterBody := mkRouterBody
  { rbody_id : option nat;
    rbody_category : option nat;
    rbody_serial_number : option string;
    rbody_emei : option string;
    rbody_status : option string }.

(** [CreateRouterView.post]; its [except IntegrityError] answers that the
    router exists already. *)
Definition CreateRouterView_post (today : Z) (user : User.t)
    (body : RouterBody) : DB -> DB * Response :=
  fun db =>
    match
      (if negb (is_store_manager user)
       then ret (forbidden "You don't have permissions")
       else
         category <- gets (Category_by_id (rbody_category body)) ;;
         serial_number <- not_null (rbody_serial_number body) ;;
         router <- Router_create today (User.store user)
                     (option_map Category.id category) serial_number None ;;
         Router_save today router ;;;
         match category with
         | None => raise AttributeError
         | Some category =>
             Category_save (Category.set_alerted false category) ;;;
             Log_create (User.store user) (Some (User.id user)) "router"
                        (Router.id router)
                        (Some (Router.serial_number router)) None "add" ;;;
             ret response_ok
         end) db
    with
    | (db', inr res) => (db', res)
    | (db', inl IntegrityError) =>
        (db', response_error "Router already exists in the database")
    | (db', inl _) =>
        (db', response_error "An error occured while processing the request")
    end.

Definition own_router (user : User.t) (i : option nat) (db : DB)
    : option Router.t :=
  match i with
  | Some i =>
      find (fun r => opt_nat_eqb (Router.store r) (User.store user)
                     && Nat.eqb (Router.id r) i) (Router_objects db)
  | None => None
  end.

(** [RouterView.put]. The row is written with a new serial number, which the
    unique constraint compares with the other rows. *)
Definition RouterView_put (today : Z) (user : User.t) (body : RouterBody)
    : DB -> DB * Response :=
  try_except (response_error "An error occured while processing the request") (
    if negb (is_store_manager user)
    then ret (forbidden "You don't have enough permissions")
    else
      category_instance <- gets (Category_by_id (rbody_category body)) ;;
      router <- gets (own_router user (rbody_id body)) ;;
      match router with
      | None => raise AttributeError
      | Some router =>
          serial_number <- not_null (rbody_serial_number body) ;;
          status <- not_null (rbody_status body) ;;
          let router :=
            Router.mk (Router.id router) (Router.store router)
              (option_map Category.id category_instance) serial_number
              (rbody_emei body) status (Router.reason router)
              (Router.deleted router) (Router.shipped router) in
          clash <- gets (fun db =>
            existsb (fun r => negb (Nat.eqb (Router.id r) (Router.id router))
                              && String.eqb (Router.serial_number r)
                                            serial_number)
                    (Router_objects db)) ;;
          if clash then raise IntegrityError
          else
            Router_save today router ;;;
            Log_create (User.store user) (Some (User.id user)) "router"
                       (Router.id router)
                       (Some (Router.serial_number router)) None "edit" ;;;
            ret (mkResponse 200 (Some "Router edited successfully"))
      end).

(** [RouterView.delete] *)
Definition RouterView_delete (today : Z) (user : User.t) (body : RouterBody)
    : DB -> DB * Response :=
  try_except (response_error "An error occured while processing the request") (
    if negb (is_store_manager user)
    then ret (forbidden "You don't have enough permissions")
    else
      router <- gets (own_router user (rbody_id body)) ;;
      match router with
      | Some router =>
          let router := Router.set_deleted true router in
          Router_save today router ;;;
          Log_create (User.store user) (Some (User.id user)) "router"
                     (Router.id router)
                     (Some (Router.serial_number router)) None "delete" ;;;
          ret (mkResponse 200 (Some "Router deleted successfully"))
      | None =>
          ret (response_error "An error occured while processing the request")
      end).

(* ================================================================== *)
(** ** common.py: the daily sweep and the alert latch *)

(** [try: ... except Exception as e: logger.exception(e)] around a block:
    the exception is logged and the loop goes on. *)
Definition swallow (c : M unit) : M unit :=
  fun db => match c db with (db', _) => (db', inr tt) end.

(** [for x in l: body(x)] *)
Fixpoint for_each {A} (l : list A) (body : A -> M unit) : M unit :=
  match l with
  | [] => ret tt
  | x :: l' => body x ;;; for_each l' body
  end.

(** The rows [get_or_create(store=..,category=..,day__gte=min_today_time)]
    looks at: a [DateField] compared with a datetime is compared with its
    date. *)
Definition todays (today : Z) (sid cid : nat) (m : Monitoring.t) : bool :=
  Nat.eqb (Monitoring.store m) sid
  && opt_nat_eqb (Monitoring.category m) (Some cid)
  && (today <=? Monitoring.day m)%Z.

Definition Monitoring_get_or_create (today : Z) (sid cid : nat)
    : M (Monitoring.t * bool) :=
  found <- gets (fun db => filter (todays today sid cid)
                                  (Monitoring_objects db)) ;;
  match found with
  | [] =>
      i <- gets (fun db =>
             new_id (map Monitoring.id (Monitoring_objects db))) ;;
      let m := Monitoring.mk i sid (Some cid) 0 today in
      modify (fun db =>
        with_monitorings (Monitoring_objects db ++ [m]) db) ;;;
      ret (m, true)
  | [m] => ret (m, false)
  | _ :: _ :: _ => raise MultipleObjectsReturned
  end.

(** [monitor.save()]: [day] is declared [auto_now=True], so every save
    stamps the row with today. *)
Definition Monitoring_save (today : Z) (m : Monitoring.t) : M unit :=
  let m := Monitoring.mk (Monitoring.id m) (Monitoring.store m)
             (Monitoring.category m) (Monitoring.routers m) today in
  modify (fun db =>
    with_monitorings
      (map (fun m' => if Nat.eqb (Monitoring.id m') (Monitoring.id m)
                      then m else m') (Monitoring_objects db)) db).

Definition set_routers (v : Z) (m : Monitoring.t) : Monitoring.t :=
  Monitoring.mk (Monitoring.id m) (Monitoring.store m)
                (Monitoring.category m) v (Monitoring.day m).

(** The body of the innermost [try] of [create_monitoring]. *)
Definition snapshot_category (today : Z) (sid : nat) (category : Category.t)
    : M unit :=
  routers <- gets (fun db =>
    Category_count_routers db (Category.id category)) ;;
  mc <- Monitoring_get_or_create today sid (Category.id category) ;;
  Monitoring_save today (set_routers routers (fst mc)).

(** [create_monitoring], the [snapshot_today] of the monitoring snapshotter:
    it takes no store and sweeps them all. *)
Definition create_monitoring (today : Z) : M unit :=
  swallow (
    stores <- gets Store_objects ;;
    for_each stores (fun store =>
      swallow (
        categories <- gets (fun db =>
          filter (fun c => Nat.eqb (Category.store c) (Store.id store))
                 (Category_objects db)) ;;
        for_each categories (fun category =>
          swallow (snapshot_category today (Store.id store) category))))).

(** One turn of the loop of [create_alerts]; the result is whether
    [print('low stock')] ran. *)
Definition alert_category (category : Category.t) : M bool :=
  count <- gets (fun db => Category_count_routers db (Category.id category)) ;;
  if (count <? Category.alert_on category)%Z
  then Category_save (Category.set_alerted true category) ;;; ret true
  else ret false.

Fixpoint alert_each (l : list Category.t) : M (list nat) :=
  match l with
  | [] => ret []
  | category :: l' =>
      low <- alert_category category ;;
      rest <- alert_each l' ;;
      ret (if low then Category.id category :: rest else rest)
  end.

(** [create_alerts], the [evaluate_alerts] of the alerting notifier: it takes
    no store. The result lists the categories it printed low stock for. *)
Definition create_alerts : M (list nat) :=
  categories <- gets (fun db =>
    filter (fun c => negb (Category.alerted c)) (Category_objects db)) ;;
  alert_each categories.

(* ================================================================== *)
(** ** middleware.py *)

(** [MonitoringCreationMiddleware.process_request]. The two threads write
    different tables and neither reads what the other writes; they are run
    here one after the other. *)
Definition process_request (path : string) (today : Z) : M unit :=
  swept <- gets (fun db =>
    existsb (fun m => (today <=? Monitoring.day m)%Z)
            (Monitoring_objects db)) ;;
  if String.eqb path "/" && negb swept
  then create_monitoring today ;;; swallow (create_alerts ;;; ret tt)
  else ret tt.

(* ================================================================== *)
(** ** views.py: the trend charts of the dashboard *)

(** [list(reversed([today_midnight() - timedelta(days=x) for x in range(5)]))] *)
Definition days (today : Z) : list Z :=
  rev (map (fun x => (today - Z.of_nat x)%Z) (seq 0 5)).

Definition enumerate {A} (l : list A) : list (nat * A) :=
  combine (seq 0 (List.length l)) l.

(** The rows [filter(store=store,category=category,day__gte=date_start,
    day__lt=date_end)] keeps. *)
Definition on_day (sid cid : nat) (day : Z) (m : Monitoring.t) : bool :=
  Nat.eqb (Monitoring.store m) sid
  && opt_nat_eqb (Monitoring.category m) (Some cid)
  && (day <=? Monitoring.day m)%Z && (Monitoring.day m <? day + 1)%Z.

(** Lines 427-450 of [DashboardView.get]: the values of one category. *)
Definition category_values (db : DB) (today : Z) (sid cid : nat) : list Z :=
  fold_left
    (fun obj '(day_index, day) =>
       if Nat.eqb day_index 4
       then obj ++ [Category_count_routers db cid]
       else
         match find (on_day sid cid day) (Monitoring_objects db) with
         | Some monitoring => obj ++ [Monitoring.routers monitoring]
         | None =>
             let default :=
               if Nat.ltb 0 day_index then nth (day_index - 1) obj 0%Z
               else 0%Z in
             obj ++ [default]
         end)
    (enumerate (days today)) [].

Definition store_on_day (sid : nat) (day : Z) (m : Monitoring.t) : bool :=
  Nat.eqb (Monitoring.store m) sid
  && (day <=? Monitoring.day m)%Z && (Monitoring.day m <? day + 1)%Z.

(** [Monitoring.objects.aggregate(total=Sum(Case(When(cond, then=F('routers')),
    default=0)))]: SQL's SUM over every row of the table, which is NULL, and
    [None] in Python, when the table has no row. *)
Definition aggregate_total (sid : nat) (day : Z) (db : DB) : option Z :=
  match Monitoring_objects db with
  | [] => None
  | rows =>
      Some (fold_right Z.add 0%Z
              (map (fun m => if store_on_day sid day m
                             then Monitoring.routers m else 0%Z) rows))
  end.

(** Python's [not total] for [None] or an integer. *)
Definition falsy (total : option Z) : bool :=
  match total with
  | None => true
  | Some v => (v =? 0)%Z
  end.

(** Lines 453-475 of [DashboardView.get]: the values of the whole store. *)
Definition store_monitors (db : DB) (today : Z) (sid : nat)
    : list (option Z) :=
  fold_left
    (fun store_monitors '(day_index, day) =>
       if Nat.eqb day_index 4
       then store_monitors ++ [Some (Store_count_routers db sid)]
       else
         let total := aggregate_total sid day db in
         let total :=
           if falsy total && Nat.ltb 0 day_index
              && negb (existsb (store_on_day sid day) (Monitoring_objects db))
           then nth (day_index - 1) store_monitors None
           else total in
         store_monitors ++ [total])
    (enumerate (days today)) [].

(* ================================================================== *)
(** ** Predicates used in the statements *)

(** The store row a foreign key points to is there. *)
Definition store_exists (db : DB) (sid : nat) : bool :=
  existsb (fun s => Nat.eqb (Store.id s) sid) (Store_objects db).

Definition fk_store (db : DB) (r : Router.t) : bool :=
  match Router.store r with
  | None => true
  | Some sid => store_exists db sid
  end.

(** Two databases that differ at most in their notifications. *)
Definition same_but_notifications (db db' : DB) : Prop :=
  Store_objects db' = Store_objects db /\
  Category_objects db' = Category_objects db /\
  Router_objects db' = Router_objects db /\
  Log_objects db' = Log_objects db /\
  Monitoring_objects db' = Monitoring_objects db /\
  Action_objects db' = Action_objects db.

Definition lookup_router (db : DB) (i : nat) : option Router.t :=
  find (fun r => Nat.eqb (Router.id r) i) (Router_objects db).

(** What [ActionsView_commit] made of [db]: the two saves, one action row, and
    no other table but the notifications touched. *)
Definition committed (user : User.t) (body : ActionBody) (l : Locals)
    (db db' : DB) : Prop :=
  Router_objects db' =
    match l_router2 l with
    | Some r2 => saved_rows r2 (saved_rows (l_router1 l) (Router_objects db))
    | None => saved_rows (l_router1 l) (Router_objects db)
    end
  /\ Action_objects db' =
       Action_objects db ++
       [Action.mk (new_id (map Action.id (Action_objects db)))
          (User.store user) (Some (User.id user)) (body_action body)
          (l_action_order_number l) false
          (Some (Router.id (l_router1 l)))
          (option_map Router.id (l_action_router_2 l))
          (l_reason l) (body_comment body)]
  /\ Store_objects db' = Store_objects db
  /\ Category_objects db' = Category_objects db
  /\ Log_objects db' = Log_objects db
  /\ Monitoring_objects db' = Monitoring_objects db.


(** The status the router with key [i] has in [db]. *)
Definition router_status (db : DB) (i : nat) : option string :=
  option_map Router.status (lookup_router db i).

(** The store the router with key [i] belongs to in [db]. *)
Definition router_store (db : DB) (i : nat) : option (option nat) :=
  option_map Router.store (lookup_router db i).

Definition succeeds (res : Response) : Prop := status res = 200.

(** The row [Router.objects.get_or_create(serial_number=sn)] inserts when no
    router has that serial number: every other column at its default. *)
Definition fresh_router (db : DB) (sn : string) : Router.t :=
  Router.mk (new_id (map Router.id (Router_objects db))) None None sn None
            (Router.STATUS 0) None false false.

(** The constraints the database keeps on the router table: the primary key,
    [unique=True] on the serial number, and the foreign key to the store. *)
Fixpoint distinct {A} (eqb : A -> A -> bool) (l : list A) : bool :=
  match l with
  | [] => true
  | x :: l' => negb (existsb (eqb x) l') && distinct eqb l'
  end.

Definition wf_routers (db : DB) : bool :=
  distinct Nat.eqb (map Router.id (Router_objects db))
  && distinct String.eqb (map Router.serial_number (Router_objects db))
  && forallb (fk_store db) (Router_objects db).


Definition swapped (body : ActionBody) (r2 : Router.t) : Router.t :=
  Router.set_reason (body_return_reason body) (Router.set_status "swap" r2).

Definition swap_locals (store : option nat) (body : ActionBody)
    (r1 r2 : Router.t) : Locals :=
  mkLocals
    (Router.set_store store (Router.set_status "collected" r1))
    (Some (swapped body r2)) (body_swap_reason body)
    (Some (swapped body r2)) None.

(* ================================================================== *)
(** ** A small database for the scenarios *)

(** Store A (key 1, threshold 5) and store B (key 2); category C of store A
    with threshold 5, and a soft-deleted category D of store B; three routers
    in stock in C, one router of store B already collected. *)
Definition demo_db : DB :=
  mkDB
    [ Store.mk 1 "A" 5; Store.mk 2 "B" 50 ]
    [ Category.mk 1 "C" 1 "indoor" false false 5;
      Category.mk 2 "D" 2 "outdoor" true false 5 ]
    [ Router.mk 1 (Some 1) (Some 1) "X" None "in_stock" None false false;
      Router.mk 2 (Some 1) (Some 1) "X2" None "in_stock" None false false;
      Router.mk 3 (Some 1) (Some 1) "X3" None "in_stock" None false false;
      Router.mk 4 (Some 2) None "Z" None "collected" None false false ]
    [] [] [] [].

Definition demo_user : User.t := User.mk 7 (Some "store_manager") (Some 1).

Definition demo_body (action sn1 : string) (sn2 : option string) : ActionBody :=
  mkActionBody action sn1 sn2 None None None None.

(** [db'] has one log row more than [db]: the row of [action] on the
    [instance] with key [i]. *)
Definition logged (db db' : DB) (action instance : string) (i : nat) : Prop :=
  exists l,
    Log_objects db' = Log_objects db ++ [l]
    /\ Log.action l = action
    /\ Log.instance l = instance
    /\ Log.instance_id l = Some i.

(** A computation that leaves the observation [f] of the database as it
    was, whether it returns or raises. *)
Definition preserves {A T} (f : DB -> T) (c : M A) : Prop :=
  forall db, f (fst (c db)) = f db.

(** A category whose live count of routers in stock is strictly below its
    threshold. *)
Definition low_stock (db : DB) (c : Category.t) : bool :=
  (Category_count_routers db (Category.id c) <? Category.alert_on c)%Z.

(** What the latch does to one category row. *)
Definition latch (db : DB) (c : Category.t) : Category.t :=
  if negb (Category.alerted c) && low_stock db c
  then Category.set_alerted true c
  else c.

(** The category rows after the first [done] of the loop of [create_alerts]
    were handled. *)
Definition mark (db : DB) (done : list Category.t) (rows : list Category.t)
    : list Category.t :=
  map (fun x =>
         if existsb (fun c => Nat.eqb (Category.id c) (Category.id x)) done
            && low_stock db x
         then Category.set_alerted true x else x) rows.

Definition wf_categories (db : DB) : bool :=
  distinct Nat.eqb (map Category.id (Category_objects db)).

(** The number of notification rows of store [sid] dated [d]. *)
Definition notification_count (db : DB) (sid : nat) (d : Z) : nat :=
  List.length
    (filter (fun n => Nat.eqb (Notification.store n) sid
                      && (Notification.date_sent n =? d)%Z)
            (Notification_objects db)).

(** [checks db db']: [db'] is what the notification table of [db] became
    after any number of runs of the store-threshold check [router_changed],
    on any day and for any router, whatever happened to the other tables
    between two runs. *)
Inductive checks : DB -> DB -> Prop :=
  | checks_none : forall db, checks db db
  | checks_more : forall db db1 db2 today instance,
      checks db db1 ->
      Notification_objects db2 = Notification_objects db1 ->
      checks db (fst (router_changed today instance db2)).

(* ================================================================== *)
(** ** The trend policy in the words of the specification *)

(** The past days of the window, oldest first: a day takes its stored count
    when it has one, else the value resolved for the day before, else 0. *)
Fixpoint resolve_days (stored : Z -> option Z) (past : list Z)
    (previous : option Z) : list Z :=
  match past with
  | [] => []
  | day :: rest =>
      let value :=
        match stored day with
        | Some count => count
        | None => match previous with Some v => v | None => 0%Z end
        end in
      value :: resolve_days stored rest (Some value)
  end.

(** The last [days_back] days ending today: the past days resolved as above,
    then the live count for today. *)
Definition trend_spec (stored : Z -> option Z) (live : Z) (today : Z)
    (days_back : nat) : list Z :=
  resolve_days stored
    (map (fun k => (today - Z.of_nat k)%Z) (rev (seq 1 (days_back - 1))))
    None
  ++ [live].

(** The stored count of a category for a day: the first Monitoring row of
    that store, category and day. *)
Definition stored_category (db : DB) (sid cid : nat) (day : Z) : option Z :=
  option_map Monitoring.routers
    (find (on_day sid cid day) (Monitoring_objects db)).

(** The stored total of a store for a day: the sum over its Monitoring rows
    of that day, when there is one. *)
Definition stored_store (db : DB) (sid : nat) (day : Z) : option Z :=
  if existsb (store_on_day sid day) (Monitoring_objects db)
  then Some (fold_right Z.add 0%Z
               (map Monitoring.routers
                    (filter (store_on_day sid day) (Monitoring_objects db))))
  else None.

(* ================================================================== *)
(** ** The Monitoring table under the daily sweep *)

(** A row saved with count [v] today. *)
Definition stamped (today : Z) (v : Z) (m : Monitoring.t) : Monitoring.t :=
  Monitoring.mk (Monitoring.id m) (Monitoring.store m) (Monitoring.category m)
                v today.

(** The UPDATE by primary key of [Monitoring_save]. *)
Definition write_row (m : Monitoring.t) (rows : list Monitoring.t)
    : list Monitoring.t :=
  map (fun m' => if Nat.eqb (Monitoring.id m') (Monitoring.id m)
                 then m else m') rows.

(** The Monitoring rows after the innermost [try] of [create_monitoring] ran
    for store [sid] and category [cid] with live count [v]. *)
Definition upsert (today : Z) (sid cid : nat) (v : Z)
    (rows : list Monitoring.t) : list Monitoring.t :=
  match filter (todays today sid cid) rows with
  | [] =>
      let m := Monitoring.mk (new_id (map Monitoring.id rows)) sid (Some cid)
                             0 today in
      write_row (stamped today v m) (rows ++ [m])
  | [m] => write_row (stamped today v m) rows
  | _ :: _ :: _ => rows
  end.

(** The constraints on the Monitoring table: the primary key, and at most
    one row per store and category from today on (the key of the upsert). *)
Definition at_most_one_today (today : Z) (rows : list Monitoring.t) : bool :=
  forallb (fun m =>
             match Monitoring.category m with
             | Some cid =>
                 Nat.leb (List.length
                            (filter (todays today (Monitoring.store m) cid)
                                    rows)) 1
             | None => true
             end) rows.

Definition wf_monitorings (today : Z) (db : DB) : bool :=
  distinct Nat.eqb (map Monitoring.id (Monitoring_objects db))
  && at_most_one_today today (Monitoring_objects db).

(** The Monitoring rows of a store and a category dated exactly [day]. *)
Definition snapshots (db : DB) (sid cid : nat) (day : Z)
    : list Monitoring.t :=
  filter (fun m => Nat.eqb (Monitoring.store m) sid
                   && opt_nat_eqb (Monitoring.category m) (Some cid)
                   && (Monitoring.day m =? day)%Z)
         (Monitoring_objects db).

Definition swept_once (today : Z) (rows : list Monitoring.t) : Prop :=
  NoDup (map Monitoring.id rows)
  /\ forall sid cid,
       List.length (filter (todays today sid cid) rows) <= 1.

(** The key [sid], [cid] has exactly one row from today on, dated today and
    holding the count [v]. *)
Definition snapshot_is (today : Z) (sid cid : nat) (v : Z)
    (rows : list Monitoring.t) : Prop :=
  exists m,
    filter (todays today sid cid) rows = [m]
    /\ Monitoring.routers m = v
    /\ Monitoring.day m = today.

(** The Monitoring rows after the sweep of one store, and of all of them;
    the counts are those of [db], whose routers the sweep does not touch. *)
Definition sweep_store (today : Z) (db : DB) (rows : list Monitoring.t)
    (store : Store.t) : list Monitoring.t :=
  fold_left
    (fun rows c =>
       upsert today (Store.id store) (Category.id c)
              (Category_count_routers db (Category.id c)) rows)
    (filter (fun c => Nat.eqb (Category.store c) (Store.id store))
            (Category_objects db))
    rows.

Definition sweep (today : Z) (db : DB) (rows : list Monitoring.t)
    : list Monitoring.t :=
  fold_left (sweep_store today db) (Store_objects db) rows.

(** Rows and bodies of the scenarios on [demo_db]. *)
Definition demo_X : Router.t :=
  Router.mk 1 (Some 1) (Some 1) "X" None "in_stock" None false false.
Definition demo_Z : Router.t :=
  Router.mk 4 (Some 2) None "Z" None "collected" None false false.
Definition demo_D : Category.t := Category.mk 2 "D" 2 "outdoor" true false 5.
Definition demo_store : Store.t := Store.mk 1 "A" 5.
Definition demo_C : Category.t := Category.mk 1 "C" 1 "indoor" false false 5.

(** [demo_db] with two snapshots of category C: 10 routers on day 1 and 7 on
    day 3. *)
Definition demo_trend_db : DB :=
  with_monitorings
    [ Monitoring.mk 1 1 (Some 1) 10 1; Monitoring.mk 2 1 (Some 1) 7 3 ]
    demo_db.

(* ================================================================== *)
(** ** views.py: the other views that write routers and actions *)

Definition set_shipped (v : bool) (r : Router.t) : Router.t :=
  Router.mk (Router.id r) (Router.store r) (Router.category r)
            (Router.serial_number r) (Router.emei r) (Router.status r)
            (Router.reason r) (Router.deleted r) v.

(** Python truthiness of a key that may be [None]: 0 is falsy. *)
Definition truthy_id (i : option nat) : bool :=
  match i with
  | Some (S _) => true
  | _ => false
  end.

(** [RouterView.patch]: any role may toggle the shipped flag of a router of
    its store. *)
Definition RouterView_patch (today : Z) (user : User.t) (router_id : option nat)
    : DB -> DB * Response :=
  try_except (response_error "An error occured while processing the request") (
    if truthy_id router_id
    then
      router <- gets (own_router user router_id) ;;
      match router with
      | Some router =>
          Router_save today (set_shipped (negb (Router.shipped router)) router) ;;;
          ret (mkResponse 200
                 (Some "Router shipment status updated successfully"))
      | None => ret (mkResponse 400 (Some "Router not found"))
      end
    else
      ret (response_error "An error occured while processing the request")).

Definition set_action_shipped (v : bool) (a : Action.t) : Action.t :=
  Action.mk (Action.id a) (Action.store a) (Action.user a) (Action.action a)
            (Action.order_number a) v (Action.router a) (Action.router2 a)
            (Action.reason a) (Action.comment a).

(** [action.save()] of a row read from the table. *)
Definition Action_save (a : Action.t) : M unit :=
  modify (fun db =>
    with_actions
      (map (fun a' => if Nat.eqb (Action.id a') (Action.id a) then a else a')
           (Action_objects db)) db).

Definition own_action (user : User.t) (i : option nat) (db : DB)
    : option Action.t :=
  match i with
  | Some i =>
      find (fun a => Nat.eqb (Action.id a) i
                     && opt_nat_eqb (Action.store a) (User.store user))
           (Action_objects db)
  | None => None
  end.

(** [ActionsView.put]: the refusal of a user who is no manager keeps the
    status 500 the response started with. *)
Definition ActionsView_put (user : User.t) (action_id : option nat)
    : DB -> DB * Response :=
  try_except (response_error "An error occured while processing the request") (
    if negb (is_store_manager user)
    then ret (response_error "You don't have enough permissions")
    else
      action <- gets (own_action user action_id) ;;
      match action with
      | Some action =>
          Action_save
            (set_action_shipped (if Action.shipped action then false else true)
                                action) ;;;
          ret (mkResponse 200 (Some "Action edited successfully"))
      | None => ret (response_error "Action not found")
      end).

Definition Router_by_id (i : option nat) (db : DB) : option Router.t :=
  match i with
  | Some i => lookup_router db i
  | None => None
  end.

Definition Store_by_id (i : option nat) (db : DB) : option Store.t :=
  match i with
  | Some i => find (fun s => Nat.eqb (Store.id s) i) (Store_objects db)
  | None => None
  end.

(** [SwitchStore.post]: it reads neither the user nor a role. *)
Definition SwitchStore_post (today : Z) (router_id new_store : option nat)
    : DB -> DB * Response :=
  try_except (response_error "An error occured while processing the request") (
    router <- gets (Router_by_id router_id) ;;
    store <- gets (Store_by_id new_store) ;;
    match router, store with
    | Some router, Some store =>
        Router_save today (Router.set_store (Some (Store.id store)) router) ;;;
        ret (mkResponse 200 (Some "Store switched successfully"))
    | Some _, None => ret (response_error "Store not found")
    | None, _ => ret (response_error "Router not found")
    end).

(** The routers [count_routers] counts: not deleted and in stock. *)
Definition counted (r : Router.t) : bool :=
  negb (Router.deleted r) && String.eqb (Router.status r) "in_stock".

(** 1 when the router counts for the store [sid], else 0. *)
Definition counts_for_store (sid : nat) (r : Router.t) : Z :=
  if opt_nat_eqb (Router.store r) (Some sid) && counted r then 1%Z else 0%Z.

Definition counts_for_category (cid : nat) (r : Router.t) : Z :=
  if opt_nat_eqb (Router.category r) (Some cid) && counted r then 1%Z else 0%Z.

(** The store of the user, when it has one, is a row of the store table. *)
Definition user_fk (db : DB) (user : User.t) : bool :=
  match User.store user with
  | Some sid => store_exists db sid
  | None => true
  end.

(** The router [Router.objects.create] inserts into [db]. *)
Definition created_router (db : DB) (store category : option nat)
    (sn : string) (emei : option string) : Router.t :=
  Router.mk (new_id (map Router.id (Router_objects db))) store category sn
            emei "in_stock" None false false.

(** One turn of the loop of [CreateRoutersView.post], inside its own [try]. *)
Definition bulk_one (today : Z) (user : User.t) (category : option Category.t)
    (sn : string) : M unit :=
  swallow (
    router <- Router_create today (User.store user)
                (option_map Category.id category) sn None ;;
    Router_save today router ;;;
    Log_create (User.store user) (Some (User.id user)) "router"
               (Router.id router) (Some (Router.serial_number router)) None
               "add").

(** [CreateRoutersView.post]: the category is looked up once, every serial
    number is tried, and the alerted flag of the category is cleared last. *)
Definition CreateRoutersView_post (today : Z) (user : User.t)
    (category : option nat) (serial_numbers : list string)
    : DB -> DB * Response :=
  try_except (response_error "An error occured while processing the request") (
    if negb (is_store_manager user)
    then ret (forbidden "You don't have permissions")
    else
      category <- gets (Category_by_id category) ;;
      for_each serial_numbers (bulk_one today user category) ;;;
      match category with
      | None => raise AttributeError
      | Some category =>
          Category_save (Category.set_alerted false category) ;;;
          ret response_ok
      end).

(** The serial numbers of a batch that get a router: those not in the table
    and not earlier in the batch. *)
Fixpoint accepted (taken : list string) (sns : list string) : list string :=
  match sns with
  | [] => []
  | sn :: rest =>
      if existsb (fun s => String.eqb s sn) taken
      then accepted taken rest
      else sn :: accepted (taken ++ [sn]) rest
  end.

(* ================================================================== *)
(** ** models.py: the receiver of the admin console's log entries *)

(** Python's [needle in s] on strings. *)
Fixpoint contains (needle s : string) : bool :=
  String.prefix needle s
  || match s with
     | EmptyString => false
     | String _ s' => contains needle s'
     end.

(** What the receiver reads of a [LogEntry]: the key of the object, the text
    of its content type, the action flag and the user. *)
Record LogEntry := mkLogEntry
  { object_id : option nat;
    content_type : string;
    action_flag : nat;
    entry_user : nat }.

(** The exceptions of the receiver: those of the ORM, and the read of a
    local variable that no branch assigned. *)
Inductive SignalExn : Type :=
  | Raised (e : Exn)
  | UnboundLocalError.

(** [action_flag]: add = 1, edit = 2, delete = 3; [None] otherwise. *)
Definition flag_action (flag : nat) : option string :=
  match flag with
  | 1 => Some "add"
  | 2 => Some "edit"
  | 3 => Some "delete"
  | _ => None
  end.

(** [action_created], the [post_save] receiver of [LogEntry]. The local
    [serial_number] is assigned in the router branch only, and read when the
    log row is built for either kind of instance. *)
Definition action_created (instance : LogEntry) (db : DB)
    : DB * (SignalExn + unit) :=
  let instance_id := object_id instance in
  let action := flag_action (action_flag instance) in
  if contains "router" (content_type instance) then
    match Router_by_id instance_id db with
    | None => (db, inl (Raised AttributeError))
    | Some router =>
        match action with
        | None => (db, inl (Raised IntegrityError))
        | Some action =>
            match
              Log_create (Router.store router) (Some (entry_user instance))
                "router" (Router.id router)
                (Some (Router.serial_number router)) None action db
            with
            | (db', inl e) => (db', inl (Raised e))
            | (db', inr u) => (db', inr u)
            end
        end
    end
  else if contains "category" (content_type instance) then
    match Category_by_id instance_id db with
    | None => (db, inl (Raised AttributeError))
    | Some category => (db, inl UnboundLocalError)
    end
  else (db, inr tt).

(* ================================================================== *)
(** ** views.py: importing routers *)

(** One entry of the list [RouterView.post] receives. *)
Record ImportItem := mkImportItem
  { item_id : option nat;
    item_category : option string;
    item_emei : option string;
    item_serial_number : option string }.

(** [Category.objects.filter(name=..).first()]: by name, in any store. *)
Definition Category_by_name (name : option string) (db : DB)
    : option Category.t :=
  match name with
  | Some n => find (fun c => String.eqb (Category.name c) n)
                   (Category_objects db)
  | None => None
  end.

(** The unique constraint, when an existing row is written with the serial
    number [sn]. *)
Definition serial_clash (i : nat) (sn : string) (db : DB) : bool :=
  existsb (fun r => negb (Nat.eqb (Router.id r) i)
                    && String.eqb (Router.serial_number r) sn)
          (Router_objects db).

(** The body of the [try] of the loop of [RouterView.post]; the result says
    whether [imported += 1] ran. *)
Definition import_one (today : Z) (user : User.t) (item : ImportItem)
    : M bool :=
  category <- gets (Category_by_name (item_category item)) ;;
  match category with
  | None => ret false
  | Some category =>
      existing <- gets (Router_by_id (item_id item)) ;;
      match existing with
      | None =>
          sn <- not_null (item_serial_number item) ;;
          router <- Router_create today (User.store user)
                      (Some (Category.id category)) sn (item_emei item) ;;
          Router_save today router ;;;
          Log_create (User.store user) (Some (User.id user)) "router"
                     (Router.id router) (Some (Router.serial_number router))
                     None "add" ;;;
          ret true
      | Some old =>
          if Router.deleted old
          then
            sn <- not_null (item_serial_number item) ;;
            clash <- gets (serial_clash (Router.id old) sn) ;;
            if clash then raise IntegrityError
            else
              let router :=
                Router.mk (Router.id old) (Router.store old)
                  (Some (Category.id category)) sn (item_emei item)
                  (Router.status old) (Router.reason old) false
                  (Router.shipped old) in
              Router_save today router ;;;
              Log_create (User.store user) (Some (User.id user)) "router"
                         (Router.id router)
                         (Some (Router.serial_number router)) None "add" ;;;
              ret true
          else ret false
      end
  end.

(** [try: ... except Exception: logger.exception(e)] around a turn that
    counts: an exception leaves the counter as it was. *)
Definition attempt (c : M bool) : M bool :=
  fun db =>
    match c db with
    | (db', inr b) => (db', inr b)
    | (db', inl _) => (db', inr false)
    end.

Fixpoint import_each (today : Z) (user : User.t) (items : list ImportItem)
    : M nat :=
  match items with
  | [] => ret 0
  | item :: rest =>
      b <- attempt (import_one today user item) ;;
      n <- import_each today user rest ;;
      ret ((if b then 1 else 0) + n)
  end.

(** [f'{imported} routers imported'] *)
Definition imported_message (imported : nat) : string :=
  NilZero.string_of_uint (Nat.to_uint imported) ++ " routers imported".

(** [RouterView.post]: it asks for no role. *)
Definition RouterView_post (today : Z) (user : User.t)
    (routers : list ImportItem) : DB -> DB * Response :=
  try_except (response_error "An error occured while processing the request") (
    imported <- import_each today user routers ;;
    ret (mkResponse 200 (Some (imported_message imported)))).

(** How one turn of the import leaves the router table: as it was, with one
    new row under a new key, or with a new version of the soft-deleted row
    the entry named. *)
Definition import_rows (item : ImportItem) (db db1 : DB) : Prop :=
  Router_objects db1 = Router_objects db
  \/ (exists new, ~ In (Router.id new) (map Router.id (Router_objects db))
                  /\ Router_objects db1 = Router_objects db ++ [new])
  \/ (exists old r', In old (Router_objects db)
                     /\ Router.deleted old = true
                     /\ Router.id r' = Router.id old
                     /\ Router_objects db1
                        = saved_rows r' (Router_objects db)).

(** How it leaves the log table, [b] telling whether the turn counted. *)
Definition import_logs (b : bool) (db db1 : DB) : Prop :=
  if b
  then exists l, Log_objects db1 = Log_objects db ++ [l]
                 /\ Log.action l = "add" /\ Log.instance l = "router"
  else Log_objects db1 = Log_objects db.

(* ================================================================== *)
(** ** templatetags/role_tags.py and the home page *)

(** [User.Roles] *)
Definition User_Roles : list (string * string) :=
  [ ("store_manager", "Store manager");
    ("senior_management", "Senior management");
    ("stock_handler", "Stock handler") ].

(** The loop of both tags: the label of the first choice whose key is the
    value, and the value itself when there is none. *)
Fixpoint label_of (choices : list (string * string)) (value : string)
    : string :=
  match choices with
  | [] => value
  | choice :: rest =>
      if String.eqb (fst choice) value then snd choice
      else label_of rest value
  end.

Definition get_correct_role (value : string) : string :=
  label_of User_Roles value.

Definition get_correct_status (value : string) : string :=
  label_of Router.STATUSES value.

(** What [HomePage.get] puts in the context. *)
Record HomeContext := mkHomeContext
  { more_categories : bool;
    more_routers : bool;
    home_categories : list Category.t;
    home_routers : list Router.t }.

(** [HomePage.get]: six rows are fetched, five are shown. *)
Definition HomePage_get (user : User.t) (db : DB) : HomeContext :=
  let categories :=
    firstn 6 (filter (fun c => opt_nat_eqb (Some (Category.store c))
                                           (User.store user)
                               && negb (Category.deleted c))
                     (Category_objects db)) in
  let routers :=
    firstn 6 (filter (fun r => opt_nat_eqb (Router.store r) (User.store user)
                               && negb (Router.deleted r))
                     (Router_objects db)) in
  mkHomeContext (Nat.ltb 5 (List.length categories))
                (Nat.ltb 5 (List.length routers))
                (firstn 5 categories) (firstn 5 routers).

(* ================================================================== *)
(** ** Accounts: [SignupView], [ProfileView], [CreateStoreView] *)

(** A row of the [User] table with the columns the account views write.
    [User.t] above is what the other views read of [req.user]. *)
Module Account.
Record t := mk
  { id : nat; username : string; email : string; password : string;
    role : option string; store : option nat }.

Definition set_password (v : string) (a : t) : t :=
  mk (id a) (username a) (email a) v (role a) (store a).
Definition set_role (v : option string) (a : t) : t :=
  mk (id a) (username a) (email a) (password a) v (store a).
Definition set_store (v : option nat) (a : t) : t :=
  mk (id a) (username a) (email a) (password a) (role a) v.
End Account.

(** [user.save()] on the [User] table (rows in primary-key order). *)
Definition saved_accounts (a : Account.t) (rows : list Account.t)
    : list Account.t :=
  if existsb (fun a' => Nat.eqb (Account.id a') (Account.id a)) rows
  then map (fun a' => if Nat.eqb (Account.id a') (Account.id a) then a else a')
           rows
  else rows ++ [a].

(** [username_or_email_exists] of common.py *)
Definition username_or_email_exists (username email : string)
    (users : list Account.t) : bool :=
  existsb (fun u => String.eqb (Account.username u) username
                    || String.eqb (Account.email u) email) users.

(** [User.objects.create(username=..., email=...)]: [username] is unique in
    [AbstractUser]; [None] stands for the [IntegrityError]. *)
Definition User_create (username email : string) (users : list Account.t)
    : option (Account.t * list Account.t) :=
  if existsb (fun u => String.eqb (Account.username u) username) users
  then None
  else
    let user := Account.mk (new_id (map Account.id users)) username email ""
                           None None in
    Some (user, users ++ [user]).

(** Text is held as its UTF-8 encoding: a byte of the form 10xxxxxx continues
    a character, every other byte starts one. *)
Definition continuation (c : Ascii.ascii) : bool :=
  match c with
  | Ascii.Ascii _ _ _ _ _ _ b6 b7 => b7 && negb b6
  end.

(** Python's [len] of a [str]: its number of characters. *)
Fixpoint len (s : string) : nat :=
  match s with
  | EmptyString => 0
  | String c s' => if continuation c then len s' else S (len s')
  end.

Record SignupBody := mkSignupBody
  { signup_username : option string;
    signup_email : option string;
    password1 : option string;
    password2 : option string }.

Section Signup.

(** The hasher behind [set_password]. *)
Variable make_password : string -> string.

(** [SignupView.post], for a body whose fields are strings or absent. *)
Definition SignupView_post (body : SignupBody) (users : list Account.t)
    : list Account.t * Response :=
  let res := response_error "An error occured while processing the request" in
  if negb (forallb truthy [signup_username body; signup_email body;
                           password1 body; password2 body])
  then (users, response_error "All fields are required")
  else
    match signup_username body, signup_email body,
          password1 body, password2 body with
    | Some username, Some email, Some password1, Some password2 =>
        if negb (String.eqb password1 password2)
        then (users, response_error "Passwords do not match")
        else if Nat.ltb (len password1) 8
        then (users, response_error "The password is too short")
        else if username_or_email_exists username email users
        then (users, response_error "Username or email already exists")
        else
          match User_create username email users with
          | Some (user, users') =>
              (saved_accounts
                 (Account.set_password (make_password password1) user) users',
               response_ok)
          | None => (users, res)
          end
    | _, _, _, _ => (users, res)
    end.

End Signup.

(** [User.objects.filter(Q(username=username) | Q(email=username)).first()] *)
Definition User_by_name (name : option string) (users : list Account.t)
    : option Account.t :=
  match name with
  | Some name =>
      find (fun u => String.eqb (Account.username u) name
                     || String.eqb (Account.email u) name) users
  | None => None
  end.

(** [User.objects.filter(id=user_id).first()] *)
Definition User_by_id (i : option nat) (users : list Account.t)
    : option Account.t :=
  match i with
  | Some i => find (fun u => Nat.eqb (Account.id u) i) users
  | None => None
  end.

(** [ProfileView.post]: a store manager gives a role to an account, taking
    it into the manager's store when it is not there. *)
Definition ProfileView_post (user : User.t) (username role : option string)
    (users : list Account.t) : list Account.t * Response :=
  if negb (is_store_manager user)
  then (users, forbidden "You don't have enough permissions")
  else
    let store := User.store user in
    match User_by_name username users with
    | Some added_user =>
        if opt_nat_eqb (Account.store added_user) store
        then (saved_accounts (Account.set_role role added_user) users,
              mkResponse 200 (Some "User edited successfully"))
        else (saved_accounts
                (Account.set_role role (Account.set_store store added_user))
                users,
              mkResponse 200 (Some "User added successfully"))
    | None => (users, response_error "User not found")
    end.

(** [ProfileView.delete]: a store manager takes an account out of its store. *)
Definition ProfileView_delete (user : User.t) (user_id : option nat)
    (users : list Account.t) : list Account.t * Response :=
  if negb (is_store_manager user)
  then (users, forbidden "You don't have enough permissions")
  else
    match User_by_id user_id users with
    | Some store_user =>
        (saved_accounts
           (Account.set_store None (Account.set_role None store_user)) users,
         mkResponse 200 (Some "User deleted successfully"))
    | None => (users, response_error "Can't find the user")
    end.

Definition with_stores (l : list Store.t) (db : DB) : DB :=
  mkDB l (Category_objects db) (Router_objects db) (Log_objects db)
       (Monitoring_objects db) (Action_objects db) (Notification_objects db).

(** [store.save()] *)
Definition saved_stores (s : Store.t) (rows : list Store.t) : list Store.t :=
  if existsb (fun s' => Nat.eqb (Store.id s') (Store.id s)) rows
  then map (fun s' => if Nat.eqb (Store.id s') (Store.id s) then s else s') rows
  else rows ++ [s].

(** Python truthiness of a JSON integer that may be absent. *)
Definition truthy_value (v : option Z) : bool :=
  match v with
  | Some v => negb (Z.eqb v 0)
  | None => false
  end.

(** The integers an integer column holds in SQLite, Django's default
    database: 64 bits, signed. [IntegerField] checks no range on [save()]. *)
Definition fits_integer (v : Z) : bool :=
  ((- 2 ^ 63 <=? v) && (v <? 2 ^ 63))%Z.

(** What [store.save()] can raise: an exception of the ORM, or the driver's
    [OverflowError] for an integer the column cannot hold. *)
Inductive SaveExn : Type :=
  | Orm (e : Exn)
  | OverflowError.

(** [store.save()]: nothing is written when the driver refuses a value. *)
Definition Store_save (s : Store.t) (db : DB) : DB * (SaveExn + unit) :=
  if fits_integer (Store.alert_on s)
  then (with_stores (saved_stores s (Store_objects db)) db, inr tt)
  else (db, inl OverflowError).

(** [req.user.store], about to be written to. *)
Definition acting_store (user : User.t) : M Store.t :=
  match User.store user with
  | Some sid => get_store sid
  | None => raise AttributeError
  end.

(** [ProfileView.put]: the alert threshold of the user's store. *)
Definition ProfileView_put (user : User.t) (value : option Z) (db : DB)
    : DB * Response :=
  let res := response_error "An error occured while processing the request" in
  match value with
  | Some v =>
      if truthy_value value
      then
        match acting_store user db with
        | (db1, inr store) =>
            match Store_save (Store.mk (Store.id store) (Store.name store) v)
                             db1 with
            | (db2, inr _) =>
                (db2, mkResponse 200 (Some "Alert threshold edited successfully"))
            | (db2, inl _) => (db2, res)
            end
        | (db1, inl _) => (db1, res)
        end
      else (db, res)
  | None => (db, res)
  end.

(** [CreateStoreView.post]: the store is created, then the acting user is
    made its manager. *)
Definition CreateStoreView_post (user : Account.t) (name : option string)
    (db : DB) (users : list Account.t) : DB * list Account.t * Response :=
  let res := response_error "An error occured while processing the request" in
  match name with
  | Some name =>
      let store := Store.mk (new_id (map Store.id (Store_objects db))) name 50
      in
      (with_stores (Store_objects db ++ [store]) db,
       saved_accounts
         (Account.set_role (Some "store_manager")
            (Account.set_store (Some (Store.id store)) user)) users,
       response_ok)
  | None => (db, users, res)
  end.

(** What the other views read of an account. *)
Definition req_user (a : Account.t) : User.t :=
  User.mk (Account.id a) (Account.role a) (Account.store a).

(* ================================================================== *)
(** ** The router list of [RouterView.get] *)

(** A row of [.values('id','category__name','emei','serial_number')]. *)
Record RouterRow := mkRouterRow
  { row_id : nat;
    row_category_name : option string;
    row_emei : option string;
    row_serial_number : string }.

(** [category__name]: the join along the foreign key. *)
Definition category_name (db : DB) (r : Router.t) : option string :=
  match Category_by_id (Router.category r) db with
  | Some c => Some (Category.name c)
  | None => None
  end.

(** [RouterView.get]: the routers of the user's store by descending key (the
    table is in key order). *)
Definition RouterView_get (user : User.t) (db : DB) : list RouterRow :=
  map (fun r => mkRouterRow (Router.id r) (category_name db r) (Router.emei r)
                            (Router.serial_number r))
      (rev (filter (fun r => opt_nat_eqb (Router.store r) (User.store user))
                   (Router_objects db))).

(* ================================================================== *)
(** ** More rows for the scenarios *)

(** A stock handler of store A. *)
Definition demo_handler : User.t := User.mk 8 (Some "stock_handler") (Some 1).

(** [demo_db] with one sale of store A on record. *)
Definition demo_action_db : DB :=
  with_actions
    [ Action.mk 1 (Some 1) (Some 7) "sale" None false (Some 1) None None None ]
    demo_db.

(** [demo_db] with a fifth router, soft-deleted, of store B. *)
Definition demo_old : Router.t :=
  Router.mk 5 (Some 2) None "OLD" None "collected" None true false.

Definition demo_deleted_db : DB :=
  with_routers (Router_objects demo_db ++ [demo_old]) demo_db.

(** The manager of store A and the manager of store B. *)
Definition demo_ann : Account.t :=
  Account.mk 7 "ann" "ann@a.example" "h1" (Some "store_manager") (Some 1).
Definition demo_bob : Account.t :=
  Account.mk 9 "bob" "bob@b.example" "h2" (Some "store_manager") (Some 2).
Definition demo_users : list Account.t := [demo_ann; demo_bob].

Definition demo_hash (p : string) : string := "hash$" ++ p.

(** A password of five characters and ten bytes. *)
Definition e_acute : string :=
  String (Ascii.ascii_of_nat 195) (String (Ascii.ascii_of_nat 169) EmptyString).
Definition demo_short_password : string :=
  e_acute ++ e_acute ++ e_acute ++ e_acute ++ e_acute.
(* ================================================================== *)
(** ** Reasoning about the monad and about [save] *)

Lemma bind_inr {A B} (c : M A) (k : A -> M B) db db1 a :
  c db = (db1, inr a) -> bind c k db = k a db1.
Proof. intros H. unfold bind. now rewrite H. Qed.

Lemma bind_inl {A B} (c : M A) (k : A -> M B) db db1 e :
  c db = (db1, inl e) -> bind c k db = (db1, inl e).
Proof. intros H. unfold bind. now rewrite H. Qed.

Lemma bind_gets {A B} (f : DB -> A) (k : A -> M B) db :
  bind (gets f) k db = k (f db) db.
Proof. reflexivity. Qed.

Lemma bind_ret {A B} (a : A) (k : A -> M B) db :
  bind (ret a) k db = k a db.
Proof. reflexivity. Qed.

Lemma bind_modify {B} (f : DB -> DB) (k : unit -> M B) db :
  bind (modify f) k db = k tt (f db).
Proof. reflexivity. Qed.

Lemma same_but_notifications_refl db : same_but_notifications db db.
Proof. repeat split. Qed.

Lemma store_exists_find db sid :
  store_exists db sid = true ->
  exists s, find (fun s => Nat.eqb (Store.id s) sid) (Store_objects db) = Some s.
Proof.
  unfold store_exists. intros H.
  destruct (find _ (Store_objects db)) as [s|] eqn:E; [now exists s|].
  apply existsb_exists in H. destruct H as [s [Hin Hs]].
  now rewrite (find_none _ _ E s Hin) in Hs.
Qed.

Lemma router_changed_ok today r db :
  fk_store db r = true ->
  exists db', router_changed today r db = (db', inr tt)
              /\ same_but_notifications db db'.
Proof.
  unfold fk_store, router_changed. intros H.
  destruct (Router.store r) as [sid|].
  - destruct (store_exists_find _ _ H) as [s Hs].
    unfold bind, get_store, gets. rewrite Hs.
    destruct (_ && _).
    + eexists. split; [reflexivity|]. repeat split.
    + eexists. split; [reflexivity|]. repeat split.
  - exists db. split; [reflexivity|apply same_but_notifications_refl].
Qed.

Lemma Router_save_ok today r db :
  fk_store db r = true ->
  exists db', Router_save today r db = (db', inr tt)
              /\ same_but_notifications
                   (with_routers (saved_rows r (Router_objects db)) db) db'.
Proof.
  intros H. unfold Router_save. rewrite bind_modify.
  apply router_changed_ok. exact H.
Qed.

Lemma find_saved_rows_id r rows :
  find (fun x => Nat.eqb (Router.id x) (Router.id r)) (saved_rows r rows)
  = Some r.
Proof.
  unfold saved_rows.
  destruct (existsb _ rows) eqn:E.
  - induction rows as [|x rows IH]; [discriminate|].
    simpl in *. destruct (Nat.eqb (Router.id x) (Router.id r)) eqn:Ex.
    + now rewrite Nat.eqb_refl.
    + rewrite Ex. apply IH. exact E.
  - induction rows as [|x rows IH]; simpl in *.
    + now rewrite Nat.eqb_refl.
    + apply orb_false_elim in E. destruct E as [Ex E].
      rewrite Ex. now apply IH.
Qed.

Lemma find_saved_rows_other r rows i :
  i <> Router.id r ->
  find (fun x => Nat.eqb (Router.id x) i) (saved_rows r rows)
  = find (fun x => Nat.eqb (Router.id x) i) rows.
Proof.
  intros Hi. unfold saved_rows.
  assert (Hr : Nat.eqb (Router.id r) i = false)
    by (apply Nat.eqb_neq; congruence).
  destruct (existsb _ rows).
  - induction rows as [|x rows IH]; [reflexivity|]. simpl.
    destruct (Nat.eqb (Router.id x) (Router.id r)) eqn:Ex.
    + apply Nat.eqb_eq in Ex. rewrite Hr.
      replace (Nat.eqb (Router.id x) i) with false; [exact IH|].
      symmetry. apply Nat.eqb_neq. congruence.
    + now rewrite IH.
  - induction rows as [|x rows IH]; simpl.
    + now rewrite Hr.
    + now rewrite IH.
Qed.

(** A query that found [r] finds its saved version when the saved row still
    satisfies the query. *)
Lemma find_saved_rows_query (p : Router.t -> bool) r r' rows :
  find p rows = Some r -> Router.id r' = Router.id r -> p r' = true ->
  find p (saved_rows r' rows) = Some r'.
Proof.
  intros Hf Hid Hp. unfold saved_rows.
  assert (Hin : existsb (fun x => Nat.eqb (Router.id x) (Router.id r')) rows
                = true).
  { apply existsb_exists. exists r. split.
    - now apply find_some in Hf.
    - apply Nat.eqb_eq. congruence. }
  rewrite Hin. clear Hin.
  induction rows as [|x rows IH]; [discriminate|]. simpl in *.
  destruct (Nat.eqb (Router.id x) (Router.id r')) eqn:Ex.
  - now rewrite Hp.
  - destruct (p x) eqn:Epx.
    + inversion Hf; subst x. apply Nat.eqb_neq in Ex. congruence.
    + now apply IH.
Qed.

Lemma fk_store_ext db db' r :
  Store_objects db' = Store_objects db -> fk_store db' r = fk_store db r.
Proof.
  intros H. unfold fk_store, store_exists. now rewrite H.
Qed.

(* ================================================================== *)
(** ** Symbolic execution of [ActionsView_post] *)

Lemma ActionsView_branch_pure store body r1 r2 db :
  fst (ActionsView_branch store body r1 r2 db) = db.
Proof.
  unfold ActionsView_branch, user_set.
  repeat match goal with
         | |- context [if ?b then _ else _] => destruct b
         | |- context [match ?x with _ => _ end] => destruct x
         end; reflexivity.
Qed.

Lemma resolve_router1_found today store body db r :
  find (in_store store (body_sn1 body)) (Router_objects db) = Some r ->
  resolve_router1 today store body db = (db, inr (Some r)).
Proof.
  intros H. unfold resolve_router1. rewrite bind_gets. now rewrite H.
Qed.

Lemma resolve_router2_none today store body db :
  truthy (body_sn2 body) = false ->
  resolve_router2 today store body db = (db, inr None).
Proof.
  unfold resolve_router2. destruct (body_sn2 body) as [s|]; [|reflexivity].
  now intros ->.
Qed.

Lemma ActionsView_commit_ok today user body l db :
  fk_store db (l_router1 l) = true ->
  match l_router2 l with
  | Some r2 => fk_store db r2 = true
  | None => True
  end ->
  exists db', ActionsView_commit today user body l db = (db', inr response_ok)
              /\ committed user body l db db'.
Proof.
  intros H1 H2. unfold ActionsView_commit, Action_create.
  rewrite bind_gets, bind_modify.
  set (db1 := with_actions _ db).
  destruct (Router_save_ok today (l_router1 l) db1) as [db2 [E2 S2]].
  { now rewrite (fk_store_ext db db1). }
  rewrite (bind_inr _ _ _ _ _ E2).
  destruct S2 as (Ss & Sc & Sr & Sl & Sm & Sa). simpl in *.
  unfold committed.
  destruct (l_router2 l) as [r2|].
  - destruct (Router_save_ok today r2 db2) as [db3 [E3 S3]].
    { now rewrite (fk_store_ext db db2). }
    rewrite (bind_inr _ _ _ _ _ E3).
    destruct S3 as (Ts & Tc & Tr & Tl & Tm & Ta). simpl in *.
    exists db3. split; [reflexivity|].
    rewrite Tr, Ta, Ts, Tc, Tl, Tm, Sr. repeat split; assumption.
  - exists db2. split; [reflexivity|]. repeat split; assumption.
Qed.

Lemma post_found today user body db r :
  find (in_store (User.store user) (body_sn1 body)) (Router_objects db)
    = Some r ->
  truthy (body_sn2 body) = false ->
  ActionsView_post today user body db =
  try_except UnexpectedError
    (after <- ActionsView_branch (User.store user) body r None ;;
     match after with
     | inl res => ret res
     | inr l => ActionsView_commit today user body l
     end) db.
Proof.
  intros Hf H2. unfold ActionsView_post, try_except.
  rewrite (bind_inr _ _ _ _ _ (resolve_router1_found today _ _ _ _ Hf)).
  now rewrite (bind_inr _ _ _ _ _ (resolve_router2_none today _ _ _ H2)).
Qed.

Lemma in_store_fk db sid sn r :
  store_exists db sid = true -> in_store (Some sid) sn r = true ->
  fk_store db r = true.
Proof.
  unfold in_store, fk_store, opt_nat_eqb. intros Hs H.
  destruct (Router.store r) as [s|]; [|reflexivity].
  apply andb_prop in H. destruct H as [H _]. apply Nat.eqb_eq in H.
  now subst s.
Qed.

Section Sale_and_collect.
Variables (today : Z) (user : User.t) (sid : nat) (body : ActionBody).
Hypothesis acting_store : User.store user = Some sid.
Hypothesis no_sn2 : truthy (body_sn2 body) = false.

Let found (db : DB) (r : Router.t) : Prop :=
  find (in_store (Some sid) (body_sn1 body)) (Router_objects db) = Some r.

Lemma sale_refused db r :
  body_action body = "sale" -> found db r ->
  Router.status r <> "in_stock" ->
  ActionsView_post today user body db =
  (db, InvalidTransition
         (if String.eqb (Router.status r) "new_sale"
          then "This router is already sold."
          else if String.eqb (Router.status r) "collected"
          then "This router is already collected."
          else "This router is not in stock.")).
Proof.
  intros Ha Hf Hs. unfold found in Hf. rewrite <- acting_store in Hf.
  rewrite (post_found _ _ _ _ _ Hf no_sn2).
  unfold try_except, ActionsView_branch. rewrite Ha. simpl.
  apply String.eqb_neq in Hs. unfold Router.STATUS. simpl. rewrite Hs. simpl.
  destruct (String.eqb (Router.status r) "new_sale"); [reflexivity|].
  destruct (String.eqb (Router.status r) "collected"); reflexivity.
Qed.

Lemma sale_done db r :
  body_action body = "sale" -> found db r -> store_exists db sid = true ->
  Router.status r = "in_stock" ->
  exists db',
    ActionsView_post today user body db = (db', response_ok)
    /\ committed user body
         (mkLocals (Router.set_status "new_sale" r) None None None
                   (body_order_number body)) db db'.
Proof.
  intros Ha Hf Hst Hs. pose proof Hf as Hf'. unfold found in Hf.
  rewrite <- acting_store in Hf.
  rewrite (post_found _ _ _ _ _ Hf no_sn2).
  unfold try_except, ActionsView_branch. rewrite Ha. simpl.
  unfold Router.STATUS. simpl. rewrite Hs. simpl.
  rewrite acting_store. cbn [user_set bind ret].
  edestruct (ActionsView_commit_ok today user body) as [db' [E C]];
    [| | rewrite E; exists db'; split; [reflexivity | exact C]].
  - simpl. apply find_some in Hf'. destruct Hf' as [_ Hin].
    rewrite <- (in_store_fk db sid _ r Hst Hin). reflexivity.
  - exact I.
Qed.

Lemma collect_refused db r :
  body_action body = "collect" -> found db r ->
  Router.status r <> "in_stock" -> Router.status r <> "new_sale" ->
  ActionsView_post today user body db =
  (db, InvalidTransition
         (if String.eqb (Router.status r) "collected"
          then "This router is already collected."
          else "This router is not sold.")).
Proof.
  intros Ha Hf Hs Hn. unfold found in Hf. rewrite <- acting_store in Hf.
  rewrite (post_found _ _ _ _ _ Hf no_sn2).
  unfold try_except, ActionsView_branch. rewrite Ha. simpl.
  apply String.eqb_neq in Hs, Hn. unfold Router.STATUS. simpl.
  rewrite Hs, Hn. simpl.
  destruct (String.eqb (Router.status r) "collected"); reflexivity.
Qed.

Lemma collect_done db r :
  body_action body = "collect" -> found db r -> store_exists db sid = true ->
  Router.status r = "in_stock" \/ Router.status r = "new_sale" ->
  exists db',
    ActionsView_post today user body db = (db', response_ok)
    /\ committed user body
         (mkLocals (Router.set_status "collected" r) None None None
                   (body_order_number body)) db db'.
Proof.
  intros Ha Hf Hst Hs. pose proof Hf as Hf'. unfold found in Hf.
  rewrite <- acting_store in Hf.
  rewrite (post_found _ _ _ _ _ Hf no_sn2).
  unfold try_except, ActionsView_branch. rewrite Ha. simpl.
  unfold Router.STATUS. simpl.
  assert (Hb : negb (String.eqb (Router.status r) "new_sale")
               && negb (String.eqb (Router.status r) "in_stock") = false).
  { destruct Hs as [-> | ->]; reflexivity. }
  rewrite Hb. cbn [bind ret].
  edestruct (ActionsView_commit_ok today user body) as [db' [E C]];
    [| | rewrite E; exists db'; split; [reflexivity | exact C]].
  - simpl. apply find_some in Hf'. destruct Hf' as [_ Hin].
    rewrite <- (in_store_fk db sid _ r Hst Hin). reflexivity.
  - exact I.
Qed.
End Sale_and_collect.



(* ================================================================== *)
(** ** Keys and unique columns *)

Lemma distinct_NoDup {A} (eqb : A -> A -> bool) (l : list A) :
  (forall x y, eqb x y = true <-> x = y) ->
  distinct eqb l = true -> NoDup l.
Proof.
  intros Heq. induction l as [|x l IH]; simpl; intros H; constructor.
  - apply andb_prop in H. destruct H as [H _].
    intros Hin. apply negb_true_iff in H.
    assert (E : existsb (eqb x) l = true).
    { apply existsb_exists. exists x. split; [exact Hin|now apply Heq]. }
    congruence.
  - apply IH. apply andb_prop in H. tauto.
Qed.

Lemma NoDup_map_inj {A B} (f : A -> B) (l : list A) a b :
  NoDup (map f l) -> In a l -> In b l -> f a = f b -> a = b.
Proof.
  induction l as [|x l IH]; simpl; [tauto|].
  intros N Ha Hb E. inversion N as [|y l' Nx Nl]; subst.
  destruct Ha as [->|Ha], Hb as [->|Hb]; auto.
  - exfalso. apply Nx. rewrite E. now apply in_map.
  - exfalso. apply Nx. rewrite <- E. now apply in_map.
Qed.

Lemma NoDup_map_filter {A B} (f : A -> B) (p : A -> bool) (l : list A) r :
  NoDup (map f l) -> In r l ->
  (forall x, p x = true <-> f x = f r) ->
  filter p l = [r].
Proof.
  intros N Hin Hp. induction l as [|x l IH]; [destruct Hin|].
  simpl in *. inversion N as [|y l' Nx Nl]; subst.
  assert (Hnone : forall l0, (forall z, In z l0 -> f z <> f r) ->
                             filter p l0 = []).
  { induction l0 as [|z l0 IH0]; [reflexivity|]. intros Hz. simpl.
    destruct (p z) eqn:Ez.
    - apply Hp in Ez. exfalso. apply (Hz z); [now left|exact Ez].
    - apply IH0. intros w Hw. apply Hz. now right. }
  destruct Hin as [->|Hin].
  - replace (p r) with true by (symmetry; now apply Hp).
    f_equal. apply Hnone. intros z Hz E. apply Nx. rewrite <- E.
    now apply in_map.
  - destruct (p x) eqn:Ex.
    + apply Hp in Ex. exfalso. apply Nx. rewrite Ex. now apply in_map.
    + now apply IH.
Qed.

Lemma new_id_fresh (ids : list nat) i : In i ids -> i < new_id ids.
Proof.
  unfold new_id. induction ids as [|x ids IH]; simpl; [tauto|].
  intros [->|H]; [lia|]. specialize (IH H). lia.
Qed.

Lemma wf_routers_ids db :
  wf_routers db = true -> NoDup (map Router.id (Router_objects db)).
Proof.
  unfold wf_routers. intros H. apply andb_prop in H. destruct H as [H _].
  apply andb_prop in H. destruct H as [H _].
  apply (distinct_NoDup Nat.eqb); [apply Nat.eqb_eq|exact H].
Qed.

Lemma wf_routers_serials db :
  wf_routers db = true -> NoDup (map Router.serial_number (Router_objects db)).
Proof.
  unfold wf_routers. intros H. apply andb_prop in H. destruct H as [H _].
  apply andb_prop in H. destruct H as [_ H].
  apply (distinct_NoDup String.eqb); [apply String.eqb_eq|exact H].
Qed.

Lemma wf_routers_fk db r :
  wf_routers db = true -> In r (Router_objects db) -> fk_store db r = true.
Proof.
  unfold wf_routers. intros H Hin. apply andb_prop in H. destruct H as [_ H].
  rewrite forallb_forall in H. now apply H.
Qed.

(* ================================================================== *)
(** ** Resolving the routers of an action *)

Lemma filter_nil_existsb {A} (p : A -> bool) (l : list A) :
  filter p l = [] -> existsb p l = false.
Proof.
  induction l as [|x l IH]; [reflexivity|]. simpl.
  destruct (p x); [discriminate|exact IH].
Qed.

Lemma get_or_create_for_absent today store sn db :
  filter (fun r => String.eqb (Router.serial_number r) sn) (Router_objects db)
    = [] ->
  get_or_create_for today store sn db =
  (with_routers (Router_objects db ++ [fresh_router db sn]) db,
   inr (Router.set_store store (fresh_router db sn))).
Proof.
  intros H. unfold get_or_create_for, Router_get_or_create, bind, gets.
  rewrite H. unfold Router_create, serial_taken, bind, gets.
  rewrite (filter_nil_existsb _ _ H). reflexivity.
Qed.

Lemma get_or_create_for_present today store sn db r :
  filter (fun r => String.eqb (Router.serial_number r) sn) (Router_objects db)
    = [r] ->
  get_or_create_for today store sn db = (db, inr r).
Proof.
  intros H. unfold get_or_create_for, Router_get_or_create, bind, gets.
  rewrite H. reflexivity.
Qed.

Lemma serial_filter_unique db sn r :
  NoDup (map Router.serial_number (Router_objects db)) ->
  In r (Router_objects db) -> Router.serial_number r = sn ->
  filter (fun r => String.eqb (Router.serial_number r) sn) (Router_objects db)
    = [r].
Proof.
  intros N Hin <-. apply (NoDup_map_filter Router.serial_number); auto.
  intros x. apply String.eqb_eq.
Qed.

Lemma serial_filter_none db sn :
  (forall r, In r (Router_objects db) -> Router.serial_number r <> sn) ->
  filter (fun r => String.eqb (Router.serial_number r) sn) (Router_objects db)
    = [].
Proof.
  intros H. induction (Router_objects db) as [|x l IH]; [reflexivity|].
  simpl. destruct (String.eqb_spec (Router.serial_number x) sn) as [e|n].
  - exfalso. apply (H x); [now left|exact e].
  - apply IH. intros r Hr. apply H. now right.
Qed.

Lemma resolve_router1_None today store body db db1 :
  resolve_router1 today store body db = (db1, inr None) ->
  find (in_store store (body_sn1 body)) (Router_objects db) = None
  /\ body_action body <> "return" /\ body_action body <> "swap".
Proof.
  unfold resolve_router1. rewrite bind_gets.
  destruct (find _ (Router_objects db)) as [r|]; [discriminate|].
  destruct (String.eqb_spec (body_action body) "return") as [e|n];
    [|destruct (String.eqb_spec (body_action body) "swap") as [e'|n']];
    simpl.
  - unfold bind. destruct (get_or_create_for _ _ _ _) as [d [x|x]];
      discriminate.
  - unfold bind. destruct (get_or_create_for _ _ _ _) as [d [x|x]];
      discriminate.
  - intros _. auto.
Qed.

Lemma resolve_router1_skipped today store body db :
  find (in_store store (body_sn1 body)) (Router_objects db) = None ->
  body_action body <> "return" -> body_action body <> "swap" ->
  resolve_router1 today store body db = (db, inr None).
Proof.
  intros Hf Hr Hs. unfold resolve_router1. rewrite bind_gets, Hf.
  apply String.eqb_neq in Hr, Hs. now rewrite Hr, Hs.
Qed.

Lemma ActionsView_branch_refusal store body r1 r2 db db' res :
  ActionsView_branch store body r1 r2 db = (db', inr (inl res)) ->
  res <> RouterNotFound.
Proof.
  unfold ActionsView_branch, user_set.
  repeat match goal with
         | |- context [if ?b then _ else _] => destruct b
         | |- context [match ?x with _ => _ end] => destruct x
         end;
    cbn; intros H; inversion H; discriminate.
Qed.

Lemma ActionsView_commit_response today user body l db db' res :
  ActionsView_commit today user body l db = (db', inr res) ->
  res = response_ok.
Proof.
  unfold ActionsView_commit, Action_create. rewrite bind_gets, bind_modify.
  unfold bind.
  destruct (Router_save _ _ _) as [d1 [e1|[]]]; [discriminate|].
  destruct (l_router2 l) as [r2|].
  - destruct (Router_save _ _ _) as [d2 [e2|[]]]; [discriminate|].
    unfold ret. congruence.
  - unfold ret. congruence.
Qed.

Lemma post_not_RouterNotFound today user body db db1 r1 :
  resolve_router1 today (User.store user) body db = (db1, inr (Some r1)) ->
  snd (ActionsView_post today user body db) <> RouterNotFound.
Proof.
  intros H. unfold ActionsView_post, try_except.
  rewrite (bind_inr _ _ _ _ _ H). unfold bind.
  destruct (resolve_router2 _ _ _ _) as [d2 [e|r2]]; [discriminate|].
  destruct (ActionsView_branch _ _ _ _ _) as [d3 [e|[res|l]]] eqn:B;
    [discriminate| |].
  - simpl. eapply ActionsView_branch_refusal. exact B.
  - destruct (ActionsView_commit _ _ _ _ _) as [d4 [e|res]] eqn:C;
      [discriminate|].
    simpl. rewrite (ActionsView_commit_response _ _ _ _ _ _ _ C).
    discriminate.
Qed.

(** The resolution of the primary router, by the outcome of the lookup in
    the acting store. *)
Lemma resolve_router1_cases today user body db :
  NoDup (map Router.serial_number (Router_objects db)) ->
  let store := User.store user in
  let sn1 := body_sn1 body in
  let scoped := find (in_store store sn1) (Router_objects db) in
  let fallback := body_action body = "return" \/ body_action body = "swap" in
  (forall r, scoped = Some r ->
     resolve_router1 today store body db = (db, inr (Some r)))
  /\ (forall r, scoped = None -> fallback ->
        In r (Router_objects db) -> Router.serial_number r = sn1 ->
        resolve_router1 today store body db = (db, inr (Some r)))
  /\ (scoped = None -> fallback ->
      (forall r, In r (Router_objects db) -> Router.serial_number r <> sn1) ->
        resolve_router1 today store body db =
        (with_routers (Router_objects db ++ [fresh_router db sn1]) db,
         inr (Some (Router.set_store store (fresh_router db sn1)))))
  /\ (snd (ActionsView_post today user body db) = RouterNotFound
      <-> scoped = None /\ ~ fallback).
Proof.
  intros N store sn1 scoped fallback.
  assert (Hfb : scoped = None -> fallback ->
                resolve_router1 today store body db =
                (r <- get_or_create_for today store sn1 ;; ret (Some r)) db).
  { intros Hs Hf. unfold resolve_router1. rewrite bind_gets.
    fold sn1. fold scoped. rewrite Hs.
    destruct Hf as [-> | ->]; reflexivity. }
  split; [|split; [|split]].
  - intros r Hs. now apply resolve_router1_found.
  - intros r Hs Hf Hin Hsn. rewrite (Hfb Hs Hf).
    erewrite bind_inr; [reflexivity|].
    apply get_or_create_for_present. now apply serial_filter_unique.
  - intros Hs Hf Hno. rewrite (Hfb Hs Hf).
    erewrite bind_inr; [reflexivity|].
    apply get_or_create_for_absent. now apply serial_filter_none.
  - split.
    + intros H.
      destruct (resolve_router1 today store body db) as [d1 [e|[r1|]]] eqn:R.
      * exfalso. revert H. unfold ActionsView_post, try_except.
        rewrite (bind_inl _ _ _ _ _ R). discriminate.
      * exfalso. exact (post_not_RouterNotFound _ _ _ _ _ _ R H).
      * apply resolve_router1_None in R. destruct R as (Hs & Hr & Hw).
        split; [exact Hs|]. intros [F|F]; contradiction.
    + intros [Hs Hf]. unfold ActionsView_post, try_except.
      rewrite (bind_inr _ _ _ db None
                 (resolve_router1_skipped today store body db Hs
                    (fun F => Hf (or_introl F)) (fun F => Hf (or_intror F)))).
      reflexivity.
Qed.

(* ================================================================== *)
(** ** Return and swap *)


Lemma resolve_router2_given today store body db sn2 :
  body_sn2 body = Some sn2 -> sn2 <> "" ->
  resolve_router2 today store body db =
  (r <- get_or_create_for today store sn2 ;; ret (Some r)) db.
Proof.
  intros H Hn. unfold resolve_router2. rewrite H. simpl.
  apply String.eqb_neq in Hn. now rewrite Hn.
Qed.

Lemma swap_run today user sid body db db1 db2 r1 r2 :
  User.store user = Some sid -> store_exists db sid = true ->
  body_action body = "swap" ->
  resolve_router1 today (User.store user) body db = (db1, inr (Some r1)) ->
  resolve_router2 today (User.store user) body db1 = (db2, inr (Some r2)) ->
  Store_objects db2 = Store_objects db ->
  fk_store db2 r2 = true ->
  exists db',
    ActionsView_post today user body db = (db', response_ok)
    /\ committed user body (swap_locals (Some sid) body r1 r2) db2 db'.
Proof.
  intros Hu Hst Ha R1 R2 Hs Hfk. unfold ActionsView_post, try_except.
  rewrite (bind_inr _ _ _ _ _ R1), (bind_inr _ _ _ _ _ R2).
  unfold ActionsView_branch. rewrite Ha, Hu. cbn [String.eqb Ascii.eqb
    Bool.eqb user_set bind ret Router.STATUS Router.STATUSES nth fst].
  edestruct (ActionsView_commit_ok today user body
               (swap_locals (Some sid) body r1 r2) db2) as [db' [E C]].
  - simpl. unfold fk_store, store_exists. simpl. rewrite Hs. exact Hst.
  - simpl. exact Hfk.
  - unfold swap_locals, swapped in E. rewrite E. exists db'.
    split; [reflexivity|]. exact C.
Qed.

Lemma in_store_serial store sn r :
  in_store store sn r = true -> Router.serial_number r = sn.
Proof.
  unfold in_store. intros H. apply andb_prop in H.
  now apply String.eqb_eq.
Qed.

Lemma resolve_router1_existing today store body db r1 :
  NoDup (map Router.serial_number (Router_objects db)) ->
  In r1 (Router_objects db) -> Router.serial_number r1 = body_sn1 body ->
  body_action body = "return" \/ body_action body = "swap" ->
  resolve_router1 today store body db = (db, inr (Some r1)).
Proof.
  intros N Hin Hsn Hf.
  destruct (find (in_store store (body_sn1 body)) (Router_objects db))
    as [r|] eqn:E.
  - rewrite (resolve_router1_found _ _ _ _ _ E).
    apply find_some in E. destruct E as [Hr Hp].
    apply in_store_serial in Hp.
    now rewrite (NoDup_map_inj Router.serial_number _ r r1 N Hr Hin)
      by congruence.
  - unfold resolve_router1. rewrite bind_gets, E.
    replace (_ || _) with true
      by (destruct Hf as [-> | ->]; reflexivity).
    erewrite bind_inr; [reflexivity|].
    apply get_or_create_for_present. now apply serial_filter_unique.
Qed.

Lemma serial_filter_cases db sn :
  NoDup (map Router.serial_number (Router_objects db)) ->
  (forall r, In r (Router_objects db) -> Router.serial_number r <> sn)
  \/ exists r, In r (Router_objects db) /\ Router.serial_number r = sn.
Proof.
  intros N.
  destruct (find (fun r => String.eqb (Router.serial_number r) sn)
                 (Router_objects db)) as [r|] eqn:E.
  - right. exists r. apply find_some in E. destruct E as [Hin He].
    split; [exact Hin|now apply String.eqb_eq].
  - left. intros r Hin. apply String.eqb_neq. exact (find_none _ _ E r Hin).
Qed.

Lemma committed_swap_lookup user body store r1 r2 db db' :
  committed user body (swap_locals store body r1 r2) db db' ->
  Router.id r2 <> Router.id r1 ->
  lookup_router db' (Router.id r1)
    = Some (Router.set_store store (Router.set_status "collected" r1))
  /\ lookup_router db' (Router.id r2) = Some (swapped body r2).
Proof.
  intros [Hr _] Hne. simpl in Hr. unfold lookup_router. rewrite Hr. split.
  - rewrite find_saved_rows_other by (simpl; congruence).
    apply (find_saved_rows_id
             (Router.set_store store (Router.set_status "collected" r1))).
  - apply (find_saved_rows_id (swapped body r2)).
Qed.


Lemma lookup_new_id db :
  lookup_router db (new_id (map Router.id (Router_objects db))) = None.
Proof.
  unfold lookup_router.
  destruct (find _ (Router_objects db)) as [r|] eqn:E; [|reflexivity].
  apply find_some in E. destruct E as [Hin He]. apply Nat.eqb_eq in He.
  pose proof (new_id_fresh (map Router.id (Router_objects db)) (Router.id r)
                (in_map _ _ _ Hin)). lia.
Qed.

(** C8, as the code has it. A swap by store A of serial X, a router of store
    A, against a serial Y that no router has: the view succeeds, inserts a
    router with serial Y, leaves X collected and in store A, leaves Y in
    status swap and in store A as well, adds exactly one action row, with X
    as its router and Y as its second router, and writes no log row. *)
Theorem swap_creates_secondary today user sid body db x sn2 :
  User.store user = Some sid ->
  store_exists db sid = true ->
  body_action body = "swap" ->
  find (in_store (Some sid) (body_sn1 body)) (Router_objects db) = Some x ->
  body_sn2 body = Some sn2 -> sn2 <> "" ->
  (forall r, In r (Router_objects db) -> Router.serial_number r <> sn2) ->
  let db' := fst (ActionsView_post today user body db) in
  let res := snd (ActionsView_post today user body db) in
  let y := fresh_router db sn2 in
  succeeds res
  /\ lookup_router db (Router.id y) = None
  /\ option_map Router.serial_number (lookup_router db' (Router.id y))
     = Some sn2
  /\ router_status db' (Router.id x) = Some "collected"
  /\ router_status db' (Router.id y) = Some "swap"
  /\ router_store db' (Router.id y) = Some (Some sid)
  /\ router_store db' (Router.id x) = Some (Some sid)
  /\ (exists a, Action_objects db' = Action_objects db ++ [a]
                /\ Action.action a = "swap"
                /\ Action.router a = Some (Router.id x)
                /\ Action.router2 a = Some (Router.id y))
  /\ Log_objects db' = Log_objects db.
Proof.
  intros Hu Hst Ha Hf Hb Hne Hno db' res y.
  pose proof Hf as Hf'. rewrite <- Hu in Hf'.
  pose proof (resolve_router1_found today _ _ _ _ Hf') as R1.
  assert (R2 : resolve_router2 today (User.store user) body db =
               (with_routers (Router_objects db ++ [y]) db,
                inr (Some (Router.set_store (User.store user) y)))).
  { rewrite (resolve_router2_given _ _ _ _ _ Hb Hne).
    erewrite bind_inr; [reflexivity|].
    apply get_or_create_for_absent. now apply serial_filter_none. }
  destruct (swap_run today user sid body db db _ x _ Hu Hst Ha R1 R2 eq_refl)
    as [d [E C]].
  { rewrite Hu. exact Hst. }
  subst db' res. rewrite E. simpl.
  assert (Hid : Router.id (Router.set_store (User.store user) y)
                <> Router.id x).
  { simpl. apply find_some in Hf. destruct Hf as [Hin _].
    pose proof (new_id_fresh (map Router.id (Router_objects db)) (Router.id x)
                  (in_map _ _ _ Hin)). lia. }
  destruct (committed_swap_lookup _ _ _ _ _ _ _ C Hid) as [L1 L2].
  simpl in L2. unfold router_status, router_store.
  fold (Router.id y). rewrite L1, L2. rewrite Hu. simpl.
  split; [reflexivity|]. split; [apply lookup_new_id|].
  repeat (split; [reflexivity|]).
  destruct C as (_ & Hact & _ & _ & Hlog & _). simpl in Hact, Hlog.
  split; [|exact Hlog].
  eexists. split; [exact Hact|]. simpl. rewrite Ha. repeat split.
Qed.

(** C8 as the specification words it fails on the store of Y: in the
    scenario on [demo_db] (X a router of store 1, no router with serial Y),
    the router created for Y ends in store 1, not without a store. *)
Lemma swap_secondary_store_is_set :
  let body := demo_body "swap" "X" (Some "Y") in
  let db' := fst (ActionsView_post 0 demo_user body demo_db) in
  option_map Router.store
    (find (in_store (Some 1) "X") (Router_objects demo_db)) = Some (Some 1)
  /\ serial_taken "Y" demo_db = false
  /\ succeeds (snd (ActionsView_post 0 demo_user body demo_db))
  /\ option_map Router.store
       (find (fun r => String.eqb (Router.serial_number r) "Y")
             (Router_objects db')) = Some (Some 1)
  /\ ~ option_map Router.store
         (find (fun r => String.eqb (Router.serial_number r) "Y")
               (Router_objects db')) = Some None.
Proof.
  vm_compute. repeat split; discriminate.
Qed.

(* ================================================================== *)
(** ** What a computation leaves untouched *)

Lemma preserves_ret {A T} (f : DB -> T) (a : A) : preserves f (ret a).
Proof. intros db. reflexivity. Qed.

Lemma preserves_raise {A T} (f : DB -> T) e : preserves f (@raise A e).
Proof. intros db. reflexivity. Qed.

Lemma preserves_gets {A T} (f : DB -> T) (g : DB -> A) : preserves f (gets g).
Proof. intros db. reflexivity. Qed.

Lemma preserves_modify {T} (f : DB -> T) (g : DB -> DB) :
  (forall db, f (g db) = f db) -> preserves f (modify g).
Proof. intros H db. apply H. Qed.

Lemma preserves_bind {A B T} (f : DB -> T) (c : M A) (k : A -> M B) :
  preserves f c -> (forall a, preserves f (k a)) -> preserves f (bind c k).
Proof.
  intros Hc Hk db. unfold bind. specialize (Hc db).
  destruct (c db) as [db1 [e|a]]; simpl in *; [exact Hc|].
  rewrite (Hk a db1). exact Hc.
Qed.

Lemma preserves_if {A T} (f : DB -> T) (b : bool) (c1 c2 : M A) :
  preserves f c1 -> preserves f c2 -> preserves f (if b then c1 else c2).
Proof. destruct b; auto. Qed.

Create HintDb frame.
#[local] Hint Resolve preserves_ret preserves_raise preserves_gets
  preserves_bind preserves_if : frame.

Lemma router_changed_inv today r db db1 x :
  router_changed today r db = (db1, x) -> same_but_notifications db db1.
Proof.
  unfold router_changed.
  destruct (Router.store r) as [sid|].
  - unfold bind, get_store, gets.
    destruct (find _ (Store_objects db)) as [s|].
    + destruct (_ && _); intros H; inversion H; subst; repeat split.
    + intros H; inversion H; subst. apply same_but_notifications_refl.
  - intros H; inversion H; subst. apply same_but_notifications_refl.
Qed.

Lemma router_changed_keeps_logs today r :
  preserves Log_objects (router_changed today r).
Proof.
  intros db. destruct (router_changed today r db) as [db1 x] eqn:E.
  apply router_changed_inv in E. simpl. apply E.
Qed.

Lemma Router_save_keeps_logs today r : preserves Log_objects (Router_save today r).
Proof.
  unfold Router_save. apply preserves_bind.
  - now apply preserves_modify.
  - intros _. apply router_changed_keeps_logs.
Qed.

Lemma Router_create_keeps_logs today st cat sn em :
  preserves Log_objects (Router_create today st cat sn em).
Proof.
  unfold Router_create. apply preserves_bind; [auto with frame|].
  intros taken. apply preserves_if; [auto with frame|].
  apply preserves_bind; [auto with frame|]. intros i.
  apply preserves_bind; [now apply preserves_modify|]. intros _.
  apply preserves_bind; [apply router_changed_keeps_logs|].
  auto with frame.
Qed.

Lemma get_or_create_for_keeps_logs today store sn :
  preserves Log_objects (get_or_create_for today store sn).
Proof.
  unfold get_or_create_for, Router_get_or_create.
  apply preserves_bind; [|auto with frame].
  apply preserves_bind; [auto with frame|]. intros [|r [|r' l]];
    auto with frame.
  apply preserves_bind; [apply Router_create_keeps_logs|auto with frame].
Qed.

#[local] Hint Resolve router_changed_keeps_logs Router_save_keeps_logs
  Router_create_keeps_logs get_or_create_for_keeps_logs : frame.

Lemma ActionsView_branch_keeps_logs store body r1 r2 :
  preserves Log_objects (ActionsView_branch store body r1 r2).
Proof.
  intros db. now rewrite ActionsView_branch_pure.
Qed.

Lemma ActionsView_commit_keeps_logs today user body l :
  preserves Log_objects (ActionsView_commit today user body l).
Proof.
  unfold ActionsView_commit, Action_create.
  apply preserves_bind; [auto with frame|]. intros i.
  apply preserves_bind; [now apply preserves_modify|]. intros _.
  apply preserves_bind; [auto with frame|]. intros _.
  apply preserves_bind; [|auto with frame].
  destruct (l_router2 l); auto with frame.
Qed.

(** The actions view never writes the log table. *)
Lemma ActionsView_post_keeps_logs today user body db :
  Log_objects (fst (ActionsView_post today user body db)) = Log_objects db.
Proof.
  assert (P : preserves Log_objects
    (router1 <- resolve_router1 today (User.store user) body ;;
     match router1 with
     | None => ret RouterNotFound
     | Some router1 =>
        router2 <- resolve_router2 today (User.store user) body ;;
        after <- ActionsView_branch (User.store user) body router1 router2 ;;
        match after with
        | inl res => ret res
        | inr l => ActionsView_commit today user body l
        end
     end)).
  { apply preserves_bind.
    - unfold resolve_router1. apply preserves_bind; [auto with frame|].
      intros [r|]; [auto with frame|].
      apply preserves_if; auto with frame.
    - intros [r1|]; [|auto with frame].
      apply preserves_bind.
      + unfold resolve_router2. destruct (body_sn2 body); auto with frame.
      + intros r2. apply preserves_bind;
          [apply ActionsView_branch_keeps_logs|].
        intros [res|l]; [auto with frame|].
        apply ActionsView_commit_keeps_logs. }
  specialize (P db). unfold ActionsView_post, try_except.
  match goal with
  | |- context [let (_, _) := ?c db in _] =>
      destruct (c db) as [db1 [e|res]]
  end; exact P.
Qed.

(* ================================================================== *)
(** ** The log rows of the create, edit and delete views *)

Lemma Router_create_inv today st cat sn em db db1 r :
  Router_create today st cat sn em db = (db1, inr r) ->
  r = Router.mk (new_id (map Router.id (Router_objects db))) st cat sn em
                "in_stock" None false false
  /\ Router_objects db1 = Router_objects db ++ [r]
  /\ Log_objects db1 = Log_objects db.
Proof.
  unfold Router_create. rewrite bind_gets.
  destruct (serial_taken sn db); [discriminate|].
  rewrite bind_gets, bind_modify. unfold bind.
  destruct (router_changed _ _ _) as [d [e|[]]] eqn:E; [discriminate|].
  intros H. inversion H; subst. apply router_changed_inv in E.
  destruct E as (_ & _ & Hr & Hl & _). simpl in *. auto.
Qed.

Lemma Router_save_inv today r db db1 u :
  Router_save today r db = (db1, inr u) ->
  Router_objects db1 = saved_rows r (Router_objects db)
  /\ Log_objects db1 = Log_objects db.
Proof.
  unfold Router_save. rewrite bind_modify. intros E.
  apply router_changed_inv in E. destruct E as (_ & _ & Hr & Hl & _).
  simpl in *. auto.
Qed.

Ltac refused := simpl; unfold succeeds; simpl; discriminate.

Lemma CreateRouterView_post_logged today user body db :
  let db' := fst (CreateRouterView_post today user body db) in
  succeeds (snd (CreateRouterView_post today user body db)) ->
  exists r,
    lookup_router db (Router.id r) = None
    /\ lookup_router db' (Router.id r) = Some r
    /\ Some (Router.serial_number r) = rbody_serial_number body
    /\ logged db db' "add" "router" (Router.id r).
Proof.
  unfold CreateRouterView_post.
  destruct (is_store_manager user); [|refused]. simpl.
  rewrite bind_gets.
  destruct (rbody_serial_number body) as [sn|]; [|refused].
  simpl. rewrite bind_ret.
  destruct (Router_create today (User.store user)
              (option_map Category.id (Category_by_id (rbody_category body) db))
              sn None db) as [db1 [e|r]] eqn:RC.
  { rewrite (bind_inl _ _ _ _ _ RC). destruct e; refused. }
  rewrite (bind_inr _ _ _ _ _ RC).
  destruct (Router_save today r db1) as [db2 [e|[]]] eqn:RS.
  { rewrite (bind_inl _ _ _ _ _ RS). destruct e; refused. }
  rewrite (bind_inr _ _ _ _ _ RS).
  destruct (Category_by_id (rbody_category body) db) as [c|]; [|refused].
  simpl. intros _.
  apply Router_create_inv in RC. destruct RC as (Hr & Hrows & Hlog).
  apply Router_save_inv in RS. destruct RS as (Hrows2 & Hlog2).
  exists r. split; [|split; [|split]].
  - rewrite Hr. simpl. apply lookup_new_id.
  - unfold lookup_router. simpl. rewrite Hrows2. apply find_saved_rows_id.
  - now rewrite Hr.
  - eexists. simpl. rewrite Hlog2, Hlog. repeat split.
Qed.

Lemma RouterView_put_logged today user body db :
  let db' := fst (RouterView_put today user body db) in
  succeeds (snd (RouterView_put today user body db)) ->
  exists r r',
    own_router user (rbody_id body) db = Some r
    /\ Router.id r' = Router.id r
    /\ lookup_router db' (Router.id r) = Some r'
    /\ Some (Router.status r') = rbody_status body
    /\ logged db db' "edit" "router" (Router.id r).
Proof.
  unfold RouterView_put, try_except.
  destruct (is_store_manager user); [|refused]. simpl.
  rewrite !bind_gets.
  destruct (own_router user (rbody_id body) db) as [r|]; [|refused].
  destruct (rbody_serial_number body) as [sn|]; [|refused].
  simpl. rewrite bind_ret.
  destruct (rbody_status body) as [st|]; [|refused].
  simpl. rewrite bind_ret, bind_gets.
  destruct (existsb _ (Router_objects db)); [refused|].
  match goal with
  | |- context [Router_save today ?x] => set (r' := x)
  end.
  destruct (Router_save today r' db) as [db1 [e|[]]] eqn:RS.
  { rewrite (bind_inl _ _ _ _ _ RS). refused. }
  rewrite (bind_inr _ _ _ _ _ RS). simpl. intros _.
  apply Router_save_inv in RS. destruct RS as (Hrows & Hlog).
  exists r, r'. split; [reflexivity|]. split; [reflexivity|].
  split; [|split; [reflexivity|]].
  - unfold lookup_router. simpl. rewrite Hrows.
    apply (find_saved_rows_id r').
  - eexists. simpl. rewrite Hlog. repeat split.
Qed.

Lemma RouterView_delete_logged today user body db :
  let db' := fst (RouterView_delete today user body db) in
  succeeds (snd (RouterView_delete today user body db)) ->
  exists r,
    own_router user (rbody_id body) db = Some r
    /\ lookup_router db' (Router.id r) = Some (Router.set_deleted true r)
    /\ logged db db' "delete" "router" (Router.id r).
Proof.
  unfold RouterView_delete, try_except.
  destruct (is_store_manager user); [|refused]. simpl.
  rewrite bind_gets.
  destruct (own_router user (rbody_id body) db) as [r|]; [|refused].
  destruct (Router_save today (Router.set_deleted true r) db)
    as [db1 [e|[]]] eqn:RS.
  { rewrite (bind_inl _ _ _ _ _ RS). refused. }
  rewrite (bind_inr _ _ _ _ _ RS). simpl. intros _.
  apply Router_save_inv in RS. destruct RS as (Hrows & Hlog).
  exists r. split; [reflexivity|]. split.
  - unfold lookup_router. simpl. rewrite Hrows.
    apply (find_saved_rows_id (Router.set_deleted true r)).
  - eexists. simpl. rewrite Hlog. repeat split.
Qed.

Lemma find_category_saved c rows :
  existsb (fun x => Nat.eqb (Category.id x) (Category.id c)) rows = true ->
  find (fun x => Nat.eqb (Category.id x) (Category.id c))
       (map (fun c' => if Nat.eqb (Category.id c') (Category.id c)
                       then c else c') rows) = Some c.
Proof.
  induction rows as [|x rows IH]; [discriminate|]. simpl.
  destruct (Nat.eqb (Category.id x) (Category.id c)) eqn:E.
  - now rewrite Nat.eqb_refl.
  - rewrite E. exact IH.
Qed.

Lemma own_category_in user i db c :
  own_category user i db = Some c ->
  existsb (fun x => Nat.eqb (Category.id x) (Category.id c))
          (Category_objects db) = true.
Proof.
  unfold own_category. destruct i as [i|]; [|discriminate].
  intros H. apply find_some in H. destruct H as [Hin _].
  apply existsb_exists. exists c. split; [exact Hin|apply Nat.eqb_refl].
Qed.

Lemma category_new_id db :
  Category_by_id (Some (new_id (map Category.id (Category_objects db)))) db
  = None.
Proof.
  unfold Category_by_id.
  destruct (find _ (Category_objects db)) as [c|] eqn:E; [|reflexivity].
  apply find_some in E. destruct E as [Hin He]. apply Nat.eqb_eq in He.
  pose proof (new_id_fresh (map Category.id (Category_objects db))
                (Category.id c) (in_map _ _ _ Hin)). lia.
Qed.

Lemma CreateCategoryView_post_logged user body db :
  let db' := fst (CreateCategoryView_post user body db) in
  succeeds (snd (CreateCategoryView_post user body db)) ->
  exists c,
    Category_by_id (Some (Category.id c)) db = None
    /\ Category_by_id (Some (Category.id c)) db' = Some c
    /\ Some (Category.name c) = cbody_name body
    /\ logged db db' "add" "category" (Category.id c).
Proof.
  unfold CreateCategoryView_post, try_except.
  destruct (is_store_manager user); [|refused]. simpl.
  destruct (cbody_name body) as [name|]; [|refused].
  destruct (cbody_type body) as [type|]; [|refused].
  destruct (User.store user) as [sid|]; [|refused].
  simpl. intros _.
  exists (Category.mk (new_id (map Category.id (Category_objects db)))
                      name sid type false false 50).
  split; [apply category_new_id|]. split; [|split; [reflexivity|]].
  - unfold Category_by_id. simpl.
    apply (find_category_saved
             (Category.mk (new_id (map Category.id (Category_objects db)))
                          name sid type false false 50)).
    rewrite existsb_app. simpl. rewrite Nat.eqb_refl. apply orb_true_r.
  - eexists. simpl. repeat split.
Qed.

Lemma CategoryView_put_logged user body db :
  let db' := fst (CategoryView_put user body db) in
  succeeds (snd (CategoryView_put user body db)) ->
  exists c c',
    own_category user (cbody_id body) db = Some c
    /\ Category.id c' = Category.id c
    /\ Category_by_id (Some (Category.id c)) db' = Some c'
    /\ Some (Category.name c') = cbody_name body
    /\ logged db db' "edit" "category" (Category.id c).
Proof.
  unfold CategoryView_put, try_except.
  destruct (is_store_manager user); [|refused]. simpl.
  rewrite bind_gets.
  destruct (own_category user (cbody_id body) db) as [c|] eqn:O; [|refused].
  destruct (cbody_name body) as [name|]; [|refused].
  destruct (cbody_type body) as [type|]; [|refused].
  simpl. intros _.
  exists c, (Category.set_name_type name type c).
  split; [reflexivity|]. split; [reflexivity|].
  split; [|split; [reflexivity|]].
  - unfold Category_by_id. simpl.
    apply (find_category_saved (Category.set_name_type name type c)).
    simpl. now apply own_category_in with (user := user) (i := cbody_id body).
  - eexists. simpl. repeat split.
Qed.

Lemma CategoryView_delete_logged user body db :
  let db' := fst (CategoryView_delete user body db) in
  succeeds (snd (CategoryView_delete user body db)) ->
  exists c,
    own_category user (cbody_id body) db = Some c
    /\ Category_by_id (Some (Category.id c)) db'
       = Some (Category.set_deleted true c)
    /\ logged db db' "delete" "category" (Category.id c).
Proof.
  unfold CategoryView_delete, try_except.
  destruct (is_store_manager user); [|refused]. simpl.
  rewrite bind_gets.
  destruct (own_category user (cbody_id body) db) as [c|] eqn:O; [|refused].
  simpl. intros _.
  exists c. split; [reflexivity|]. split.
  - unfold Category_by_id. simpl.
    apply (find_category_saved (Category.set_deleted true c)).
    simpl. now apply own_category_in with (user := user) (i := cbody_id body).
  - eexists. simpl. repeat split.
Qed.

(** C5, as the code has it. Each successful create, edit or soft-delete of a
    router or of a category adds exactly one log row, with the key of the row
    it wrote as instance_id and add, edit or delete as action; the actions
    view, which changes the status of routers, never adds a log row. *)
Theorem mutations_and_log_rows today user db :
  (forall body,
     let db' := fst (CreateRouterView_post today user body db) in
     succeeds (snd (CreateRouterView_post today user body db)) ->
     exists r,
       lookup_router db (Router.id r) = None
       /\ lookup_router db' (Router.id r) = Some r
       /\ Some (Router.serial_number r) = rbody_serial_number body
       /\ logged db db' "add" "router" (Router.id r))
  /\ (forall body,
        let db' := fst (RouterView_put today user body db) in
        succeeds (snd (RouterView_put today user body db)) ->
        exists r r',
          own_router user (rbody_id body) db = Some r
          /\ Router.id r' = Router.id r
          /\ lookup_router db' (Router.id r) = Some r'
          /\ Some (Router.status r') = rbody_status body
          /\ logged db db' "edit" "router" (Router.id r))
  /\ (forall body,
        let db' := fst (RouterView_delete today user body db) in
        succeeds (snd (RouterView_delete today user body db)) ->
        exists r,
          own_router user (rbody_id body) db = Some r
          /\ lookup_router db' (Router.id r)
             = Some (Router.set_deleted true r)
          /\ logged db db' "delete" "router" (Router.id r))
  /\ (forall body,
        let db' := fst (CreateCategoryView_post user body db) in
        succeeds (snd (CreateCategoryView_post user body db)) ->
        exists c,
          Category_by_id (Some (Category.id c)) db = None
          /\ Category_by_id (Some (Category.id c)) db' = Some c
          /\ Some (Category.name c) = cbody_name body
          /\ logged db db' "add" "category" (Category.id c))
  /\ (forall body,
        let db' := fst (CategoryView_put user body db) in
        succeeds (snd (CategoryView_put user body db)) ->
        exists c c',
          own_category user (cbody_id body) db = Some c
          /\ Category.id c' = Category.id c
          /\ Category_by_id (Some (Category.id c)) db' = Some c'
          /\ Some (Category.name c') = cbody_name body
          /\ logged db db' "edit" "category" (Category.id c))
  /\ (forall body,
        let db' := fst (CategoryView_delete user body db) in
        succeeds (snd (CategoryView_delete user body db)) ->
        exists c,
          own_category user (cbody_id body) db = Some c
          /\ Category_by_id (Some (Category.id c)) db'
             = Some (Category.set_deleted true c)
          /\ logged db db' "delete" "category" (Category.id c))
  /\ (forall body,
        Log_objects (fst (ActionsView_post today user body db))
        = Log_objects db).
Proof.
  split; [intros body; apply CreateRouterView_post_logged|].
  split; [intros body; apply RouterView_put_logged|].
  split; [intros body; apply RouterView_delete_logged|].
  split; [intros body; apply CreateCategoryView_post_logged|].
  split; [intros body; apply CategoryView_put_logged|].
  split; [intros body; apply CategoryView_delete_logged|].
  intros body. apply ActionsView_post_keeps_logs.
Qed.

(** C5 as the specification words it fails on the status-changing actions:
    on [demo_db] the sale of X succeeds and takes X from in_stock to
    new_sale, and the log table has no row more. *)
Lemma sale_writes_no_log_row :
  let body := demo_body "sale" "X" None in
  let db' := fst (ActionsView_post 0 demo_user body demo_db) in
  succeeds (snd (ActionsView_post 0 demo_user body demo_db))
  /\ router_status demo_db 1 = Some "in_stock"
  /\ router_status db' 1 = Some "new_sale"
  /\ List.length (Log_objects db') = List.length (Log_objects demo_db)
  /\ (List.length (Log_objects db')
      =? S (List.length (Log_objects demo_db)))%nat = false.
Proof.
  vm_compute. repeat split.
Qed.

(* ================================================================== *)
(** ** The alert latch *)

Lemma wf_categories_ids db :
  wf_categories db = true -> NoDup (map Category.id (Category_objects db)).
Proof.
  apply (distinct_NoDup Nat.eqb). apply Nat.eqb_eq.
Qed.

Lemma low_stock_with_categories rows db c :
  low_stock (with_categories rows db) c = low_stock db c.
Proof. reflexivity. Qed.

Lemma existsb_app_one {A} (p : A -> bool) l x :
  existsb p (l ++ [x]) = existsb p l || p x.
Proof. rewrite existsb_app. simpl. now rewrite orb_false_r. Qed.

Lemma set_alerted_if_id (b : bool) x :
  Category.id (if b then Category.set_alerted true x else x) = Category.id x.
Proof. now destruct b. Qed.

(** One turn of the loop takes the rows marked for [done] to the rows marked
    for [done ++ [c]]. *)
Lemma alert_category_mark db rows0 done c :
  NoDup (map Category.id rows0) -> In c rows0 ->
  alert_category c (with_categories (mark db done rows0) db) =
  (with_categories (mark db (done ++ [c]) rows0) db, inr (low_stock db c)).
Proof.
  intros N Hin. unfold alert_category. rewrite bind_gets.
  change (Category_count_routers (with_categories (mark db done rows0) db)
            (Category.id c) <? Category.alert_on c)%Z with (low_stock db c).
  assert (E : forall x, In x rows0 ->
            Nat.eqb (Category.id c) (Category.id x) = true -> x = c).
  { intros x Hx He. apply Nat.eqb_eq in He.
    now apply (NoDup_map_inj Category.id rows0 x c N Hx Hin). }
  destruct (low_stock db c) eqn:L.
  - unfold Category_save. rewrite bind_modify. unfold ret. f_equal.
    unfold with_categories. simpl. f_equal.
    unfold mark. rewrite map_map. apply map_ext_in. intros x Hx.
    rewrite existsb_app_one.
    destruct (Nat.eqb (Category.id c) (Category.id x)) eqn:Ec.
    + rewrite (E x Hx Ec), L, orb_true_r. simpl.
      now rewrite set_alerted_if_id, Nat.eqb_refl.
    + rewrite orb_false_r, set_alerted_if_id.
      rewrite Nat.eqb_sym in Ec. now rewrite Ec.
  - unfold ret. f_equal. unfold with_categories. simpl. f_equal.
    unfold mark. apply map_ext_in. intros x Hx.
    rewrite existsb_app_one.
    destruct (Nat.eqb (Category.id c) (Category.id x)) eqn:Ec.
    + rewrite (E x Hx Ec), L. now rewrite !andb_false_r.
    + now rewrite orb_false_r.
Qed.

Lemma alert_each_mark db rows0 l done :
  NoDup (map Category.id rows0) -> (forall c, In c l -> In c rows0) ->
  alert_each l (with_categories (mark db done rows0) db) =
  (with_categories (mark db (done ++ l) rows0) db,
   inr (map Category.id (filter (low_stock db) l))).
Proof.
  intros N. revert done. induction l as [|c l IH]; intros done Hl.
  - simpl. now rewrite app_nil_r.
  - simpl alert_each.
    rewrite (bind_inr _ _ _ _ _
               (alert_category_mark db rows0 done c N (Hl c (or_introl eq_refl)))).
    rewrite (bind_inr _ _ _ _ _
               (IH (done ++ [c]) (fun x Hx => Hl x (or_intror Hx)))).
    rewrite <- app_assoc. simpl. unfold ret. f_equal. f_equal.
    destruct (low_stock db c); reflexivity.
Qed.

Lemma mark_nil db rows : mark db [] rows = rows.
Proof.
  unfold mark. rewrite <- (map_id rows) at 2. now apply map_ext.
Qed.

Lemma set_alerted_same c :
  Category.alerted c = true -> Category.set_alerted true c = c.
Proof. destruct c. simpl. now intros ->. Qed.

Lemma mark_unalerted db rows :
  NoDup (map Category.id rows) ->
  mark db (filter (fun c => negb (Category.alerted c)) rows) rows
  = map (latch db) rows.
Proof.
  intros N. unfold mark, latch. apply map_ext_in. intros x Hx.
  destruct (Category.alerted x) eqn:A; simpl.
  - destruct (_ && _); [now apply set_alerted_same|reflexivity].
  - replace (existsb _ _) with true; [reflexivity|].
    symmetry. apply existsb_exists. exists x. split.
    + apply filter_In. now rewrite A.
    + apply Nat.eqb_refl.
Qed.

Lemma with_categories_same db :
  with_categories (Category_objects db) db = db.
Proof. now destruct db. Qed.

Lemma filter_filter {A} (p q : A -> bool) (l : list A) :
  filter q (filter p l) = filter (fun x => p x && q x) l.
Proof.
  induction l as [|x l IH]; [reflexivity|]. simpl.
  destruct (p x); simpl; [|exact IH].
  destruct (q x); now rewrite IH.
Qed.

(** The closed form of [create_alerts]. *)
Lemma create_alerts_latch db :
  NoDup (map Category.id (Category_objects db)) ->
  create_alerts db =
  (with_categories (map (latch db) (Category_objects db)) db,
   inr (map Category.id
          (filter (fun c => negb (Category.alerted c) && low_stock db c)
                  (Category_objects db)))).
Proof.
  intros N. unfold create_alerts. rewrite bind_gets.
  pose proof (alert_each_mark db (Category_objects db)
                (filter (fun c => negb (Category.alerted c))
                        (Category_objects db)) [] N) as H.
  rewrite mark_nil, with_categories_same in H. rewrite H.
  - simpl app. rewrite (mark_unalerted db _ N). now rewrite filter_filter.
  - intros c Hc. apply filter_In in Hc. tauto.
Qed.

Lemma find_map_by_id (f : Category.t -> Category.t) rows c :
  (forall x, Category.id (f x) = Category.id x) ->
  NoDup (map Category.id rows) -> In c rows ->
  find (fun x => Nat.eqb (Category.id x) (Category.id c)) (map f rows)
  = Some (f c).
Proof.
  intros Hf N Hin. induction rows as [|x rows IH]; [destruct Hin|].
  simpl in *. rewrite Hf. inversion N as [|y l Nx Nl]; subst.
  destruct Hin as [->|Hin].
  - now rewrite Nat.eqb_refl.
  - destruct (Nat.eqb (Category.id x) (Category.id c)) eqn:E.
    + apply Nat.eqb_eq in E. exfalso. apply Nx. rewrite E.
      now apply in_map.
    + now apply IH.
Qed.

Lemma latch_id db c : Category.id (latch db c) = Category.id c.
Proof. unfold latch. apply set_alerted_if_id. Qed.

Lemma latch_settled db db' c :
  Router_objects db' = Router_objects db ->
  negb (Category.alerted (latch db c)) && low_stock db' (latch db c) = false.
Proof.
  intros Hr. unfold latch, low_stock, Category_count_routers. rewrite Hr.
  destruct (Category.alerted c) eqn:A; simpl; [now rewrite A|].
  destruct (_ <? _)%Z eqn:L; simpl; [reflexivity|]. now rewrite A, L.
Qed.

Lemma latch_latch db db' c :
  Router_objects db' = Router_objects db ->
  latch db' (latch db c) = latch db c.
Proof.
  intros Hr. unfold latch at 1. now rewrite (latch_settled db db' c Hr).
Qed.

Lemma latch_nothing_left db db' l :
  Router_objects db' = Router_objects db ->
  filter (fun c => negb (Category.alerted c) && low_stock db' c)
         (map (latch db) l) = [].
Proof.
  intros Hr. induction l as [|c l IH]; [reflexivity|].
  simpl. now rewrite (latch_settled db db' c Hr).
Qed.

Lemma create_alerts_again db :
  NoDup (map Category.id (Category_objects db)) ->
  let db' := fst (create_alerts db) in
  create_alerts db' = (db', inr []).
Proof.
  intros N db'. subst db'. rewrite (create_alerts_latch db N). simpl.
  set (db' := with_categories _ db).
  rewrite (create_alerts_latch db').
  - f_equal.
    + simpl. rewrite map_map.
      rewrite (map_ext _ (latch db) (fun c => latch_latch db db' c eq_refl)).
      reflexivity.
    + f_equal. simpl.
      now rewrite (latch_nothing_left db db' _ eq_refl).
  - simpl. rewrite map_map.
    erewrite map_ext; [exact N|]. intros c. apply latch_id.
Qed.

(** C9. [create_alerts] is a latch: it leaves the categories already
    alerted as they are, sets and saves the flag of each category not yet
    alerted whose count of routers in stock is strictly below its threshold,
    leaves the others as they are, reports exactly the categories it
    tripped, and run again on the result trips nothing and writes nothing. *)
Theorem alert_latch db :
  wf_categories db = true ->
  let db' := fst (create_alerts db) in
  db' = with_categories (map (latch db) (Category_objects db)) db
  /\ (forall c, In c (Category_objects db) ->
        Category_by_id (Some (Category.id c)) db' =
        Some (if Category.alerted c then c
              else if low_stock db c then Category.set_alerted true c
              else c))
  /\ snd (create_alerts db) =
       inr (map Category.id
              (filter (fun c => negb (Category.alerted c) && low_stock db c)
                      (Category_objects db)))
  /\ create_alerts db' = (db', inr []).
Proof.
  intros Hwf db'. pose proof (wf_categories_ids db Hwf) as N.
  split; [|split; [|split]].
  - subst db'. now rewrite (create_alerts_latch db N).
  - intros c Hin. subst db'. rewrite (create_alerts_latch db N). simpl.
    rewrite (find_map_by_id (latch db) _ c (latch_id db) N Hin).
    unfold latch. now destruct (Category.alerted c).
  - now rewrite (create_alerts_latch db N).
  - now apply create_alerts_again.
Qed.


(* ================================================================== *)
(** ** One notification per store and day *)

(** What one run of the check does to the notification table. *)
Lemma router_changed_notifications today instance db :
  let db' := fst (router_changed today instance db) in
  Notification_objects db' = Notification_objects db
  \/ exists sid n,
       Router.store instance = Some sid
       /\ notified_since today sid db = false
       /\ Notification_objects db' = Notification_objects db ++ [n]
       /\ Notification.store n = sid
       /\ Notification.date_sent n = today.
Proof.
  unfold router_changed.
  destruct (Router.store instance) as [sid|]; [|now left].
  unfold bind, get_store, gets.
  destruct (find _ (Store_objects db)) as [s|]; [|now left].
  destruct (Store_count_routers db sid <? Store.alert_on s)%Z;
    [|now left].
  destruct (notified_since today sid db) eqn:E; [now left|].
  right. exists sid. eexists. simpl. repeat split. exact E.
Qed.

Lemma not_notified_count today sid db :
  notified_since today sid db = false -> notification_count db sid today = 0.
Proof.
  unfold notified_since, notification_count. intros H.
  induction (Notification_objects db) as [|n l IH]; [reflexivity|].
  simpl in *. apply orb_false_elim in H. destruct H as [Hn Hl].
  replace (Nat.eqb (Notification.store n) sid
           && (Notification.date_sent n =? today)%Z) with false;
    [now apply IH|].
  symmetry. apply andb_false_iff. apply andb_false_iff in Hn.
  destruct Hn as [Hn|Hn]; [now left|right].
  apply Z.eqb_neq. apply Z.leb_gt in Hn. lia.
Qed.

Lemma notification_count_step today instance db sid d :
  notification_count db sid d <= 1 ->
  notification_count (fst (router_changed today instance db)) sid d <= 1.
Proof.
  intros H.
  destruct (router_changed_notifications today instance db)
    as [E | (s & n & _ & Hno & E & Hs & Hd)];
    unfold notification_count in *; rewrite E; [exact H|].
  rewrite filter_app, length_app. simpl.
  destruct (Nat.eqb (Notification.store n) sid
            && (Notification.date_sent n =? d)%Z) eqn:K; simpl; [|lia].
  apply andb_prop in K. destruct K as [K1 K2].
  apply Nat.eqb_eq in K1. apply Z.eqb_eq in K2.
  pose proof (not_notified_count today s db Hno) as Z0.
  unfold notification_count in Z0.
  replace sid with s by congruence. replace d with today by congruence.
  rewrite Z0. simpl. lia.
Qed.

(** C4. A run of the store-threshold check adds a notification only for the
    store of the router, dated today, and only when that store has no
    notification dated today or later; so a notification table with at most
    one row per store and day keeps at most one row per store and day
    however often the check runs. *)
Theorem one_notification_per_store_and_day db db' :
  (forall sid d, notification_count db sid d <= 1) ->
  checks db db' ->
  (forall sid d, notification_count db' sid d <= 1)
  /\ (forall today instance,
        let db'' := fst (router_changed today instance db') in
        Notification_objects db'' = Notification_objects db'
        \/ exists sid n,
             Router.store instance = Some sid
             /\ notified_since today sid db' = false
             /\ Notification_objects db'' = Notification_objects db' ++ [n]
             /\ Notification.store n = sid
             /\ Notification.date_sent n = today).
Proof.
  intros H0 Hc. split; [|intros; apply router_changed_notifications].
  induction Hc as [db | db db1 db2 today instance Hc IH E]; [exact H0|].
  intros sid d. apply notification_count_step.
  unfold notification_count. rewrite E. apply (IH H0).
Qed.

(** The check run [n] times in a row is a run of [checks]. *)
Lemma checks_iter today instance db n :
  checks db (Nat.iter n (fun d => fst (router_changed today instance d)) db).
Proof.
  induction n as [|n IH]; simpl.
  - apply checks_none.
  - eapply checks_more; [exact IH|reflexivity].
Qed.

(* ================================================================== *)
(** ** The trend charts *)

Lemma days_eq today :
  days today = [today - 4; today - 3; today - 2; today - 1; today]%Z.
Proof.
  unfold days. simpl. now rewrite Z.sub_0_r.
Qed.

Lemma past_days_eq today :
  map (fun k => (today - Z.of_nat k)%Z) (rev (seq 1 (5 - 1)))
  = [today - 4; today - 3; today - 2; today - 1]%Z.
Proof. reflexivity. Qed.

(** X1. The values charted for a category follow the policy, over the five
    days the dashboard shows: the live count for today, the stored count of a
    past day that has a row, else the value of the day before, else 0. *)
Lemma category_values_spec db today sid cid :
  category_values db today sid cid
  = trend_spec (stored_category db sid cid) (Category_count_routers db cid)
               today 5.
Proof.
  unfold category_values, trend_spec, stored_category, enumerate.
  rewrite days_eq, past_days_eq.
  cbn [List.length seq combine fold_left resolve_days].
  generalize (find (on_day sid cid (today - 4)%Z) (Monitoring_objects db)).
  generalize (find (on_day sid cid (today - 3)%Z) (Monitoring_objects db)).
  generalize (find (on_day sid cid (today - 2)%Z) (Monitoring_objects db)).
  generalize (find (on_day sid cid (today - 1)%Z) (Monitoring_objects db)).
  intros [m1|] [m2|] [m3|] [m4|]; reflexivity.
Qed.

Lemma sum_when (p : Monitoring.t -> bool) rows :
  fold_right Z.add 0%Z
    (map (fun m => if p m then Monitoring.routers m else 0%Z) rows)
  = fold_right Z.add 0%Z (map Monitoring.routers (filter p rows)).
Proof.
  induction rows as [|m rows IH]; [reflexivity|]. simpl.
  destruct (p m); simpl; now rewrite IH.
Qed.

Lemma filter_none_existsb {A} (p : A -> bool) l :
  existsb p l = false -> filter p l = [].
Proof.
  induction l as [|x l IH]; [reflexivity|]. simpl.
  destruct (p x); [discriminate|exact IH].
Qed.

(** The total of a day in a table that has rows: the stored total when the
    store has a row for the day, and 0, with no such row, otherwise. *)
Lemma aggregate_total_stored db sid day :
  Monitoring_objects db <> [] ->
  aggregate_total sid day db =
  Some (match stored_store db sid day with Some v => v | None => 0%Z end)
  /\ (stored_store db sid day = None ->
      existsb (store_on_day sid day) (Monitoring_objects db) = false).
Proof.
  intros Hne. unfold aggregate_total, stored_store.
  destruct (Monitoring_objects db) as [|m rows] eqn:E; [contradiction|].
  rewrite sum_when.
  destruct (existsb (store_on_day sid day) (m :: rows)) eqn:X.
  - split; [reflexivity|discriminate].
  - split; [|reflexivity]. now rewrite (filter_none_existsb _ _ X).
Qed.

(** X2. With at least one Monitoring row in the table, the values charted
    for the store follow the policy on the stored totals of the store. *)
Lemma store_monitors_spec db today sid :
  Monitoring_objects db <> [] ->
  store_monitors db today sid
  = map Some (trend_spec (stored_store db sid) (Store_count_routers db sid)
                         today 5).
Proof.
  intros Hne.
  unfold store_monitors, trend_spec, enumerate.
  rewrite days_eq, past_days_eq.
  cbn [List.length seq combine fold_left resolve_days].
  destruct (aggregate_total_stored db sid (today - 4)%Z Hne) as [T4 X4].
  destruct (aggregate_total_stored db sid (today - 3)%Z Hne) as [T3 X3].
  destruct (aggregate_total_stored db sid (today - 2)%Z Hne) as [T2 X2].
  destruct (aggregate_total_stored db sid (today - 1)%Z Hne) as [T1 X1].
  rewrite T4, T3, T2, T1. clear T4 T3 T2 T1.
  assert (K : forall d,
            (stored_store db sid d = None ->
             existsb (store_on_day sid d) (Monitoring_objects db) = false) ->
            match stored_store db sid d with
            | Some _ =>
                existsb (store_on_day sid d) (Monitoring_objects db) = true
            | None =>
                existsb (store_on_day sid d) (Monitoring_objects db) = false
            end).
  { intros d X. unfold stored_store in *.
    destruct (existsb (store_on_day sid d) (Monitoring_objects db));
      [reflexivity|now apply X]. }
  apply K in X4, X3, X2, X1. clear K.
  destruct (stored_store db sid (today - 4)%Z) as [v4|];
    destruct (stored_store db sid (today - 3)%Z) as [v3|];
    destruct (stored_store db sid (today - 2)%Z) as [v2|];
    destruct (stored_store db sid (today - 1)%Z) as [v1|];
    rewrite X4, X3, X2, X1;
    cbn [falsy andb negb Z.eqb nth app map Nat.eqb Nat.ltb Nat.leb Nat.sub];
    rewrite ?andb_false_r; reflexivity.
Qed.

(** C3 fails on the store-wide chart of a Monitoring table with no row at
    all: every past day is charted as None, where the policy of the
    specification gives 0. *)
Theorem store_monitors_of_empty_table db today sid :
  Monitoring_objects db = [] ->
  store_monitors db today sid
  = [None; None; None; None; Some (Store_count_routers db sid)]
  /\ trend_spec (stored_store db sid) (Store_count_routers db sid) today 5
     = [0; 0; 0; 0; Store_count_routers db sid]%Z.
Proof.
  intros E.
  unfold store_monitors, trend_spec, stored_store, aggregate_total,
    enumerate, days.
  rewrite E. split; reflexivity.
Qed.

(* ================================================================== *)
(** ** The daily sweep *)

Lemma write_row_ids m rows :
  map Monitoring.id (write_row m rows) = map Monitoring.id rows.
Proof.
  unfold write_row. rewrite map_map. apply map_ext. intros x.
  destruct (Nat.eqb (Monitoring.id x) (Monitoring.id m)) eqn:E;
    [|reflexivity].
  apply Nat.eqb_eq in E. congruence.
Qed.

Lemma write_row_absent m rows :
  ~ In (Monitoring.id m) (map Monitoring.id rows) -> write_row m rows = rows.
Proof.
  intros H. unfold write_row. rewrite <- (map_id rows) at 2.
  apply map_ext_in. intros x Hx.
  destruct (Nat.eqb (Monitoring.id x) (Monitoring.id m)) eqn:E;
    [|reflexivity].
  apply Nat.eqb_eq in E. exfalso. apply H. rewrite <- E. now apply in_map.
Qed.

Lemma write_row_cons m x rows :
  write_row m (x :: rows) =
  (if Nat.eqb (Monitoring.id x) (Monitoring.id m) then m else x)
  :: write_row m rows.
Proof. reflexivity. Qed.

(** Writing the row that a query [p] misses, before and after, leaves the
    answer of the query as it was. *)
Lemma filter_write_row_other (p : Monitoring.t -> bool) m1 m1' rows :
  NoDup (map Monitoring.id rows) -> In m1 rows ->
  Monitoring.id m1' = Monitoring.id m1 ->
  p m1 = false -> p m1' = false ->
  filter p (write_row m1' rows) = filter p rows.
Proof.
  intros N Hin Hid P1 P1'. induction rows as [|x rows IH]; [reflexivity|].
  rewrite write_row_cons. simpl in N. inversion N as [|y l Nx Nl]; subst.
  destruct (Nat.eqb (Monitoring.id x) (Monitoring.id m1')) eqn:E.
  - apply Nat.eqb_eq in E. rewrite write_row_absent by congruence.
    assert (x = m1).
    { destruct Hin as [H|H]; [exact H|]. exfalso. apply Nx.
      rewrite E, Hid. now apply in_map. }
    subst x. simpl. now rewrite P1, P1'.
  - destruct Hin as [H|H].
    + subst x. rewrite Hid, Nat.eqb_refl in E. discriminate.
    + simpl. now rewrite (IH Nl H).
Qed.

(** Writing the one row a query [p] finds, so that it still answers the
    query, leaves the written row as the one answer. *)
Lemma filter_write_row_hit (p : Monitoring.t -> bool) m1 m1' rows :
  NoDup (map Monitoring.id rows) ->
  filter p rows = [m1] ->
  Monitoring.id m1' = Monitoring.id m1 ->
  p m1' = true ->
  filter p (write_row m1' rows) = [m1'].
Proof.
  intros N Hf Hid P1'. induction rows as [|x rows IH]; [discriminate|].
  rewrite write_row_cons. simpl in N. inversion N as [|y l Nx Nl]; subst.
  assert (Hin : In m1 (x :: rows)).
  { assert (H : In m1 (filter p (x :: rows))) by (rewrite Hf; now left).
    apply filter_In in H. tauto. }
  simpl in Hf.
  destruct (Nat.eqb (Monitoring.id x) (Monitoring.id m1')) eqn:E.
  - apply Nat.eqb_eq in E. rewrite write_row_absent by congruence.
    assert (x = m1).
    { destruct Hin as [H|H]; [exact H|]. exfalso. apply Nx.
      rewrite E, Hid. now apply in_map. }
    subst x. simpl. rewrite P1'.
    destruct (p m1); [now inversion Hf|].
    exfalso. assert (H : In m1 (filter p rows)) by (rewrite Hf; now left).
    apply filter_In in H. destruct H as [H _]. apply Nx. now apply in_map.
  - destruct (p x) eqn:Px.
    + inversion Hf; subst x. rewrite Hid, Nat.eqb_refl in E. discriminate.
    + simpl. rewrite Px. apply (IH Nl Hf).
Qed.

Lemma new_id_absent (ids : list nat) : ~ In (new_id ids) ids.
Proof.
  intros H. apply new_id_fresh in H. lia.
Qed.

(** The two ways an upsert goes when the key has at most one row. *)
Lemma upsert_insert today sid cid v rows :
  filter (todays today sid cid) rows = [] ->
  upsert today sid cid v rows =
  rows ++ [Monitoring.mk (new_id (map Monitoring.id rows)) sid (Some cid)
                         v today].
Proof.
  intros H. unfold upsert. rewrite H. unfold write_row.
  rewrite map_app. simpl. rewrite Nat.eqb_refl. f_equal.
  apply (write_row_absent
           (stamped today v
              (Monitoring.mk (new_id (map Monitoring.id rows)) sid (Some cid)
                             0 today))).
  simpl. apply new_id_absent.
Qed.

Lemma upsert_update today sid cid v rows m :
  filter (todays today sid cid) rows = [m] ->
  upsert today sid cid v rows = write_row (stamped today v m) rows.
Proof.
  intros H. unfold upsert. now rewrite H.
Qed.

Lemma todays_key today sid cid m :
  todays today sid cid m = true ->
  Monitoring.store m = sid /\ Monitoring.category m = Some cid
  /\ (today <= Monitoring.day m)%Z.
Proof.
  unfold todays. intros H. apply andb_prop in H. destruct H as [H Hd].
  apply andb_prop in H. destruct H as [Hs Hc].
  apply Nat.eqb_eq in Hs. apply Z.leb_le in Hd.
  destruct (Monitoring.category m) as [c|]; [|discriminate].
  simpl in Hc. apply Nat.eqb_eq in Hc. subst. auto.
Qed.

Lemma todays_other today sid cid sid' cid' m :
  Monitoring.store m = sid -> Monitoring.category m = Some cid ->
  sid' <> sid \/ cid' <> cid ->
  todays today sid' cid' m = false.
Proof.
  intros Hs Hc Hne. unfold todays. rewrite Hs, Hc. simpl.
  destruct Hne as [H|H].
  - replace (Nat.eqb sid sid') with false; [reflexivity|].
    symmetry. apply Nat.eqb_neq. congruence.
  - replace (Nat.eqb cid cid') with false; [now rewrite andb_false_r|].
    symmetry. apply Nat.eqb_neq. congruence.
Qed.

Lemma todays_stamped today sid cid v m :
  Monitoring.store m = sid -> Monitoring.category m = Some cid ->
  todays today sid cid (stamped today v m) = true.
Proof.
  intros Hs Hc. unfold todays, stamped. simpl. rewrite Hs, Hc. simpl.
  now rewrite !Nat.eqb_refl, Z.leb_refl.
Qed.

Lemma wf_monitorings_swept today db :
  wf_monitorings today db = true -> swept_once today (Monitoring_objects db).
Proof.
  unfold wf_monitorings, at_most_one_today. intros H.
  apply andb_prop in H. destruct H as [Hd Ha]. split.
  - apply (distinct_NoDup Nat.eqb); [apply Nat.eqb_eq|exact Hd].
  - intros sid cid. rewrite forallb_forall in Ha.
    destruct (filter (todays today sid cid) (Monitoring_objects db))
      as [|m l] eqn:E; [simpl; lia|].
    assert (Hm : In m (filter (todays today sid cid) (Monitoring_objects db)))
      by (rewrite E; now left).
    apply filter_In in Hm. destruct Hm as [Hin Hk].
    apply todays_key in Hk. destruct Hk as (Hs & Hc & _).
    specialize (Ha m Hin). rewrite Hs, Hc, E in Ha.
    now apply Nat.leb_le in Ha.
Qed.

Lemma swept_once_cases today rows sid cid :
  swept_once today rows ->
  filter (todays today sid cid) rows = []
  \/ exists m, filter (todays today sid cid) rows = [m].
Proof.
  intros [_ H]. specialize (H sid cid).
  destruct (filter (todays today sid cid) rows) as [|m [|m' l]].
  - now left.
  - right. now exists m.
  - simpl in H. lia.
Qed.

Lemma filter_singleton_in {A} (p : A -> bool) l m :
  filter p l = [m] -> In m l /\ p m = true.
Proof.
  intros H. apply filter_In. rewrite H. now left.
Qed.

Lemma upsert_hit today sid cid v rows :
  swept_once today rows -> snapshot_is today sid cid v (upsert today sid cid v rows).
Proof.
  intros S. destruct (swept_once_cases today rows sid cid S) as [E | [m E]].
  - rewrite (upsert_insert _ _ _ _ _ E). eexists. split; [|split].
    + rewrite filter_app, E. simpl.
      unfold todays. simpl. now rewrite !Nat.eqb_refl, Z.leb_refl.
    + reflexivity.
    + reflexivity.
  - rewrite (upsert_update _ _ _ _ _ _ E).
    exists (stamped today v m). split; [|split; reflexivity].
    destruct (filter_singleton_in _ _ _ E) as [_ Hk].
    apply todays_key in Hk. destruct Hk as (Hs & Hc & _).
    apply filter_write_row_hit with (m1 := m);
      [apply S|exact E|reflexivity|now apply todays_stamped].
Qed.

Lemma upsert_other today sid cid v rows sid' cid' :
  swept_once today rows -> sid' <> sid \/ cid' <> cid ->
  filter (todays today sid' cid') (upsert today sid cid v rows)
  = filter (todays today sid' cid') rows.
Proof.
  intros S Hne. destruct (swept_once_cases today rows sid cid S) as [E | [m E]].
  - rewrite (upsert_insert _ _ _ _ _ E), filter_app. simpl.
    rewrite (todays_other today sid cid sid' cid') by auto.
    apply app_nil_r.
  - rewrite (upsert_update _ _ _ _ _ _ E).
    destruct (filter_singleton_in _ _ _ E) as [Hin Hk].
    apply todays_key in Hk. destruct Hk as (Hs & Hc & _).
    apply filter_write_row_other with (m1 := m);
      [apply S|exact Hin|reflexivity| |];
      now apply (todays_other today sid cid sid' cid').
Qed.

Lemma upsert_keeps today sid cid v rows :
  swept_once today rows -> swept_once today (upsert today sid cid v rows).
Proof.
  intros S. split.
  - destruct (swept_once_cases today rows sid cid S) as [E | [m E]].
    + rewrite (upsert_insert _ _ _ _ _ E), map_app. simpl.
      apply NoDup_app; [apply S| |].
      * repeat constructor. simpl. tauto.
      * intros i Hi [<-|[]]. now apply new_id_absent in Hi.
    + rewrite (upsert_update _ _ _ _ _ _ E), write_row_ids. apply S.
  - intros sid' cid'.
    destruct (Nat.eq_dec sid' sid) as [->|Hs];
      [destruct (Nat.eq_dec cid' cid) as [->|Hc]|].
    + destruct (upsert_hit today sid cid v rows S) as [m [E _]].
      rewrite E. simpl. lia.
    + rewrite upsert_other by auto. apply S.
    + rewrite upsert_other by auto. apply S.
Qed.

Lemma snapshot_category_rows today sid c rows db :
  swallow (snapshot_category today sid c) (with_monitorings rows db) =
  (with_monitorings
     (upsert today sid (Category.id c)
             (Category_count_routers db (Category.id c)) rows) db,
   inr tt).
Proof.
  unfold swallow, snapshot_category, Monitoring_get_or_create, upsert,
    bind, gets. simpl.
  destruct (filter (todays today sid (Category.id c)) rows)
    as [|m [|m' l]]; reflexivity.
Qed.

Lemma categories_loop today sid db cats rows :
  for_each cats (fun c => swallow (snapshot_category today sid c))
           (with_monitorings rows db) =
  (with_monitorings
     (fold_left
        (fun rows c =>
           upsert today sid (Category.id c)
                  (Category_count_routers db (Category.id c)) rows)
        cats rows) db,
   inr tt).
Proof.
  revert rows. induction cats as [|c cats IH]; intros rows; [reflexivity|].
  simpl. rewrite (bind_inr _ _ _ _ _ (snapshot_category_rows _ _ _ _ _)).
  apply IH.
Qed.

Lemma stores_loop today db stores rows :
  for_each stores
    (fun store =>
       swallow (
         categories <- gets (fun db =>
           filter (fun c => Nat.eqb (Category.store c) (Store.id store))
                  (Category_objects db)) ;;
         for_each categories (fun category =>
           swallow (snapshot_category today (Store.id store) category))))
    (with_monitorings rows db) =
  (with_monitorings (fold_left (sweep_store today db) stores rows) db,
   inr tt).
Proof.
  revert rows. induction stores as [|s stores IH]; intros rows;
    [reflexivity|].
  simpl. erewrite bind_inr; [apply IH|].
  unfold swallow at 1. rewrite bind_gets. simpl Category_objects.
  now rewrite categories_loop.
Qed.

Lemma with_monitorings_same db :
  with_monitorings (Monitoring_objects db) db = db.
Proof. now destruct db. Qed.

(** The closed form of the daily sweep. *)
Lemma create_monitoring_sweep today db :
  create_monitoring today db =
  (with_monitorings (sweep today db (Monitoring_objects db)) db, inr tt).
Proof.
  unfold create_monitoring. unfold swallow at 1. rewrite bind_gets.
  pose proof (stores_loop today db (Store_objects db) (Monitoring_objects db))
    as H.
  rewrite with_monitorings_same in H. now rewrite H.
Qed.

(** A loop that keeps [I], keeps [P] under [I], and establishes [P] at the
    turns marked [hit], ends with [P] when one of its turns is marked. *)
Lemma fold_left_keeps {A R} (f : R -> A -> R) (I : R -> Prop) l r :
  (forall r a, I r -> I (f r a)) -> I r -> I (fold_left f l r).
Proof.
  intros HI. revert r. induction l as [|a l IH]; intros r Hr; [exact Hr|].
  simpl. apply IH. now apply HI.
Qed.

Lemma fold_left_keeps2 {A R} (f : R -> A -> R) (I P : R -> Prop) l r :
  (forall r a, I r -> I (f r a)) ->
  (forall r a, I r -> P r -> P (f r a)) ->
  I r -> P r -> P (fold_left f l r).
Proof.
  intros HI HP. revert r. induction l as [|a l IH]; intros r Hr Pr;
    [exact Pr|].
  simpl. apply IH; [now apply HI|now apply HP].
Qed.

Lemma fold_left_establishes {A R} (f : R -> A -> R) (I P : R -> Prop)
    (hit : A -> Prop) l r :
  (forall r a, I r -> I (f r a)) ->
  (forall r a, I r -> P r -> P (f r a)) ->
  (forall r a, I r -> hit a -> P (f r a)) ->
  I r -> (exists a, In a l /\ hit a) -> P (fold_left f l r).
Proof.
  intros HI HP HH. revert r. induction l as [|a l IH]; intros r Hr [x [Hin Hx]];
    [destruct Hin|].
  simpl. destruct Hin as [->|Hin].
  - apply fold_left_keeps2 with (I := I); auto.
  - apply IH; [now apply HI|now exists x].
Qed.

Lemma upsert_keeps_snapshot today db sid cid sid' cid' rows :
  swept_once today rows ->
  snapshot_is today sid cid (Category_count_routers db cid) rows ->
  snapshot_is today sid cid (Category_count_routers db cid)
    (upsert today sid' cid' (Category_count_routers db cid') rows).
Proof.
  intros S P.
  destruct (Nat.eq_dec sid sid') as [<-|Hs];
    [destruct (Nat.eq_dec cid cid') as [<-|Hc]|].
  - now apply upsert_hit.
  - unfold snapshot_is. rewrite upsert_other by auto. exact P.
  - unfold snapshot_is. rewrite upsert_other by auto. exact P.
Qed.

Lemma sweep_store_keeps today db rows store :
  swept_once today rows -> swept_once today (sweep_store today db rows store).
Proof.
  intros S. unfold sweep_store. apply fold_left_keeps; [|exact S].
  intros r c. apply upsert_keeps.
Qed.

Lemma sweep_store_keeps_snapshot today db sid cid rows store :
  swept_once today rows ->
  snapshot_is today sid cid (Category_count_routers db cid) rows ->
  snapshot_is today sid cid (Category_count_routers db cid)
    (sweep_store today db rows store).
Proof.
  intros S P. unfold sweep_store.
  apply fold_left_keeps2 with (I := swept_once today); auto.
  - intros r c. apply upsert_keeps.
  - intros r c. apply upsert_keeps_snapshot.
Qed.

Lemma sweep_store_snapshot today db rows store category :
  swept_once today rows ->
  In category (Category_objects db) ->
  Category.store category = Store.id store ->
  snapshot_is today (Store.id store) (Category.id category)
    (Category_count_routers db (Category.id category))
    (sweep_store today db rows store).
Proof.
  intros S Hin Hst. unfold sweep_store.
  apply fold_left_establishes
    with (I := swept_once today) (hit := fun c => c = category); auto.
  - intros r c. apply upsert_keeps.
  - intros r c. apply upsert_keeps_snapshot.
  - intros r c Hr ->. now apply upsert_hit.
  - exists category. split; [|reflexivity].
    apply filter_In. split; [exact Hin|]. now apply Nat.eqb_eq.
Qed.

Lemma sweep_keeps today db rows :
  swept_once today rows -> swept_once today (sweep today db rows).
Proof.
  intros S. unfold sweep. apply fold_left_keeps; [|exact S].
  intros r s. apply sweep_store_keeps.
Qed.

Lemma sweep_snapshot today db rows store category :
  swept_once today rows ->
  In store (Store_objects db) ->
  In category (Category_objects db) ->
  Category.store category = Store.id store ->
  snapshot_is today (Store.id store) (Category.id category)
    (Category_count_routers db (Category.id category))
    (sweep today db rows).
Proof.
  intros S Hs Hc Hst. unfold sweep.
  apply fold_left_establishes
    with (I := swept_once today) (hit := fun s => s = store); auto.
  - intros r s. apply sweep_store_keeps.
  - intros r s. apply sweep_store_keeps_snapshot.
  - intros r s Hr ->. now apply sweep_store_snapshot.
  - now exists store.
Qed.

Lemma snapshot_is_exact today sid cid v db :
  snapshot_is today sid cid v (Monitoring_objects db) ->
  exists m, snapshots db sid cid today = [m] /\ Monitoring.routers m = v.
Proof.
  intros [m (E & Hv & Hd)]. exists m. split; [|exact Hv].
  unfold snapshots.
  rewrite (filter_ext _
             (fun x => todays today sid cid x
                       && (Monitoring.day x =? today)%Z)).
  - rewrite <- filter_filter, E. simpl. now rewrite Hd, Z.eqb_refl.
  - intros x. unfold todays.
    destruct (Monitoring.day x =? today)%Z eqn:D.
    + apply Z.eqb_eq in D. rewrite D, Z.leb_refl. now rewrite !andb_true_r.
    + now rewrite !andb_false_r.
Qed.

(** C2. Two sweeps on the same day, whatever happened to the stores, the
    categories and the routers in between: afterwards every category of
    every store has exactly one Monitoring row dated that day, and it holds
    the count of routers in stock at the second sweep. *)
Theorem snapshot_twice_same_day today db0 db1 :
  wf_monitorings today db0 = true ->
  Monitoring_objects db1
    = Monitoring_objects (fst (create_monitoring today db0)) ->
  let db2 := fst (create_monitoring today db1) in
  forall store category,
    In store (Store_objects db1) ->
    In category (Category_objects db1) ->
    Category.store category = Store.id store ->
    exists m,
      snapshots db2 (Store.id store) (Category.id category) today = [m]
      /\ Monitoring.routers m
         = Category_count_routers db1 (Category.id category).
Proof.
  intros Hwf E db2 store category Hs Hc Hst.
  apply snapshot_is_exact with (v := Category_count_routers db1
                                       (Category.id category)).
  subst db2. rewrite create_monitoring_sweep. simpl.
  apply sweep_snapshot; auto.
  rewrite E, create_monitoring_sweep. simpl.
  apply sweep_keeps. now apply wf_monitorings_swept.
Qed.

(* ================================================================== *)
(** ** The middleware *)

(** On the first request for [/] of a day, the middleware leaves the
    category table as [create_alerts] alone would have left it. *)
Lemma process_request_latch today db :
  NoDup (map Category.id (Category_objects db)) ->
  existsb (fun m => (today <=? Monitoring.day m)%Z) (Monitoring_objects db)
    = false ->
  Category_objects (fst (process_request "/" today db))
  = map (latch db) (Category_objects db).
Proof.
  intros N H. unfold process_request. rewrite bind_gets, H. simpl.
  rewrite (bind_inr _ _ _ _ _ (create_monitoring_sweep today db)).
  unfold swallow.
  set (db1 := with_monitorings _ db).
  rewrite (bind_inr _ _ _ _ _ (create_alerts_latch db1 N)).
  reflexivity.
Qed.

(** C10. The latch looks at no store and at no soft-delete flag: a category
    not yet alerted and low on stock is latched by [create_alerts], and by
    the middleware that runs it, whichever store it belongs to and whether
    it is deleted or not, and is among the categories reported. Latched
    means that the row afterwards has its alerted flag true and every other
    column, store and deleted flag included, as before. *)
Theorem alerts_span_every_store today db c :
  wf_categories db = true ->
  In c (Category_objects db) ->
  Category.alerted c = false ->
  low_stock db c = true ->
  let db' := fst (create_alerts db) in
  let latched :=
    Category.mk (Category.id c) (Category.name c) (Category.store c)
                (Category.type c) (Category.deleted c) true
                (Category.alert_on c) in
  Category_by_id (Some (Category.id c)) db' = Some latched
  /\ Category.set_alerted true c = latched
  /\ Category.store (Category.set_alerted true c) = Category.store c
  /\ Category.deleted (Category.set_alerted true c) = Category.deleted c
  /\ (exists tripped, snd (create_alerts db) = inr tripped
                      /\ In (Category.id c) tripped)
  /\ (existsb (fun m => (today <=? Monitoring.day m)%Z)
              (Monitoring_objects db) = false ->
      Category_by_id (Some (Category.id c))
                     (fst (process_request "/" today db))
      = Some latched).
Proof.
  intros Hwf Hin Ha Hl db' latched.
  change latched with (Category.set_alerted true c). clear latched.
  pose proof (wf_categories_ids db Hwf) as N.
  assert (L : find (fun x => Nat.eqb (Category.id x) (Category.id c))
                   (map (latch db) (Category_objects db))
              = Some (Category.set_alerted true c)).
  { rewrite (find_map_by_id (latch db) _ c (latch_id db) N Hin).
    unfold latch. now rewrite Ha, Hl. }
  subst db'. rewrite (create_alerts_latch db N). simpl.
  split; [exact L|]. split; [reflexivity|].
  split; [reflexivity|]. split; [reflexivity|].
  split.
  - eexists. split; [reflexivity|].
    apply in_map. apply filter_In. now rewrite Ha, Hl.
  - intros H. unfold Category_by_id.
    now rewrite (process_request_latch today db N H).
Qed.

(* ================================================================== *)
(** ** The scenarios, on [demo_db] *)


(** A sweep, the sale of X, a second sweep the same day: category C has one
    row for the day, with the two routers left in stock. *)
Lemma snapshot_twice_same_day_witness :
  let db1 := fst (ActionsView_post 0 demo_user (demo_body "sale" "X" None)
                    (fst (create_monitoring 0 demo_db))) in
  exists m,
    snapshots (fst (create_monitoring 0 db1)) 1 1 0 = [m]
    /\ Monitoring.routers m = 2%Z.
Proof.
  exact (snapshot_twice_same_day 0 demo_db
           (fst (ActionsView_post 0 demo_user (demo_body "sale" "X" None)
                   (fst (create_monitoring 0 demo_db))))
           eq_refl eq_refl demo_store demo_C
           (or_introl eq_refl) (or_introl eq_refl) eq_refl).
Defined.

(** The store chart of [demo_db], whose Monitoring table is empty. *)
Lemma store_monitors_of_empty_table_witness :
  store_monitors demo_db 0 1 = [None; None; None; None; Some 3%Z]
  /\ trend_spec (stored_store demo_db 1) (Store_count_routers demo_db 1) 0 5
     = [0; 0; 0; 0; 3]%Z.
Proof.
  exact (store_monitors_of_empty_table demo_db 0 1 eq_refl).
Defined.

(** A hundred saves of X on one day, store 1 being under its threshold. *)
Lemma one_notification_per_store_and_day_witness :
  notification_count
    (Nat.iter 100 (fun d => fst (router_changed 0 demo_X d)) demo_db) 1 0
  <= 1.
Proof.
  exact (proj1 (one_notification_per_store_and_day demo_db _
                  (fun _ _ => le_0_n 1)
                  (checks_iter 0 demo_X demo_db 100)) 1 0%Z).
Defined.

(** The manager of store 1 adds a router N to category C. *)
Lemma mutations_and_log_rows_witness :
  let body := mkRouterBody None (Some 1) (Some "N") None None in
  let db' := fst (CreateRouterView_post 0 demo_user body demo_db) in
  exists r,
    lookup_router demo_db (Router.id r) = None
    /\ lookup_router db' (Router.id r) = Some r
    /\ Some (Router.serial_number r) = Some "N"
    /\ logged demo_db db' "add" "router" (Router.id r).
Proof.
  exact (proj1 (mutations_and_log_rows 0 demo_user demo_db)
           (mkRouterBody None (Some 1) (Some "N") None None) eq_refl).
Defined.


(** Store 1 swaps X against Y, a serial number no router has. *)
Lemma swap_creates_secondary_witness :
  let body := demo_body "swap" "X" (Some "Y") in
  let db' := fst (ActionsView_post 0 demo_user body demo_db) in
  succeeds (snd (ActionsView_post 0 demo_user body demo_db))
  /\ router_status db' 1 = Some "collected"
  /\ router_status db' 5 = Some "swap"
  /\ router_store db' 5 = Some (Some 1)
  /\ router_store db' 1 = Some (Some 1)
  /\ List.length (Action_objects db') = 1.
Proof.
  assert (Hno : forall r, In r (Router_objects demo_db) ->
                          Router.serial_number r <> "Y").
  { intros r [<-|[<-|[<-|[<-|[]]]]]; discriminate. }
  pose proof (swap_creates_secondary 0 demo_user 1
                (demo_body "swap" "X" (Some "Y")) demo_db demo_X "Y"
                eq_refl eq_refl eq_refl eq_refl eq_refl
                (fun E => match E with eq_refl => I end) Hno) as H.
  cbv zeta in H.
  destruct H as (H1 & _ & _ & H4 & H5 & H6 & H7 & _).
  repeat (split; [assumption|]). reflexivity.
Defined.

(** Category C of store 1, threshold 5, holds three routers in stock: the
    first run trips it (and D), the second run trips nothing. *)
Lemma alert_latch_witness :
  let db' := fst (create_alerts demo_db) in
  Category_by_id (Some 1) db' = Some (Category.set_alerted true demo_C)
  /\ snd (create_alerts demo_db) = inr [1; 2]
  /\ create_alerts db' = (db', inr []).
Proof.
  pose proof (alert_latch demo_db eq_refl) as H. cbv zeta in H.
  destruct H as (_ & H2 & H3 & H4).
  split; [exact (H2 demo_C (or_introl eq_refl))|].
  split; [exact H3|exact H4].
Defined.

(** Category D belongs to store 2 and is soft-deleted; a request of any
    store latches it. *)
Lemma alerts_span_every_store_witness :
  Category_by_id (Some 2) demo_db
  = Some (Category.mk 2 "D" 2 "outdoor" true false 5)
  /\ Category_by_id (Some 2) (fst (create_alerts demo_db))
     = Some (Category.mk 2 "D" 2 "outdoor" true true 5)
  /\ Category_by_id (Some 2) (fst (process_request "/" 0 demo_db))
     = Some (Category.mk 2 "D" 2 "outdoor" true true 5)
  /\ map Category.alerted (Category_objects (fst (create_alerts demo_db)))
     = [true; true].
Proof.
  pose proof (alerts_span_every_store 0 demo_db demo_D eq_refl
                (or_intror (or_introl eq_refl)) eq_refl eq_refl) as H.
  cbv zeta in H. destruct H as (H1 & _ & _ & _ & _ & H5).
  split; [reflexivity|].
  split; [exact H1|]. split; [exact (H5 eq_refl)|reflexivity].
Defined.

(** Rows for day 1 (10) and day 3 (7) only, charted on day 4: day 0 has
    nothing before it and shows 0, day 2 carries the 10 of day 1, and day 4
    shows the live count. *)
Lemma store_monitors_spec_witness :
  store_monitors demo_trend_db 4 1
  = [Some 0; Some 10; Some 10; Some 7; Some 3]%Z
  /\ category_values demo_trend_db 4 1 1 = [0; 10; 10; 7; 3]%Z.
Proof.
  split; [|reflexivity].
  refine (store_monitors_spec demo_trend_db 4 1 _). discriminate.
Defined.

(* ================================================================== *)
(** ** Switching stores, shipping flags *)

Lemma Store_by_id_exists db i s :
  Store_by_id i db = Some s -> store_exists db (Store.id s) = true.
Proof.
  unfold Store_by_id, store_exists. destruct i as [i|]; [|discriminate].
  intros H. apply find_some in H. destruct H as [Hin _].
  apply existsb_exists. exists s. split; [exact Hin|apply Nat.eqb_refl].
Qed.

(** X3. [SwitchStore.post] checks nothing about the caller: whenever the
    router and the store exist it moves the router to that store, whatever
    store held it, and records neither a log row nor an action row; with no
    such store, or no such router, it says which is missing and writes
    nothing. *)
Theorem switch_store_unguarded today router_id new_store db :
  let db' := fst (SwitchStore_post today router_id new_store db) in
  let res := snd (SwitchStore_post today router_id new_store db) in
  match Router_by_id router_id db, Store_by_id new_store db with
  | Some r, Some s =>
      res = mkResponse 200 (Some "Store switched successfully")
      /\ lookup_router db' (Router.id r)
         = Some (Router.set_store (Some (Store.id s)) r)
      /\ Log_objects db' = Log_objects db
      /\ Action_objects db' = Action_objects db
  | Some _, None => db' = db /\ res = response_error "Store not found"
  | None, _ => db' = db /\ res = response_error "Router not found"
  end.
Proof.
  unfold SwitchStore_post, try_except. rewrite !bind_gets.
  destruct (Router_by_id router_id db) as [r|] eqn:R;
    [|destruct (Store_by_id new_store db); now split].
  destruct (Store_by_id new_store db) as [s|] eqn:S; [|now split].
  destruct (Router_save_ok today (Router.set_store (Some (Store.id s)) r) db)
    as [d [E Hd]].
  { unfold fk_store. simpl. now apply Store_by_id_exists with (i := new_store). }
  rewrite (bind_inr _ _ _ _ _ E). simpl.
  destruct Hd as (_ & _ & Hr & Hl & _ & Ha). simpl in *.
  split; [reflexivity|]. split; [|now split].
  unfold lookup_router. rewrite Hr.
  apply (find_saved_rows_id (Router.set_store (Some (Store.id s)) r)).
Qed.

Lemma saved_rows_twice r r' rows :
  NoDup (map Router.id rows) -> In r rows -> Router.id r' = Router.id r ->
  saved_rows r (saved_rows r' rows) = rows.
Proof.
  intros N Hin Hid.
  assert (E : forall l, existsb (fun x => Nat.eqb (Router.id x) (Router.id r)) l
                        = true ->
              saved_rows r l
              = map (fun x => if Nat.eqb (Router.id x) (Router.id r)
                              then r else x) l).
  { intros l H. unfold saved_rows. now rewrite H. }
  assert (Hex : existsb (fun x => Nat.eqb (Router.id x) (Router.id r)) rows
                = true).
  { apply existsb_exists. exists r. split; [exact Hin|apply Nat.eqb_refl]. }
  assert (E' : saved_rows r' rows
               = map (fun x => if Nat.eqb (Router.id x) (Router.id r)
                               then r' else x) rows).
  { unfold saved_rows. rewrite Hid, Hex. reflexivity. }
  rewrite E'. rewrite E.
  - rewrite map_map. rewrite <- (map_id rows) at 2.
    apply map_ext_in. intros x Hx.
    destruct (Nat.eqb (Router.id x) (Router.id r)) eqn:Ex.
    + rewrite Hid, Nat.eqb_refl. apply Nat.eqb_eq in Ex.
      symmetry. exact (NoDup_map_inj Router.id rows x r N Hx Hin Ex).
    + now rewrite Ex.
  - apply existsb_exists. exists r'. split.
    + apply in_map_iff. exists r. now rewrite Nat.eqb_refl.
    + rewrite Hid. apply Nat.eqb_refl.
Qed.

Lemma set_shipped_twice r :
  set_shipped (negb (Router.shipped (set_shipped (negb (Router.shipped r)) r)))
              (set_shipped (negb (Router.shipped r)) r) = r.
Proof. destruct r. simpl. now rewrite negb_involutive. Qed.

Lemma own_router_in user i db r :
  own_router user i db = Some r ->
  In r (Router_objects db) /\ Some (Router.id r) = i
  /\ opt_nat_eqb (Router.store r) (User.store user) = true.
Proof.
  unfold own_router. destruct i as [i|]; [|discriminate].
  intros H. apply find_some in H. destruct H as [Hin Hp].
  apply andb_prop in Hp. destruct Hp as [Hs Hi]. apply Nat.eqb_eq in Hi.
  subst i. auto.
Qed.

Lemma RouterView_patch_run today user i db r :
  own_router user (Some (S i)) db = Some r -> fk_store db r = true ->
  exists db1,
    RouterView_patch today user (Some (S i)) db
    = (db1, mkResponse 200
              (Some "Router shipment status updated successfully"))
    /\ Router_objects db1
       = saved_rows (set_shipped (negb (Router.shipped r)) r)
                    (Router_objects db)
    /\ Log_objects db1 = Log_objects db
    /\ Store_objects db1 = Store_objects db.
Proof.
  intros Ho Hfk. unfold RouterView_patch, try_except.
  cbn [truthy_id]. rewrite bind_gets, Ho.
  destruct (Router_save_ok today (set_shipped (negb (Router.shipped r)) r) db)
    as [d [E Hd]]; [exact Hfk|].
  rewrite (bind_inr _ _ _ _ _ E). exists d. split; [reflexivity|].
  destruct Hd as (Hs & _ & Hr & Hl & _). simpl in *. auto.
Qed.

(** X4. [RouterView.patch] asks for no role: for any user and a router of
    the user's store it flips the shipped flag and writes no log row, and
    called a second time it puts the router table back as it was. *)
Theorem patch_toggles_shipped today user i db r :
  NoDup (map Router.id (Router_objects db)) ->
  own_router user (Some (S i)) db = Some r ->
  fk_store db r = true ->
  let db1 := fst (RouterView_patch today user (Some (S i)) db) in
  let db2 := fst (RouterView_patch today user (Some (S i)) db1) in
  succeeds (snd (RouterView_patch today user (Some (S i)) db))
  /\ lookup_router db1 (Router.id r)
     = Some (set_shipped (negb (Router.shipped r)) r)
  /\ Log_objects db1 = Log_objects db
  /\ succeeds (snd (RouterView_patch today user (Some (S i)) db1))
  /\ Router_objects db2 = Router_objects db.
Proof.
  intros N Ho Hfk db1 db2.
  destruct (RouterView_patch_run today user i db r Ho Hfk)
    as (d1 & E1 & Hr1 & Hl1 & Hs1).
  pose proof (own_router_in _ _ _ _ Ho) as (Hin & _ & Hst).
  assert (Ho1 : own_router user (Some (S i)) d1
                = Some (set_shipped (negb (Router.shipped r)) r)).
  { unfold own_router in *. rewrite Hr1.
    apply find_saved_rows_query with (r := r); [exact Ho|reflexivity|].
    apply find_some in Ho. exact (proj2 Ho). }
  destruct (RouterView_patch_run today user i d1 _ Ho1) as (d2 & E2 & Hr2 & _).
  { rewrite (fk_store_ext db d1 _ Hs1). exact Hfk. }
  subst db2 db1. rewrite E1. simpl. rewrite E2. simpl.
  split; [reflexivity|]. split.
  - unfold lookup_router. rewrite Hr1.
    apply (find_saved_rows_id (set_shipped (negb (Router.shipped r)) r)).
  - split; [exact Hl1|]. split; [reflexivity|].
    rewrite Hr2, Hr1, set_shipped_twice.
    now apply saved_rows_twice.
Qed.

Lemma set_action_shipped_twice a :
  set_action_shipped
    (if Action.shipped
          (set_action_shipped (if Action.shipped a then false else true) a)
     then false else true)
    (set_action_shipped (if Action.shipped a then false else true) a) = a.
Proof. destruct a as [i s u ac o sh r r2 re c]. simpl. now destruct sh. Qed.

Lemma with_actions_same db : with_actions (Action_objects db) db = db.
Proof. now destruct db. Qed.

Lemma ActionsView_put_cases user action_id db :
  ActionsView_put user action_id db =
  if negb (is_store_manager user)
  then (db, response_error "You don't have enough permissions")
  else
    match own_action user action_id db with
    | Some a =>
        (with_actions
           (map (fun x => if Nat.eqb (Action.id x) (Action.id a)
                          then set_action_shipped
                                 (if Action.shipped a then false else true) a
                          else x) (Action_objects db)) db,
         mkResponse 200 (Some "Action edited successfully"))
    | None => (db, response_error "Action not found")
    end.
Proof.
  unfold ActionsView_put, try_except.
  destruct (is_store_manager user); [|reflexivity]. cbn [negb].
  rewrite bind_gets. now destruct (own_action user action_id db).
Qed.

Lemma own_action_in user i db a :
  own_action user i db = Some a ->
  In a (Action_objects db) /\ Some (Action.id a) = i
  /\ opt_nat_eqb (Action.store a) (User.store user) = true.
Proof.
  unfold own_action. destruct i as [i|]; [|discriminate].
  intros O. apply find_some in O. destruct O as [Hin Hp].
  apply andb_prop in Hp. destruct Hp as [Hi Hs]. apply Nat.eqb_eq in Hi.
  subst i. auto.
Qed.

Lemma own_action_saved user i db a a' :
  own_action user i db = Some a ->
  Action.id a' = Action.id a -> Action.store a' = Action.store a ->
  own_action user i
    (with_actions
       (map (fun x => if Nat.eqb (Action.id x) (Action.id a) then a' else x)
            (Action_objects db)) db)
  = Some a'.
Proof.
  unfold own_action. destruct i as [i|]; [|discriminate]. simpl.
  intros O Hid Hst.
  assert (P : Nat.eqb (Action.id a') i
              && opt_nat_eqb (Action.store a') (User.store user) = true).
  { rewrite Hid, Hst. apply find_some in O. exact (proj2 O). }
  induction (Action_objects db) as [|x l IH]; [discriminate|].
  simpl in *. destruct (Nat.eqb (Action.id x) (Action.id a)) eqn:E.
  - now rewrite P.
  - destruct (Nat.eqb (Action.id x) i
              && opt_nat_eqb (Action.store x) (User.store user)) eqn:Q.
    + inversion O; subst x. now rewrite Nat.eqb_refl in E.
    + now apply IH.
Qed.

Lemma find_action_saved a a' rows :
  In a rows -> Action.id a' = Action.id a ->
  find (fun x => Nat.eqb (Action.id x) (Action.id a))
       (map (fun x => if Nat.eqb (Action.id x) (Action.id a) then a' else x)
            rows) = Some a'.
Proof.
  intros Hin Hid. induction rows as [|x l IH]; [destruct Hin|].
  simpl. destruct (Nat.eqb (Action.id x) (Action.id a)) eqn:E.
  - now rewrite Hid, Nat.eqb_refl.
  - rewrite E. destruct Hin as [->|Hin];
      [now rewrite Nat.eqb_refl in E|now apply IH].
Qed.

(** X5. [ActionsView.put] changes nothing of an action row but its shipped
    flag, adds and removes no row, touches no other table, refuses a user
    who is no manager with status 500 and no write, reaches only actions of
    the user's store, and called twice leaves the database as it was. *)
Theorem action_put_only_flips_shipped user action_id db :
  NoDup (map Action.id (Action_objects db)) ->
  let db' := fst (ActionsView_put user action_id db) in
  let res := snd (ActionsView_put user action_id db) in
  db' = with_actions (Action_objects db') db
  /\ map (set_action_shipped false) (Action_objects db')
     = map (set_action_shipped false) (Action_objects db)
  /\ (is_store_manager user = false ->
      db' = db /\ res = response_error "You don't have enough permissions")
  /\ (succeeds res ->
      exists a, In a (Action_objects db)
                /\ Some (Action.id a) = action_id
                /\ opt_nat_eqb (Action.store a) (User.store user) = true
                /\ find (fun x => Nat.eqb (Action.id x) (Action.id a))
                        (Action_objects db')
                   = Some (set_action_shipped (negb (Action.shipped a)) a))
  /\ fst (ActionsView_put user action_id db') = db.
Proof.
  intros N db' res. subst db' res. rewrite !ActionsView_put_cases.
  destruct (is_store_manager user) eqn:Mg; cbn [negb fst snd].
  2:{ split; [now destruct db|]. split; [reflexivity|].
      split; [auto|]. split; [discriminate|reflexivity]. }
  destruct (own_action user action_id db) as [a|] eqn:O; cbn [fst snd].
  2:{ split; [now destruct db|]. split; [reflexivity|].
      split; [discriminate|]. split; [discriminate|]. now rewrite O. }
  destruct (own_action_in _ _ _ _ O) as (Hin & Hid & Hst).
  set (a' := set_action_shipped (if Action.shipped a then false else true) a).
  assert (Hrows : forall x, In x (Action_objects db) ->
            Nat.eqb (Action.id x) (Action.id a) = true -> x = a).
  { intros x Hx E. apply Nat.eqb_eq in E.
    exact (NoDup_map_inj Action.id _ x a N Hx Hin E). }
  split; [reflexivity|]. split.
  { simpl. rewrite map_map. apply map_ext_in. intros x Hx.
    destruct (Nat.eqb (Action.id x) (Action.id a)) eqn:E; [|reflexivity].
    rewrite (Hrows x Hx E). now destruct a. }
  split; [discriminate|]. split.
  { intros _. exists a. split; [exact Hin|]. split; [exact Hid|].
    split; [exact Hst|]. simpl.
    replace (set_action_shipped (negb (Action.shipped a)) a) with a'
      by (unfold a'; now destruct (Action.shipped a)).
    now apply find_action_saved. }
  rewrite (own_action_saved user action_id db a a' O eq_refl eq_refl).
  cbn [fst]. destruct db as [st ca ro lo mo ac no].
  unfold with_actions. simpl in *. f_equal.
  rewrite map_map. rewrite <- (map_id ac) at 2.
  apply map_ext_in. intros x Hx.
  destruct (Nat.eqb (Action.id x) (Action.id a)) eqn:E.
  - simpl. rewrite Nat.eqb_refl. rewrite (Hrows x Hx E).
    apply set_action_shipped_twice.
  - change (Action.id a') with (Action.id a). now rewrite E.
Qed.

(* ================================================================== *)
(** ** The live counts under sale, collect and soft-delete *)

Lemma saved_rows_absent r rows :
  ~ In (Router.id r) (map Router.id rows) ->
  map (fun x => if Nat.eqb (Router.id x) (Router.id r) then r else x) rows
  = rows.
Proof.
  intros H. rewrite <- (map_id rows) at 2. apply map_ext_in. intros x Hx.
  destruct (Nat.eqb (Router.id x) (Router.id r)) eqn:E; [|reflexivity].
  apply Nat.eqb_eq in E. exfalso. apply H. rewrite <- E. now apply in_map.
Qed.

(** Saving a new version [r'] of the row [r] moves a count by what the two
    versions contribute. *)
Lemma count_saved_rows (p : Router.t -> bool) r r' rows :
  NoDup (map Router.id rows) -> In r rows -> Router.id r' = Router.id r ->
  (Z.of_nat (List.length (filter p (saved_rows r' rows)))
   = Z.of_nat (List.length (filter p rows))
     - (if p r then 1 else 0) + (if p r' then 1 else 0))%Z.
Proof.
  intros N Hin Hid. unfold saved_rows.
  replace (existsb _ rows) with true.
  2:{ symmetry. apply existsb_exists. exists r. split; [exact Hin|].
      rewrite Hid. apply Nat.eqb_refl. }
  induction rows as [|x l IH]; [destruct Hin|].
  simpl in N. inversion N as [|y l' Nx Nl]; subst. simpl map.
  destruct (Nat.eqb (Router.id x) (Router.id r')) eqn:E.
  - apply Nat.eqb_eq in E. rewrite saved_rows_absent by congruence.
    assert (x = r).
    { destruct Hin as [H|H]; [exact H|]. exfalso. apply Nx.
      rewrite E, Hid. now apply in_map. }
    subst x. cbn [filter]. destruct (p r), (p r'); cbn [List.length];
      rewrite ?Nat2Z.inj_succ; lia.
  - destruct Hin as [H|H].
    + subst x. rewrite Hid, Nat.eqb_refl in E. discriminate.
    + specialize (IH Nl H). cbn [filter].
      destruct (p x); cbn [List.length]; rewrite ?Nat2Z.inj_succ; lia.
Qed.

Lemma Store_count_saved db db' sid r r' :
  NoDup (map Router.id (Router_objects db)) -> In r (Router_objects db) ->
  Router.id r' = Router.id r ->
  Router_objects db' = saved_rows r' (Router_objects db) ->
  (Store_count_routers db' sid
   = Store_count_routers db sid - counts_for_store sid r
     + counts_for_store sid r')%Z.
Proof.
  intros N Hin Hid E. unfold Store_count_routers, counts_for_store, counted.
  rewrite E.
  rewrite (count_saved_rows _ r r' _ N Hin Hid).
  now rewrite !andb_assoc.
Qed.

Lemma Category_count_saved db db' cid r r' :
  NoDup (map Router.id (Router_objects db)) -> In r (Router_objects db) ->
  Router.id r' = Router.id r ->
  Router_objects db' = saved_rows r' (Router_objects db) ->
  (Category_count_routers db' cid
   = Category_count_routers db cid - counts_for_category cid r
     + counts_for_category cid r')%Z.
Proof.
  intros N Hin Hid E.
  unfold Category_count_routers, counts_for_category, counted.
  rewrite E.
  rewrite (count_saved_rows _ r r' _ N Hin Hid).
  now rewrite !andb_assoc.
Qed.

(** X6. A successful sale or collect that names no second serial number
    takes the router out of the live in-stock count of every store and
    category that counted it, and changes no other count: each count drops by
    one exactly when the router was in stock, not soft-deleted, and belonged
    to that store or category. *)
Theorem sale_and_collect_lower_counts today user sid body db r :
  User.store user = Some sid ->
  store_exists db sid = true ->
  NoDup (map Router.id (Router_objects db)) ->
  truthy (body_sn2 body) = false ->
  find (in_store (Some sid) (body_sn1 body)) (Router_objects db) = Some r ->
  body_action body = "sale" \/ body_action body = "collect" ->
  let db' := fst (ActionsView_post today user body db) in
  succeeds (snd (ActionsView_post today user body db)) ->
  (forall s, Store_count_routers db' s
             = Store_count_routers db s - counts_for_store s r)%Z
  /\ (forall c, Category_count_routers db' c
                = Category_count_routers db c - counts_for_category c r)%Z.
Proof.
  intros Hu Hst N H2 Hf Ha db' Hok.
  assert (Hin : In r (Router_objects db)) by (apply find_some in Hf; tauto).
  assert (C : exists st,
            (st = "new_sale" \/ st = "collected")
            /\ Router_objects db'
               = saved_rows (Router.set_status st r) (Router_objects db)).
  { subst db'. destruct Ha as [Ha|Ha].
    - destruct (String.eqb_spec (Router.status r) "in_stock") as [e|n].
      + destruct (sale_done today user sid body Hu H2 db r Ha Hf Hst e)
          as [d [E [Hr _]]].
        rewrite E. exists "new_sale". split; [now left|exact Hr].
      + rewrite (sale_refused today user sid body Hu H2 db r Ha Hf n) in Hok.
        discriminate Hok.
    - destruct (String.eqb_spec (Router.status r) "in_stock") as [e|n].
      + destruct (collect_done today user sid body Hu H2 db r Ha Hf Hst
                    (or_introl e)) as [d [E [Hr _]]].
        rewrite E. exists "collected". split; [now right|exact Hr].
      + destruct (String.eqb_spec (Router.status r) "new_sale") as [e'|n'].
        * destruct (collect_done today user sid body Hu H2 db r Ha Hf Hst
                      (or_intror e')) as [d [E [Hr _]]].
          rewrite E. exists "collected". split; [now right|exact Hr].
        * rewrite (collect_refused today user sid body Hu H2 db r Ha Hf n n')
            in Hok. discriminate Hok. }
  destruct C as (st & Hst' & Hr).
  assert (Z1 : forall s, counts_for_store s (Router.set_status st r) = 0%Z).
  { intros s. unfold counts_for_store, counted. simpl.
    destruct Hst' as [-> | ->]; simpl; now rewrite !andb_false_r. }
  assert (Z2 : forall c, counts_for_category c (Router.set_status st r) = 0%Z).
  { intros c. unfold counts_for_category, counted. simpl.
    destruct Hst' as [-> | ->]; simpl; now rewrite !andb_false_r. }
  split.
  - intros s.
    rewrite (Store_count_saved db db' s r (Router.set_status st r)
               N Hin eq_refl Hr), Z1. lia.
  - intros c.
    rewrite (Category_count_saved db db' c r (Router.set_status st r)
               N Hin eq_refl Hr), Z2. lia.
Qed.

Lemma RouterView_delete_rows today user body db :
  succeeds (snd (RouterView_delete today user body db)) ->
  exists r,
    own_router user (rbody_id body) db = Some r
    /\ Router_objects (fst (RouterView_delete today user body db))
       = saved_rows (Router.set_deleted true r) (Router_objects db).
Proof.
  unfold RouterView_delete, try_except.
  destruct (is_store_manager user); [|refused]. simpl.
  rewrite bind_gets.
  destruct (own_router user (rbody_id body) db) as [r|]; [|refused].
  destruct (Router_save today (Router.set_deleted true r) db)
    as [db1 [e|[]]] eqn:RS.
  { rewrite (bind_inl _ _ _ _ _ RS). refused. }
  rewrite (bind_inr _ _ _ _ _ RS). simpl. intros _.
  apply Router_save_inv in RS. exists r. split; [reflexivity|apply RS].
Qed.

(** X7. A successful [RouterView.delete] keeps the row and takes the router
    out of the live counts: the count of each store and category drops by
    one exactly when it counted the router, so deleting a router that is
    already soft-deleted, which the view accepts, changes no count. *)
Theorem soft_delete_lowers_counts today user body db :
  NoDup (map Router.id (Router_objects db)) ->
  let db' := fst (RouterView_delete today user body db) in
  succeeds (snd (RouterView_delete today user body db)) ->
  exists r,
    own_router user (rbody_id body) db = Some r
    /\ map Router.id (Router_objects db') = map Router.id (Router_objects db)
    /\ (forall s, Store_count_routers db' s
                  = Store_count_routers db s - counts_for_store s r)%Z
    /\ (forall c, Category_count_routers db' c
                  = Category_count_routers db c - counts_for_category c r)%Z
    /\ (Router.deleted r = true ->
        forall s c, Store_count_routers db' s = Store_count_routers db s
                    /\ Category_count_routers db' c
                       = Category_count_routers db c).
Proof.
  intros N db' Hok.
  destruct (RouterView_delete_rows today user body db Hok) as (r & Ho & Hr).
  fold db' in Hr. exists r. split; [exact Ho|].
  destruct (own_router_in _ _ _ _ Ho) as (Hin & _ & _).
  assert (S1 : forall s, (Store_count_routers db' s
                  = Store_count_routers db s - counts_for_store s r)%Z).
  { intros s.
    rewrite (Store_count_saved db db' s r (Router.set_deleted true r)
               N Hin eq_refl Hr).
    unfold counts_for_store at 2, counted. simpl.
    rewrite andb_false_r. lia. }
  assert (S2 : forall c, (Category_count_routers db' c
                  = Category_count_routers db c - counts_for_category c r)%Z).
  { intros c.
    rewrite (Category_count_saved db db' c r (Router.set_deleted true r)
               N Hin eq_refl Hr).
    unfold counts_for_category at 2, counted. simpl.
    rewrite andb_false_r. lia. }
  split; [|split; [exact S1|split; [exact S2|]]].
  - rewrite Hr. unfold saved_rows.
    replace (existsb _ (Router_objects db)) with true.
    + rewrite map_map. apply map_ext. intros x. simpl.
      destruct (Nat.eqb (Router.id x) (Router.id r)) eqn:E; [|reflexivity].
      apply Nat.eqb_eq in E. now rewrite E.
    + symmetry. apply existsb_exists. exists r.
      split; [exact Hin|apply Nat.eqb_refl].
  - intros Hd s c. rewrite S1, S2.
    unfold counts_for_store, counts_for_category, counted. rewrite Hd.
    simpl. rewrite !andb_false_r. lia.
Qed.

(* ================================================================== *)
(** ** The sweep and the latch side by side *)

Lemma fold_left_map {A B R} (f : R -> B -> R) (g : A -> B) l r :
  fold_left f (map g l) r = fold_left (fun r a => f r (g a)) l r.
Proof.
  revert r. induction l as [|a l IH]; intros r; [reflexivity|]. simpl.
  apply IH.
Qed.

Lemma fold_left_ext {A R} (f g : R -> A -> R) l r :
  (forall r a, f r a = g r a) -> fold_left f l r = fold_left g l r.
Proof.
  intros H. revert r. induction l as [|a l IH]; intros r; [reflexivity|].
  simpl. now rewrite H, IH.
Qed.

Lemma filter_map_commute {A} (p : A -> bool) (f : A -> A) l :
  (forall x, p (f x) = p x) -> filter p (map f l) = map f (filter p l).
Proof.
  intros H. induction l as [|x l IH]; [reflexivity|]. simpl.
  rewrite H. destruct (p x); simpl; now rewrite IH.
Qed.

Lemma latch_store db c : Category.store (latch db c) = Category.store c.
Proof. unfold latch. now destruct (_ && _). Qed.

(** The sweep reads the keys and the stores of the categories, which the
    latch leaves alone. *)
Lemma sweep_latched today db rows :
  sweep today (with_categories (map (latch db) (Category_objects db)) db) rows
  = sweep today db rows.
Proof.
  unfold sweep. simpl Store_objects. apply fold_left_ext. intros r s.
  unfold sweep_store. simpl Category_objects.
  rewrite filter_map_commute by (intros x; now rewrite latch_store).
  rewrite fold_left_map. apply fold_left_ext. intros r' c.
  now rewrite latch_id.
Qed.

(** X8. The sweep and the latch, which the middleware starts as two threads,
    commute: run one after the other in either order they leave the same
    database. *)
Theorem sweep_and_latch_commute today db :
  NoDup (map Category.id (Category_objects db)) ->
  fst (create_alerts (fst (create_monitoring today db)))
  = fst (create_monitoring today (fst (create_alerts db))).
Proof.
  intros N. rewrite create_monitoring_sweep. simpl fst.
  rewrite (create_alerts_latch db N). simpl fst.
  rewrite create_monitoring_sweep. simpl fst.
  set (db1 := with_monitorings _ db).
  rewrite (create_alerts_latch db1 N). simpl fst.
  subst db1. simpl Monitoring_objects. rewrite sweep_latched.
  reflexivity.
Qed.

Lemma alert_each_keeps_monitorings l :
  preserves Monitoring_objects (alert_each l).
Proof.
  induction l as [|c l IH]; [apply preserves_ret|]. simpl.
  apply preserves_bind.
  - unfold alert_category. apply preserves_bind; [apply preserves_gets|].
    intros count. apply preserves_if; [|apply preserves_ret].
    apply preserves_bind; [now apply preserves_modify|].
    intros _. apply preserves_ret.
  - intros low. apply preserves_bind; [exact IH|].
    intros rest. apply preserves_ret.
Qed.

Lemma create_alerts_keeps_monitorings :
  preserves Monitoring_objects create_alerts.
Proof.
  unfold create_alerts. apply preserves_bind; [apply preserves_gets|].
  intros l. apply alert_each_keeps_monitorings.
Qed.

Lemma no_row_today_swept today rows :
  NoDup (map Monitoring.id rows) ->
  existsb (fun m => (today <=? Monitoring.day m)%Z) rows = false ->
  swept_once today rows.
Proof.
  intros N H. split; [exact N|]. intros sid cid.
  replace (filter (todays today sid cid) rows) with (@nil Monitoring.t);
    [simpl; lia|].
  symmetry. apply filter_none_existsb.
  induction rows as [|m l IH]; [reflexivity|]. simpl in *.
  apply orb_false_elim in H. destruct H as [Hm Hl].
  inversion N; subst. rewrite IH by assumption.
  unfold todays. rewrite Hm. now rewrite andb_false_r.
Qed.

Lemma process_request_idle path today db :
  String.eqb path "/"
  && negb (existsb (fun m => (today <=? Monitoring.day m)%Z)
                   (Monitoring_objects db)) = false ->
  process_request path today db = (db, inr tt).
Proof.
  intros H. unfold process_request. rewrite bind_gets. now rewrite H.
Qed.

Lemma process_request_monitorings today db :
  existsb (fun m => (today <=? Monitoring.day m)%Z) (Monitoring_objects db)
    = false ->
  Monitoring_objects (fst (process_request "/" today db))
  = sweep today db (Monitoring_objects db).
Proof.
  intros H. unfold process_request. rewrite bind_gets, H. simpl.
  rewrite (bind_inr _ _ _ _ _ (create_monitoring_sweep today db)).
  unfold swallow.
  set (db1 := with_monitorings _ db).
  pose proof (preserves_bind Monitoring_objects create_alerts
                (fun _ => ret tt) create_alerts_keeps_monitorings
                (fun _ => preserves_ret _ tt) db1) as P.
  destruct ((create_alerts;;; ret tt) db1) as [d x]. simpl in *.
  exact P.
Qed.

(** X9. The middleware starts the sweep and the latch only for the path [/]
    and only while no Monitoring row is dated today or later. Once some
    store has a category, the first such request of a day writes a row dated
    today, so the same request repeated that day does nothing; with no
    category in any store the sweep writes no row, and the next request
    starts it again. *)
Theorem middleware_once_a_day path today db :
  NoDup (map Monitoring.id (Monitoring_objects db)) ->
  let db' := fst (process_request path today db) in
  (path <> "/" -> db' = db)
  /\ (existsb (fun m => (today <=? Monitoring.day m)%Z)
              (Monitoring_objects db) = true -> db' = db)
  /\ ((exists s c, In s (Store_objects db) /\ In c (Category_objects db)
                   /\ Category.store c = Store.id s) ->
      process_request path today db' = (db', inr tt))
  /\ ((forall s c, In s (Store_objects db) -> In c (Category_objects db) ->
                   Category.store c <> Store.id s) ->
      Monitoring_objects db' = Monitoring_objects db).
Proof.
  intros N db'.
  destruct (String.eqb_spec path "/") as [->|Hp].
  2:{ assert (E : process_request path today db = (db, inr tt)).
      { apply process_request_idle. apply String.eqb_neq in Hp.
        now rewrite Hp. }
      subst db'. rewrite E. simpl.
      split; [reflexivity|]. split; [reflexivity|].
      split; [intros _; exact E|reflexivity]. }
  destruct (existsb (fun m => (today <=? Monitoring.day m)%Z)
                    (Monitoring_objects db)) eqn:Sw.
  { assert (E : process_request "/" today db = (db, inr tt)).
    { apply process_request_idle. now rewrite Sw. }
    subst db'. rewrite E. simpl.
    split; [reflexivity|]. split; [reflexivity|].
    split; [intros _; exact E|reflexivity]. }
  pose proof (process_request_monitorings today db Sw) as Hm. fold db' in Hm.
  split; [intros H; now elim H|]. split; [discriminate|]. split.
  - intros (s & c & Hs & Hc & Hsc).
    apply process_request_idle. simpl. rewrite Hm.
    destruct (sweep_snapshot today db (Monitoring_objects db) s c
                (no_row_today_swept today _ N Sw) Hs Hc Hsc)
      as (m & Hf & _ & Hd).
    destruct (filter_singleton_in _ _ _ Hf) as [Hin _].
    replace (existsb _ (sweep today db (Monitoring_objects db))) with true;
      [reflexivity|].
    symmetry. apply existsb_exists. exists m. split; [exact Hin|].
    rewrite Hd. apply Z.leb_refl.
  - intros Hno. rewrite Hm. unfold sweep.
    assert (K : forall stores rows,
              (forall s, In s stores -> In s (Store_objects db)) ->
              fold_left (sweep_store today db) stores rows = rows).
    { induction stores as [|s l IH]; intros rows Hl; [reflexivity|].
      simpl. unfold sweep_store at 2.
      replace (filter _ (Category_objects db)) with (@nil Category.t).
      - simpl. apply IH. intros x Hx. apply Hl. now right.
      - symmetry. apply filter_none_existsb.
        destruct (existsb _ (Category_objects db)) eqn:X; [|reflexivity].
        apply existsb_exists in X. destruct X as (c & Hc & E).
        apply Nat.eqb_eq in E. exfalso.
        exact (Hno s c (Hl s (or_introl eq_refl)) Hc E). }
    apply K. auto.
Qed.

(* ================================================================== *)
(** ** Creating routers: refusals, half-done requests, the latch *)

Lemma Router_create_ok today st cat sn em db :
  serial_taken sn db = false ->
  match st with Some sid => store_exists db sid = true | None => True end ->
  exists db1,
    Router_create today st cat sn em db
    = (db1, inr (created_router db st cat sn em))
    /\ same_but_notifications
         (with_routers (Router_objects db ++ [created_router db st cat sn em])
                       db) db1.
Proof.
  intros Ht Hfk. unfold Router_create. rewrite bind_gets, Ht, bind_gets.
  rewrite bind_modify.
  set (r := created_router db st cat sn em).
  set (d := with_routers (Router_objects db ++ [r]) db).
  destruct (router_changed_ok today r d) as [db1 [E S]].
  { unfold fk_store. simpl. destruct st; [exact Hfk|reflexivity]. }
  fold r. change (Router.STATUS 0) with "in_stock". fold r.
  rewrite (bind_inr _ _ _ _ _ E). exists db1. split; [reflexivity|exact S].
Qed.

Lemma Router_create_taken today st cat sn em db :
  serial_taken sn db = true ->
  Router_create today st cat sn em db = (db, inl IntegrityError).
Proof.
  intros Ht. unfold Router_create. now rewrite bind_gets, Ht.
Qed.

Lemma saved_rows_new r rows :
  ~ In (Router.id r) (map Router.id rows) ->
  saved_rows r (rows ++ [r]) = rows ++ [r].
Proof.
  intros H. unfold saved_rows. rewrite existsb_app. simpl.
  rewrite Nat.eqb_refl, orb_true_r. rewrite map_app. simpl.
  rewrite Nat.eqb_refl. f_equal. now apply saved_rows_absent.
Qed.

(** Creating a router and saving it at once, as every view that creates one
    does. *)
Lemma create_and_save today st cat sn em db :
  serial_taken sn db = false ->
  match st with Some sid => store_exists db sid = true | None => True end ->
  exists db1 db2,
    Router_create today st cat sn em db
    = (db1, inr (created_router db st cat sn em))
    /\ Router_save today (created_router db st cat sn em) db1 = (db2, inr tt)
    /\ same_but_notifications
         (with_routers (Router_objects db ++ [created_router db st cat sn em])
                       db) db2.
Proof.
  intros Ht Hfk.
  destruct (Router_create_ok today st cat sn em db Ht Hfk) as [db1 [E1 S1]].
  set (r := created_router db st cat sn em) in *.
  destruct S1 as (Ss & Sc & Sr & Sl & Sm & Sa). simpl in *.
  destruct (Router_save_ok today r db1) as [db2 [E2 S2]].
  { unfold fk_store, store_exists. rewrite Ss. simpl.
    destruct st; [exact Hfk|reflexivity]. }
  exists db1, db2. split; [exact E1|]. split; [exact E2|].
  destruct S2 as (Ts & Tc & Tr & Tl & Tm & Ta). simpl in *.
  rewrite Sr in Tr. rewrite saved_rows_new in Tr by apply new_id_absent.
  repeat split; simpl; congruence.
Qed.

Lemma user_fk_store db user :
  user_fk db user = true ->
  match User.store user with
  | Some sid => store_exists db sid = true
  | None => True
  end.
Proof. unfold user_fk. now destruct (User.store user). Qed.

(** X10. What [CreateRouterView.post] answers a manager when it does not
    succeed: a serial number already in the table, or none at all, is
    answered as a router that exists already, and nothing is written; a
    category that does not exist is answered with the general error after
    the router was inserted, so the router stays in the table, without a
    category and without a log row. *)
Theorem create_router_refusals today user body db :
  is_store_manager user = true ->
  user_fk db user = true ->
  let db' := fst (CreateRouterView_post today user body db) in
  let res := snd (CreateRouterView_post today user body db) in
  (forall sn, rbody_serial_number body = Some sn ->
              serial_taken sn db = true ->
              db' = db
              /\ res = response_error "Router already exists in the database")
  /\ (rbody_serial_number body = None ->
      db' = db
      /\ res = response_error "Router already exists in the database")
  /\ (forall sn, rbody_serial_number body = Some sn ->
                 serial_taken sn db = false ->
                 Category_by_id (rbody_category body) db = None ->
                 res = response_error
                         "An error occured while processing the request"
                 /\ Router_objects db'
                    = Router_objects db
                      ++ [created_router db (User.store user) None sn None]
                 /\ Log_objects db' = Log_objects db).
Proof.
  intros Mg Hfk db' res. subst db' res.
  unfold CreateRouterView_post. rewrite Mg. cbn [negb]. rewrite bind_gets.
  split; [|split].
  - intros sn Hs Ht. rewrite Hs. cbn [not_null]. rewrite bind_ret.
    now rewrite (bind_inl _ _ _ _ _ (Router_create_taken today _ _ sn None db Ht)).
  - intros Hs. rewrite Hs. now split.
  - intros sn Hs Ht Hc. rewrite Hs, Hc. cbn [not_null option_map].
    rewrite bind_ret.
    destruct (create_and_save today (User.store user) None sn None db Ht
                (user_fk_store db user Hfk)) as (d1 & d2 & E1 & E2 & S).
    rewrite (bind_inr _ _ _ _ _ E1), (bind_inr _ _ _ _ _ E2). simpl.
    destruct S as (_ & _ & Sr & Sl & _). simpl in *. auto.
Qed.

Lemma Category_by_id_in i db c :
  Category_by_id i db = Some c ->
  In c (Category_objects db) /\ Some (Category.id c) = i.
Proof.
  unfold Category_by_id. destruct i as [i|]; [|discriminate].
  intros H. apply find_some in H. destruct H as [Hin He].
  apply Nat.eqb_eq in He. subst i. auto.
Qed.

(** The successful run of [CreateRouterView.post]. *)
Lemma CreateRouterView_post_run today user body db c sn :
  is_store_manager user = true -> user_fk db user = true ->
  rbody_serial_number body = Some sn -> serial_taken sn db = false ->
  Category_by_id (rbody_category body) db = Some c ->
  let r := created_router db (User.store user) (Some (Category.id c)) sn None in
  let db' := fst (CreateRouterView_post today user body db) in
  snd (CreateRouterView_post today user body db) = response_ok
  /\ Router_objects db' = Router_objects db ++ [r]
  /\ Category_objects db'
     = map (fun c' => if Nat.eqb (Category.id c') (Category.id c)
                      then Category.set_alerted false c else c')
           (Category_objects db)
  /\ Store_objects db' = Store_objects db.
Proof.
  intros Mg Hfk Hs Ht Hc r db'. subst db'.
  unfold CreateRouterView_post. rewrite Mg. cbn [negb].
  rewrite bind_gets, Hs, Hc. cbn [not_null option_map]. rewrite bind_ret.
  destruct (create_and_save today (User.store user) (Some (Category.id c))
              sn None db Ht (user_fk_store db user Hfk))
    as (d1 & d2 & E1 & E2 & S).
  rewrite (bind_inr _ _ _ _ _ E1), (bind_inr _ _ _ _ _ E2). simpl.
  destruct S as (Ss & Sc & Sr & _). simpl in *.
  rewrite Sc. auto.
Qed.

(** X11. A router added through [CreateRouterView.post] counts at once for
    its category, and the view clears the alerted flag of that category
    whatever the count is: when the count is still below the threshold, the
    next [create_alerts] trips the category again. *)
Theorem restock_resets_latch today user body db c sn :
  is_store_manager user = true ->
  user_fk db user = true ->
  NoDup (map Category.id (Category_objects db)) ->
  rbody_serial_number body = Some sn ->
  serial_taken sn db = false ->
  Category_by_id (rbody_category body) db = Some c ->
  let db' := fst (CreateRouterView_post today user body db) in
  succeeds (snd (CreateRouterView_post today user body db))
  /\ Category_by_id (Some (Category.id c)) db'
     = Some (Category.set_alerted false c)
  /\ (Category_count_routers db' (Category.id c)
      = Category_count_routers db (Category.id c) + 1)%Z
  /\ ((Category_count_routers db (Category.id c) + 1
       < Category.alert_on c)%Z ->
      exists tripped, snd (create_alerts db') = inr tripped
                      /\ In (Category.id c) tripped).
Proof.
  intros Mg Hfk N Hs Ht Hc db'.
  destruct (CreateRouterView_post_run today user body db c sn Mg Hfk Hs Ht Hc)
    as (Hres & Hr & Hcat & _). fold db' in Hr, Hcat.
  destruct (Category_by_id_in _ _ _ Hc) as [Hin _].
  assert (Hcount : (Category_count_routers db' (Category.id c)
                    = Category_count_routers db (Category.id c) + 1)%Z).
  { unfold Category_count_routers. rewrite Hr, filter_app, length_app.
    simpl. rewrite Nat.eqb_refl. simpl. lia. }
  assert (Hby : Category_by_id (Some (Category.id c)) db'
                = Some (Category.set_alerted false c)).
  { unfold Category_by_id. rewrite Hcat.
    apply (find_category_saved (Category.set_alerted false c)).
    apply existsb_exists. exists c. split; [exact Hin|apply Nat.eqb_refl]. }
  split; [now rewrite Hres|]. split; [exact Hby|]. split; [exact Hcount|].
  intros Low.
  assert (N' : NoDup (map Category.id (Category_objects db'))).
  { rewrite Hcat, map_map. erewrite map_ext; [exact N|].
    intros x. destruct (Nat.eqb (Category.id x) (Category.id c)) eqn:E;
      [|reflexivity].
    apply Nat.eqb_eq in E. now rewrite E. }
  rewrite (create_alerts_latch db' N'). eexists. split; [reflexivity|].
  change (Category.id c) with (Category.id (Category.set_alerted false c)).
  apply in_map. apply filter_In. split.
  - destruct (Category_by_id_in _ _ _ Hby) as [H _]. exact H.
  - unfold low_stock. simpl. rewrite Hcount. now apply Z.ltb_lt.
Qed.

(* ================================================================== *)
(** ** Creating routers in bulk *)

Lemma serial_taken_map sn db :
  serial_taken sn db
  = existsb (fun s => String.eqb s sn)
            (map Router.serial_number (Router_objects db)).
Proof.
  unfold serial_taken. induction (Router_objects db) as [|r l IH];
    [reflexivity|].
  simpl. now rewrite IH.
Qed.

Lemma bulk_one_skip today user category sn db :
  serial_taken sn db = true ->
  bulk_one today user category sn db = (db, inr tt).
Proof.
  intros Ht. unfold bulk_one, swallow.
  now rewrite (bind_inl _ _ _ _ _ (Router_create_taken today _ _ sn None db Ht)).
Qed.

Lemma bulk_one_add today user category sn db :
  serial_taken sn db = false -> user_fk db user = true ->
  let r := created_router db (User.store user)
             (option_map Category.id category) sn None in
  exists db1 l,
    bulk_one today user category sn db = (db1, inr tt)
    /\ Router_objects db1 = Router_objects db ++ [r]
    /\ Log_objects db1 = Log_objects db ++ [l]
    /\ Log.instance_id l = Some (Router.id r)
    /\ Log.action l = "add" /\ Log.instance l = "router"
    /\ Store_objects db1 = Store_objects db
    /\ Category_objects db1 = Category_objects db.
Proof.
  intros Ht Hfk r.
  destruct (create_and_save today (User.store user)
              (option_map Category.id category) sn None db Ht
              (user_fk_store db user Hfk)) as (d1 & d2 & E1 & E2 & S).
  fold r in E1, E2, S. unfold bulk_one, swallow.
  rewrite (bind_inr _ _ _ _ _ E1), (bind_inr _ _ _ _ _ E2).
  unfold Log_create, modify.
  destruct S as (Ss & Sc & Sr & Sl & _). simpl in *.
  eexists. eexists. split; [reflexivity|]. simpl.
  rewrite Sl. repeat split; assumption.
Qed.

Lemma bulk_loop today user category sns :
  forall db, user_fk db user = true ->
  exists db1 news logs,
    for_each sns (bulk_one today user category) db = (db1, inr tt)
    /\ Router_objects db1 = Router_objects db ++ news
    /\ Log_objects db1 = Log_objects db ++ logs
    /\ map Router.serial_number news
       = accepted (map Router.serial_number (Router_objects db)) sns
    /\ map Log.instance_id logs = map (fun r => Some (Router.id r)) news
    /\ Forall (fun l => Log.action l = "add" /\ Log.instance l = "router") logs
    /\ Forall (fun r => Router.store r = User.store user
                        /\ Router.status r = "in_stock"
                        /\ Router.deleted r = false) news
    /\ Store_objects db1 = Store_objects db
    /\ Category_objects db1 = Category_objects db.
Proof.
  induction sns as [|sn rest IH]; intros db Hfk.
  - exists db, [], []. simpl. rewrite !app_nil_r. repeat split; constructor.
  - simpl for_each. simpl accepted. rewrite <- serial_taken_map.
    destruct (serial_taken sn db) eqn:Ht.
    + rewrite (bind_inr _ _ _ _ _ (bulk_one_skip today user category sn db Ht)).
      apply IH. exact Hfk.
    + destruct (bulk_one_add today user category sn db Ht Hfk)
        as (d1 & l & E & Hr & Hl & Hi & Ha & Hn & Hs & Hc).
      rewrite (bind_inr _ _ _ _ _ E).
      destruct (IH d1) as (d2 & news & logs & E2 & Hr2 & Hl2 & Hsn & Hid
                           & Fa & Fr & Hs2 & Hc2).
      { unfold user_fk, store_exists in *. now rewrite Hs. }
      exists d2, (created_router db (User.store user)
                    (option_map Category.id category) sn None :: news),
             (l :: logs).
      split; [exact E2|].
      rewrite Hr2, Hl2, Hr, Hl, <- !app_assoc. simpl.
      split; [reflexivity|]. split; [reflexivity|].
      split. { f_equal. rewrite Hsn, Hr, map_app. reflexivity. }
      split. { now rewrite Hi, Hid. }
      split. { constructor; [now split|exact Fa]. }
      split. { constructor; [now repeat split|exact Fr]. }
      split; congruence.
Qed.

(** X12. [CreateRoutersView.post], for a manager: a serial number gets a
    router exactly when no router has it yet and it did not come earlier in
    the batch; the rows that were there are left as they are; every router
    created gets one log row, an add with its key; and all of this stays
    written also when the category does not exist, in which case the answer
    is the general error. *)
Theorem bulk_create_logs_each_router today user category sns db :
  is_store_manager user = true ->
  user_fk db user = true ->
  let db' := fst (CreateRoutersView_post today user category sns db) in
  let res := snd (CreateRoutersView_post today user category sns db) in
  exists news logs,
    Router_objects db' = Router_objects db ++ news
    /\ Log_objects db' = Log_objects db ++ logs
    /\ map Router.serial_number news
       = accepted (map Router.serial_number (Router_objects db)) sns
    /\ map Log.instance_id logs = map (fun r => Some (Router.id r)) news
    /\ Forall (fun l => Log.action l = "add" /\ Log.instance l = "router") logs
    /\ Forall (fun r => Router.store r = User.store user
                        /\ Router.status r = "in_stock"
                        /\ Router.deleted r = false) news
    /\ match Category_by_id category db with
       | Some c =>
           res = response_ok
           /\ Category_by_id (Some (Category.id c)) db'
              = Some (Category.set_alerted false c)
       | None =>
           res = response_error "An error occured while processing the request"
       end.
Proof.
  intros Mg Hfk db' res. subst db' res.
  unfold CreateRoutersView_post, try_except. rewrite Mg. cbn [negb].
  rewrite bind_gets.
  destruct (bulk_loop today user (Category_by_id category db) sns db Hfk)
    as (d1 & news & logs & E & Hr & Hl & Hsn & Hid & Fa & Fr & Hs & Hc).
  rewrite (bind_inr _ _ _ _ _ E).
  exists news, logs.
  destruct (Category_by_id category db) as [c|] eqn:C; simpl.
  - repeat (split; [assumption|]). split; [reflexivity|].
    unfold Category_by_id. simpl. rewrite Hc.
    apply (find_category_saved (Category.set_alerted false c)).
    destruct (Category_by_id_in _ _ _ C) as [Hin _].
    apply existsb_exists. exists c. split; [exact Hin|apply Nat.eqb_refl].
  - repeat (split; [assumption|]). reflexivity.
Qed.

(* ================================================================== *)
(** ** Edits stay inside the store of the user *)

Lemma Router_save_rows today r db :
  Router_objects (fst (Router_save today r db))
  = saved_rows r (Router_objects db).
Proof.
  unfold Router_save. rewrite bind_modify.
  destruct (router_changed today r _) as [d x] eqn:E.
  apply router_changed_inv in E. simpl. apply E.
Qed.

Lemma lookup_router_in db r :
  NoDup (map Router.id (Router_objects db)) -> In r (Router_objects db) ->
  lookup_router db (Router.id r) = Some r.
Proof.
  intros N Hin. unfold lookup_router.
  destruct (find _ (Router_objects db)) as [x|] eqn:E.
  - apply find_some in E. destruct E as [Hx He]. apply Nat.eqb_eq in He.
    now rewrite (NoDup_map_inj Router.id _ x r N Hx Hin He).
  - pose proof (find_none _ _ E r Hin) as H. simpl in H.
    now rewrite Nat.eqb_refl in H.
Qed.

(** A view that saves at most a new version of a router of the user's store
    leaves every router of another store as it is. *)
Lemma foreign_router_kept user db db' i r0 r' r :
  NoDup (map Router.id (Router_objects db)) ->
  own_router user i db = Some r0 -> Router.id r' = Router.id r0 ->
  Router_objects db' = saved_rows r' (Router_objects db) ->
  In r (Router_objects db) ->
  opt_nat_eqb (Router.store r) (User.store user) = false ->
  lookup_router db' (Router.id r) = Some r.
Proof.
  intros N Ho Hid Hr Hin Hst.
  destruct (own_router_in _ _ _ _ Ho) as (Hin0 & _ & Hst0).
  unfold lookup_router. rewrite Hr.
  rewrite find_saved_rows_other.
  - now apply lookup_router_in.
  - rewrite Hid. intros E.
    apply (NoDup_map_inj Router.id _ r r0 N Hin Hin0) in E. subst r0.
    congruence.
Qed.

Lemma fst_bind_save {B} today r (k : unit -> M B) db :
  (forall d, Router_objects (fst (k tt d)) = Router_objects d) ->
  Router_objects (fst (bind (Router_save today r) k db))
  = saved_rows r (Router_objects db).
Proof.
  intros Hk. pose proof (Router_save_rows today r db) as H.
  unfold bind. destruct (Router_save today r db) as [d [e|[]]]; simpl in *;
    [exact H|].
  now rewrite Hk.
Qed.

Lemma RouterView_put_rows today user body db :
  let db' := fst (RouterView_put today user body db) in
  Router_objects db' = Router_objects db
  \/ exists r0 r', own_router user (rbody_id body) db = Some r0
                   /\ Router.id r' = Router.id r0
                   /\ Router_objects db' = saved_rows r' (Router_objects db).
Proof.
  unfold RouterView_put, try_except.
  destruct (is_store_manager user); [|now left]. cbn [negb].
  rewrite !bind_gets.
  destruct (own_router user (rbody_id body) db) as [r0|] eqn:O; [|now left].
  destruct (rbody_serial_number body) as [sn|]; [|now left].
  cbn [not_null]. rewrite bind_ret.
  destruct (rbody_status body) as [st|]; [|now left].
  cbn [not_null]. rewrite bind_ret, bind_gets.
  destruct (existsb _ (Router_objects db)); [now left|].
  right.
  match goal with
  | |- context [bind (Router_save today ?x) ?k db] =>
      exists r0, x; split; [reflexivity|]; split; [reflexivity|];
      pose proof (fst_bind_save today x k db (fun d => eq_refl)) as H;
      destruct (bind (Router_save today x) k db) as [d [e|res]]
  end; exact H.
Qed.

Lemma RouterView_delete_rows_any today user body db :
  let db' := fst (RouterView_delete today user body db) in
  Router_objects db' = Router_objects db
  \/ exists r0 r', own_router user (rbody_id body) db = Some r0
                   /\ Router.id r' = Router.id r0
                   /\ Router_objects db' = saved_rows r' (Router_objects db).
Proof.
  unfold RouterView_delete, try_except.
  destruct (is_store_manager user); [|now left]. cbn [negb].
  rewrite bind_gets.
  destruct (own_router user (rbody_id body) db) as [r0|] eqn:O; [|now left].
  right.
  match goal with
  | |- context [bind (Router_save today ?x) ?k db] =>
      exists r0, x; split; [reflexivity|]; split; [reflexivity|];
      pose proof (fst_bind_save today x k db (fun d => eq_refl)) as H;
      destruct (bind (Router_save today x) k db) as [d [e|res]]
  end; exact H.
Qed.

Lemma RouterView_patch_rows today user i db :
  let db' := fst (RouterView_patch today user i db) in
  Router_objects db' = Router_objects db
  \/ exists r0 r', own_router user i db = Some r0
                   /\ Router.id r' = Router.id r0
                   /\ Router_objects db' = saved_rows r' (Router_objects db).
Proof.
  unfold RouterView_patch, try_except.
  destruct (truthy_id i); [|now left]. rewrite bind_gets.
  destruct (own_router user i db) as [r0|] eqn:O; [|now left].
  right.
  match goal with
  | |- context [bind (Router_save today ?x) ?k db] =>
      exists r0, x; split; [reflexivity|]; split; [reflexivity|];
      pose proof (fst_bind_save today x k db (fun d => eq_refl)) as H;
      destruct (bind (Router_save today x) k db) as [d [e|res]]
  end; exact H.
Qed.

Lemma own_category_store user i db c :
  own_category user i db = Some c ->
  In c (Category_objects db)
  /\ opt_nat_eqb (Some (Category.store c)) (User.store user) = true.
Proof.
  unfold own_category. destruct i as [i|]; [|discriminate].
  intros H. apply find_some in H. destruct H as [Hin Hp].
  apply andb_prop in Hp. tauto.
Qed.

Lemma Category_by_id_of db c :
  NoDup (map Category.id (Category_objects db)) ->
  In c (Category_objects db) ->
  Category_by_id (Some (Category.id c)) db = Some c.
Proof.
  intros N Hin. unfold Category_by_id.
  rewrite <- (map_id (Category_objects db)).
  now rewrite (find_map_by_id (fun x => x) _ c (fun x => eq_refl) N Hin).
Qed.

Lemma foreign_category_kept user db i c0 c' c :
  NoDup (map Category.id (Category_objects db)) ->
  own_category user i db = Some c0 -> Category.id c' = Category.id c0 ->
  In c (Category_objects db) ->
  opt_nat_eqb (Some (Category.store c)) (User.store user) = false ->
  find (fun x => Nat.eqb (Category.id x) (Category.id c))
       (map (fun x => if Nat.eqb (Category.id x) (Category.id c')
                      then c' else x) (Category_objects db))
  = Some c.
Proof.
  intros N Ho Hid Hin Hst.
  destruct (own_category_store _ _ _ _ Ho) as (Hin0 & Hst0).
  rewrite (find_map_by_id _ _ c); [|intros x|exact N|exact Hin].
  - destruct (Nat.eqb (Category.id c) (Category.id c')) eqn:E;
      [|reflexivity].
    apply Nat.eqb_eq in E. rewrite Hid in E.
    apply (NoDup_map_inj Category.id _ c c0 N Hin Hin0) in E. subst c0.
    congruence.
  - destruct (Nat.eqb (Category.id x) (Category.id c')) eqn:E;
      [|reflexivity].
    apply Nat.eqb_eq in E. now rewrite E.
Qed.

(** X13. The edit, delete and shipping views reach only rows of the store
    of the user: whatever the request and whether it succeeds or not,
    [RouterView.put], [RouterView.delete] and [RouterView.patch] leave every
    router of another store as it is, and [CategoryView.put] and
    [CategoryView.delete] every category of another store. *)
Theorem edits_stay_in_store today user db :
  NoDup (map Router.id (Router_objects db)) ->
  NoDup (map Category.id (Category_objects db)) ->
  (forall r, In r (Router_objects db) ->
     opt_nat_eqb (Router.store r) (User.store user) = false ->
     (forall body,
        lookup_router (fst (RouterView_put today user body db)) (Router.id r)
        = Some r
        /\ lookup_router (fst (RouterView_delete today user body db))
                         (Router.id r) = Some r)
     /\ (forall i,
           lookup_router (fst (RouterView_patch today user i db))
                         (Router.id r) = Some r))
  /\ (forall c, In c (Category_objects db) ->
        opt_nat_eqb (Some (Category.store c)) (User.store user) = false ->
        forall body,
          Category_by_id (Some (Category.id c))
                         (fst (CategoryView_put user body db)) = Some c
          /\ Category_by_id (Some (Category.id c))
                            (fst (CategoryView_delete user body db)) = Some c).
Proof.
  intros Nr Nc. split.
  - intros r Hin Hst.
    assert (K : forall db' i,
              (Router_objects db' = Router_objects db
               \/ exists r0 r', own_router user i db = Some r0
                                /\ Router.id r' = Router.id r0
                                /\ Router_objects db'
                                   = saved_rows r' (Router_objects db)) ->
              lookup_router db' (Router.id r) = Some r).
    { intros db' i [E | (r0 & r' & Ho & Hid & E)].
      - unfold lookup_router. rewrite E. now apply lookup_router_in.
      - now apply (foreign_router_kept user db db' i r0 r' r). }
    split; [intros body; split|intros i].
    + apply (K _ (rbody_id body)). apply RouterView_put_rows.
    + apply (K _ (rbody_id body)). apply RouterView_delete_rows_any.
    + apply (K _ i). apply RouterView_patch_rows.
  - intros c Hin Hst body. split.
    + unfold CategoryView_put, try_except.
      destruct (is_store_manager user);
        [|now apply Category_by_id_of]. cbn [negb]. rewrite bind_gets.
      destruct (own_category user (cbody_id body) db) as [c0|] eqn:O;
        [|now apply Category_by_id_of].
      destruct (cbody_name body) as [name|]; [|now apply Category_by_id_of].
      destruct (cbody_type body) as [type|]; [|now apply Category_by_id_of].
      simpl.
      now apply (foreign_category_kept user db (cbody_id body) c0
                   (Category.set_name_type name type c0) c).
    + unfold CategoryView_delete, try_except.
      destruct (is_store_manager user);
        [|now apply Category_by_id_of]. cbn [negb]. rewrite bind_gets.
      destruct (own_category user (cbody_id body) db) as [c0|] eqn:O;
        [|now apply Category_by_id_of].
      simpl.
      now apply (foreign_category_kept user db (cbody_id body) c0
                   (Category.set_deleted true c0) c).
Qed.

(* ================================================================== *)
(** ** The actions view off its four paths *)

Lemma saved_rows_same r rows :
  NoDup (map Router.id rows) -> In r rows -> saved_rows r rows = rows.
Proof.
  intros N Hin. unfold saved_rows.
  replace (existsb _ rows) with true.
  - rewrite <- (map_id rows) at 2. apply map_ext_in. intros x Hx.
    destruct (Nat.eqb (Router.id x) (Router.id r)) eqn:E; [|reflexivity].
    apply Nat.eqb_eq in E. symmetry.
    exact (NoDup_map_inj Router.id rows x r N Hx Hin E).
  - symmetry. apply existsb_exists. exists r.
    split; [exact Hin|apply Nat.eqb_refl].
Qed.

(** X14. [ActionsView.post] compares the action with four strings and has
    no branch for anything else: for any other action on a router of the
    store, in a request that names no second serial number, it answers 200,
    leaves the router table as it was, and adds an action row that carries
    the unknown action and the router. *)
Theorem unknown_action_is_recorded today user sid body db r :
  User.store user = Some sid ->
  store_exists db sid = true ->
  NoDup (map Router.id (Router_objects db)) ->
  truthy (body_sn2 body) = false ->
  find (in_store (Some sid) (body_sn1 body)) (Router_objects db) = Some r ->
  body_action body <> "return" -> body_action body <> "swap" ->
  body_action body <> "collect" -> body_action body <> "sale" ->
  let db' := fst (ActionsView_post today user body db) in
  snd (ActionsView_post today user body db) = response_ok
  /\ Router_objects db' = Router_objects db
  /\ exists a, Action_objects db' = Action_objects db ++ [a]
               /\ Action.action a = body_action body
               /\ Action.router a = Some (Router.id r)
               /\ Action.router2 a = None.
Proof.
  intros Hu Hst N H2 Hf A1 A2 A3 A4 db'. subst db'.
  pose proof Hf as Hf'. rewrite <- Hu in Hf'.
  rewrite (post_found _ _ _ _ _ Hf' H2).
  unfold try_except, ActionsView_branch.
  apply String.eqb_neq in A1, A2, A3, A4. rewrite A1, A2, A3, A4.
  rewrite bind_ret.
  destruct (find_some _ _ Hf) as [Hin Hp].
  destruct (ActionsView_commit_ok today user body
              (mkLocals r None None None None) db) as [d [E C]].
  - simpl. exact (in_store_fk db sid _ r Hst Hp).
  - exact I.
  - rewrite E. simpl. destruct C as (Hr & Ha & _). simpl in *.
    split; [reflexivity|]. split.
    + rewrite Hr. now apply saved_rows_same.
    + eexists. split; [exact Ha|]. repeat split.
Qed.

Lemma find_in_store_absent store sn rows :
  (forall r, In r rows -> Router.serial_number r <> sn) ->
  find (in_store store sn) rows = None.
Proof.
  intros H. destruct (find (in_store store sn) rows) as [r|] eqn:E;
    [|reflexivity].
  apply find_some in E. destruct E as [Hin Hp].
  apply in_store_serial in Hp. now elim (H r Hin).
Qed.

(** X15. A swap sent without a second serial number always ends in the
    general error and never adds an action row; when some router has the
    first serial number nothing is written, and when none has it the router
    that the fallback inserted stays in the table, in stock and without a
    store. *)
Theorem swap_without_second_serial today user body db :
  NoDup (map Router.serial_number (Router_objects db)) ->
  body_action body = "swap" ->
  truthy (body_sn2 body) = false ->
  let db' := fst (ActionsView_post today user body db) in
  snd (ActionsView_post today user body db) = UnexpectedError
  /\ Action_objects db' = Action_objects db
  /\ ((exists r, In r (Router_objects db)
                 /\ Router.serial_number r = body_sn1 body) -> db' = db)
  /\ ((forall r, In r (Router_objects db) ->
                 Router.serial_number r <> body_sn1 body) ->
      db' = with_routers
              (Router_objects db ++ [fresh_router db (body_sn1 body)]) db).
Proof.
  intros N Ha H2 db'. subst db'.
  assert (B : forall st r1 d,
            ActionsView_branch st body r1 None d = (d, inl AttributeError)).
  { intros st r1 d. unfold ActionsView_branch. now rewrite Ha. }
  assert (K : forall d r1,
            resolve_router1 today (User.store user) body db
              = (d, inr (Some r1)) ->
            ActionsView_post today user body db = (d, UnexpectedError)).
  { intros d r1 R1. unfold ActionsView_post, try_except.
    rewrite (bind_inr _ _ _ _ _ R1).
    rewrite (bind_inr _ _ _ _ _ (resolve_router2_none today _ _ _ H2)).
    now rewrite (bind_inl _ _ _ _ _ (B _ _ _)). }
  destruct (serial_filter_cases db (body_sn1 body) N) as [Hno | (r & Hin & Hs)].
  - assert (R1 : resolve_router1 today (User.store user) body db
                 = (with_routers
                      (Router_objects db ++ [fresh_router db (body_sn1 body)])
                      db,
                    inr (Some (Router.set_store (User.store user)
                                 (fresh_router db (body_sn1 body)))))).
    { unfold resolve_router1.
      rewrite bind_gets, (find_in_store_absent _ _ _ Hno), Ha. simpl.
      erewrite bind_inr; [reflexivity|].
      apply get_or_create_for_absent. now apply serial_filter_none. }
    rewrite (K _ _ R1). simpl. split; [reflexivity|]. split; [reflexivity|].
    split; [|reflexivity].
    intros (r & Hin & Hs). now elim (Hno r Hin).
  - pose proof (resolve_router1_existing today (User.store user) body db r
                  N Hin Hs (or_intror Ha)) as R1.
    rewrite (K _ _ R1). simpl. split; [reflexivity|]. split; [reflexivity|].
    split; [reflexivity|].
    intros Hno. now elim (Hno r Hin).
Qed.

(* ================================================================== *)
(** ** The receiver of the admin console's log entries *)

(** X16. [action_created] logs the admin console's changes to routers only:
    for a router that exists and a flag 1, 2 or 3 it adds one log row, an
    add, edit or delete of that router with its serial number and store; for
    a category it raises on the unassigned local before any row is built;
    so whatever the entry, it never adds a log row for a category, and never
    changes another table. *)
Theorem admin_log_entries instance db :
  let db' := fst (action_created instance db) in
  let out := snd (action_created instance db) in
  (forall r action,
     contains "router" (content_type instance) = true ->
     Router_by_id (object_id instance) db = Some r ->
     flag_action (action_flag instance) = Some action ->
     out = inr tt
     /\ Log_objects db'
        = Log_objects db
          ++ [Log.mk (new_id (map Log.id (Log_objects db))) (Router.store r)
                     (Some (entry_user instance)) action "router"
                     (Some (Router.serial_number r)) None
                     (Some (Router.id r))])
  /\ (forall c,
        contains "router" (content_type instance) = false ->
        contains "category" (content_type instance) = true ->
        Category_by_id (object_id instance) db = Some c ->
        out = inl UnboundLocalError /\ db' = db)
  /\ (db' = db
      \/ exists l, db' = with_logs (Log_objects db ++ [l]) db
                   /\ Log.instance l = "router").
Proof.
  unfold action_created.
  destruct (contains "router" (content_type instance)) eqn:R.
  - destruct (Router_by_id (object_id instance) db) as [r|] eqn:Hr.
    + destruct (flag_action (action_flag instance)) as [a|] eqn:Ha; simpl.
      * split; [|split].
        -- intros r' a' _ E1 E2. inversion E1; inversion E2; subst.
           now split.
        -- discriminate.
        -- right. eexists. split; reflexivity.
      * split; [|split]; [discriminate|discriminate|now left].
    + simpl. split; [|split]; [discriminate|discriminate|now left].
  - destruct (contains "category" (content_type instance)) eqn:C.
    + destruct (Category_by_id (object_id instance) db) as [c|]; simpl.
      * split; [discriminate|]. split; [now split|now left].
      * split; [discriminate|]. split; [discriminate|now left].
    + simpl. split; [discriminate|]. split; [discriminate|now left].
Qed.

(* ================================================================== *)
(** ** Importing routers *)

Lemma Router_create_raised today st cat sn em db db1 e :
  Router_create today st cat sn em db = (db1, inl e) ->
  Log_objects db1 = Log_objects db
  /\ (Router_objects db1 = Router_objects db
      \/ Router_objects db1
         = Router_objects db ++ [created_router db st cat sn em]).
Proof.
  unfold Router_create. rewrite bind_gets.
  destruct (serial_taken sn db).
  - intros H. inversion H; subst. auto.
  - rewrite bind_gets, bind_modify. unfold bind.
    destruct (router_changed _ _ _) as [d [x|[]]] eqn:E; [|discriminate].
    intros H. inversion H; subst. apply router_changed_inv in E.
    destruct E as (_ & _ & Hr & Hl & _). simpl in *. split; [exact Hl|].
    right. exact Hr.
Qed.

Lemma Router_by_id_in i db r :
  Router_by_id i db = Some r -> In r (Router_objects db).
Proof.
  unfold Router_by_id, lookup_router. destruct i as [i|]; [|discriminate].
  intros H. apply find_some in H. tauto.
Qed.

(** A turn ends without an exception, whatever the entry. *)
Lemma import_one_step today user item db :
  exists db1 b,
    attempt (import_one today user item) db = (db1, inr b)
    /\ import_logs b db db1 /\ import_rows item db db1.
Proof.
  unfold attempt, import_one. rewrite bind_gets.
  destruct (Category_by_name (item_category item) db) as [c|].
  2:{ exists db, false. split; [reflexivity|]. split; [reflexivity|now left]. }
  rewrite bind_gets.
  destruct (Router_by_id (item_id item) db) as [old|] eqn:O.
  - destruct (Router.deleted old) eqn:D.
    2:{ exists db, false. split; [reflexivity|].
        split; [reflexivity|now left]. }
    destruct (item_serial_number item) as [sn|].
    2:{ exists db, false. split; [reflexivity|].
        split; [reflexivity|now left]. }
    cbn [not_null]. rewrite bind_ret, bind_gets.
    destruct (serial_clash (Router.id old) sn db).
    { exists db, false. split; [reflexivity|].
      split; [reflexivity|now left]. }
    match goal with
    | |- context [bind (Router_save today ?x) ?k db] => set (r' := x)
    end.
    pose proof (Router_save_rows today r' db) as Hr.
    pose proof (Router_save_keeps_logs today r' db) as Hl.
    assert (R : forall d, Router_objects d = saved_rows r' (Router_objects db)
                          -> import_rows item db d).
    { intros d E. right. right. exists old, r'.
      split; [now apply Router_by_id_in with (i := item_id item)|].
      split; [exact D|]. split; [reflexivity|exact E]. }
    unfold bind at 1. destruct (Router_save today r' db) as [d [e|[]]];
      simpl in Hr, Hl.
    + exists d, false. split; [reflexivity|]. split; [exact Hl|now apply R].
    + eexists. exists true. split; [reflexivity|]. split.
      * eexists. simpl. rewrite Hl. repeat split.
      * apply R. exact Hr.
  - destruct (item_serial_number item) as [sn|].
    2:{ exists db, false. split; [reflexivity|].
        split; [reflexivity|now left]. }
    cbn [not_null]. rewrite bind_ret.
    destruct (Router_create today (User.store user) (Some (Category.id c)) sn
                (item_emei item) db) as [d1 [e|r]] eqn:RC.
    + rewrite (bind_inl _ _ _ _ _ RC). exists d1, false.
      split; [reflexivity|].
      apply Router_create_raised in RC. destruct RC as [Hl Hr].
      split; [exact Hl|]. destruct Hr as [Hr|Hr]; [now left|].
      right. left. eexists. split; [|exact Hr]. simpl. apply new_id_absent.
    + rewrite (bind_inr _ _ _ _ _ RC).
      apply Router_create_inv in RC. destruct RC as (Er & Hr1 & Hl1).
      pose proof (Router_save_rows today r d1) as Hr.
      pose proof (Router_save_keeps_logs today r d1) as Hl.
      assert (Hnew : ~ In (Router.id r) (map Router.id (Router_objects db)))
        by (rewrite Er; simpl; apply new_id_absent).
      rewrite Hr1, (saved_rows_new r _ Hnew) in Hr.
      assert (R : forall d, Router_objects d = Router_objects db ++ [r] ->
                            import_rows item db d).
      { intros d E. right. left. now exists r. }
      unfold bind at 1. destruct (Router_save today r d1) as [d [e|[]]];
        simpl in Hr, Hl.
      * exists d, false. split; [reflexivity|].
        split; [simpl; congruence|now apply R].
      * eexists. exists true. split; [reflexivity|]. split.
        -- eexists. simpl. rewrite Hl, Hl1. repeat split.
        -- apply R. exact Hr.
Qed.

Lemma in_saved_rows_other r r' rows :
  In r rows -> Router.id r <> Router.id r' -> In r (saved_rows r' rows).
Proof.
  intros Hin Hne. unfold saved_rows. destruct (existsb _ rows).
  - apply in_map_iff. exists r. split; [|exact Hin].
    apply Nat.eqb_neq in Hne. now rewrite Hne.
  - apply in_or_app. now left.
Qed.

Lemma saved_rows_ids old r' rows :
  In old rows -> Router.id r' = Router.id old ->
  map Router.id (saved_rows r' rows) = map Router.id rows.
Proof.
  intros Hin Hid. unfold saved_rows.
  replace (existsb _ rows) with true.
  - rewrite map_map. apply map_ext. intros x.
    destruct (Nat.eqb (Router.id x) (Router.id r')) eqn:E; [|reflexivity].
    apply Nat.eqb_eq in E. now rewrite E.
  - symmetry. apply existsb_exists. exists old. split; [exact Hin|].
    rewrite Hid. apply Nat.eqb_refl.
Qed.

(** A turn of the import keeps the keys distinct and every router that is
    not soft-deleted. *)
Lemma import_rows_keep item db db1 :
  import_rows item db db1 ->
  NoDup (map Router.id (Router_objects db)) ->
  NoDup (map Router.id (Router_objects db1))
  /\ forall r, In r (Router_objects db) -> Router.deleted r = false ->
               In r (Router_objects db1).
Proof.
  intros [E | [(new & Hnew & E) | (old & r' & Hin & Hd & Hid & E)]] N;
    rewrite E.
  - auto.
  - split.
    + rewrite map_app. simpl. apply NoDup_app; [exact N| |].
      * repeat constructor. simpl. tauto.
      * intros i Hi [<-|[]]. contradiction.
    + intros r Hr _. apply in_or_app. now left.
  - split.
    + now rewrite (saved_rows_ids old r' _ Hin Hid).
    + intros r Hr Hrd. apply in_saved_rows_other; [exact Hr|].
      rewrite Hid. intros Eid.
      apply (NoDup_map_inj Router.id _ r old N Hr Hin) in Eid. subst old.
      congruence.
Qed.

Lemma import_each_run today user items :
  forall db,
  exists db' logs,
    import_each today user items db = (db', inr (List.length logs))
    /\ Log_objects db' = Log_objects db ++ logs
    /\ Forall (fun l => Log.action l = "add" /\ Log.instance l = "router") logs
    /\ (NoDup (map Router.id (Router_objects db)) ->
        NoDup (map Router.id (Router_objects db'))
        /\ forall r, In r (Router_objects db) -> Router.deleted r = false ->
                     In r (Router_objects db')).
Proof.
  induction items as [|item rest IH]; intros db.
  - exists db, []. simpl. rewrite app_nil_r. repeat split; auto.
  - destruct (import_one_step today user item db) as (d1 & b & E & Hl & Hr).
    destruct (IH d1) as (d2 & logs & E2 & Hl2 & Fa & K).
    simpl import_each. rewrite (bind_inr _ _ _ _ _ E), (bind_inr _ _ _ _ _ E2).
    unfold ret. unfold import_logs in Hl. destruct b.
    + destruct Hl as (l & Hl & Ha & Hi). exists d2, (l :: logs).
      split; [reflexivity|]. split.
      * rewrite Hl2, Hl, <- app_assoc. reflexivity.
      * split; [constructor; [now split|exact Fa]|].
        intros N. destruct (import_rows_keep item db d1 Hr N) as [N1 I1].
        destruct (K N1) as [N2 I2]. split; [exact N2|].
        intros r Hin Hd. apply I2; [now apply I1|exact Hd].
    + exists d2, logs. split; [reflexivity|]. split; [congruence|].
      split; [exact Fa|].
      intros N. destruct (import_rows_keep item db d1 Hr N) as [N1 I1].
      destruct (K N1) as [N2 I2]. split; [exact N2|].
      intros r Hin Hd. apply I2; [now apply I1|exact Hd].
Qed.

(** X17. [RouterView.post] asks for no role and answers 200 whatever the
    list: the number it announces is the number of log rows it added, each
    an add of a router, and it leaves every router that is not soft-deleted
    as it is. *)
Theorem import_counts_what_it_logs today user items db :
  let db' := fst (RouterView_post today user items db) in
  let res := snd (RouterView_post today user items db) in
  exists logs,
    res = mkResponse 200 (Some (imported_message (List.length logs)))
    /\ Log_objects db' = Log_objects db ++ logs
    /\ Forall (fun l => Log.action l = "add" /\ Log.instance l = "router") logs
    /\ (NoDup (map Router.id (Router_objects db)) ->
        forall r, In r (Router_objects db) -> Router.deleted r = false ->
                  lookup_router db' (Router.id r) = Some r).
Proof.
  intros db' res. subst db' res. unfold RouterView_post, try_except.
  destruct (import_each_run today user items db) as (d & logs & E & Hl & Fa & K).
  rewrite (bind_inr _ _ _ _ _ E). simpl. exists logs.
  split; [reflexivity|]. split; [exact Hl|]. split; [exact Fa|].
  intros N r Hin Hd. destruct (K N) as [N' I'].
  apply lookup_router_in; [exact N'|now apply I'].
Qed.

(** X18. The import revives a soft-deleted router by its key alone: whatever
    store holds the router and whatever store the user belongs to, the row
    gets the category, serial number and device identifier of the entry and
    is no longer deleted, its store and status stay, and the log row written
    for it carries the store of the user. *)
Theorem import_revives_by_key today user item db old c sn :
  Category_by_name (item_category item) db = Some c ->
  Router_by_id (item_id item) db = Some old ->
  Router.deleted old = true ->
  item_serial_number item = Some sn ->
  serial_clash (Router.id old) sn db = false ->
  fk_store db old = true ->
  let db' := fst (RouterView_post today user [item] db) in
  snd (RouterView_post today user [item] db)
  = mkResponse 200 (Some "1 routers imported")
  /\ lookup_router db' (Router.id old)
     = Some (Router.mk (Router.id old) (Router.store old)
               (Some (Category.id c)) sn (item_emei item) (Router.status old)
               (Router.reason old) false (Router.shipped old))
  /\ exists l, Log_objects db' = Log_objects db ++ [l]
               /\ Log.store l = User.store user
               /\ Log.action l = "add"
               /\ Log.instance_id l = Some (Router.id old).
Proof.
  intros Hc Ho Hd Hs Hcl Hfk db'. subst db'.
  set (r' := Router.mk (Router.id old) (Router.store old)
               (Some (Category.id c)) sn (item_emei item) (Router.status old)
               (Router.reason old) false (Router.shipped old)).
  destruct (Router_save_ok today r' db) as [d [E S]]; [exact Hfk|].
  assert (R : attempt (import_one today user item) db
              = (with_logs
                   (Log_objects d ++
                    [Log.mk (new_id (map Log.id (Log_objects d)))
                            (User.store user) (Some (User.id user)) "add"
                            "router" (Some sn) None (Some (Router.id old))]) d,
                 inr true)).
  { unfold attempt, import_one. rewrite bind_gets, Hc, bind_gets, Ho, Hd, Hs.
    cbn [not_null]. rewrite bind_ret, bind_gets, Hcl. fold r'.
    now rewrite (bind_inr _ _ _ _ _ E). }
  unfold RouterView_post, try_except. simpl import_each.
  rewrite (bind_inr _ _ _ _ _ (bind_inr _ _ _ _ _ R)).
  simpl. destruct S as (_ & _ & Sr & Sl & _). simpl in *.
  split; [reflexivity|]. split.
  - unfold lookup_router. simpl. rewrite Sr. apply (find_saved_rows_id r').
  - eexists. split; [rewrite Sl; reflexivity|]. repeat split.
Qed.

(* ================================================================== *)
(** ** Labels and the home page *)

(** X19. The two template tags turn each key of their table into its label
    and hand back every other text as it is; no label is a key, so applying
    a tag to its own result changes nothing. *)
Theorem tags_label_once value :
  get_correct_status (get_correct_status value) = get_correct_status value
  /\ get_correct_role (get_correct_role value) = get_correct_role value
  /\ (~ In value (map fst Router.STATUSES) -> get_correct_status value = value)
  /\ (~ In value (map fst User_Roles) -> get_correct_role value = value)
  /\ map get_correct_status (map fst Router.STATUSES)
     = map snd Router.STATUSES
  /\ map get_correct_role (map fst User_Roles) = map snd User_Roles.
Proof.
  assert (S : forall v, ~ In v (map fst Router.STATUSES) ->
                        get_correct_status v = v).
  { intros v H. simpl in H.
    cbv [get_correct_status label_of Router.STATUSES fst snd].
    repeat match goal with
           | |- context [String.eqb ?k v] =>
               destruct (String.eqb_spec k v); [exfalso; tauto|]
           end. reflexivity. }
  assert (R : forall v, ~ In v (map fst User_Roles) -> get_correct_role v = v).
  { intros v H. simpl in H.
    cbv [get_correct_role label_of User_Roles fst snd].
    repeat match goal with
           | |- context [String.eqb ?k v] =>
               destruct (String.eqb_spec k v); [exfalso; tauto|]
           end. reflexivity. }
  split; [|split; [|split; [exact (S value)|split; [exact (R value)|split; reflexivity]]]].
  - unfold get_correct_status at 2 3.
    cbv [label_of Router.STATUSES fst snd].
    repeat match goal with
           | |- context [String.eqb ?k value] =>
               destruct (String.eqb_spec k value); [reflexivity|]
           end.
    apply S. simpl. tauto.
  - unfold get_correct_role at 2 3.
    cbv [label_of User_Roles fst snd].
    repeat match goal with
           | |- context [String.eqb ?k value] =>
               destruct (String.eqb_spec k value); [reflexivity|]
           end.
    apply R. simpl. tauto.
Qed.

Lemma firstn_more {A} (l : list A) :
  Nat.ltb 5 (List.length (firstn 6 l)) = Nat.ltb 5 (List.length l).
Proof.
  rewrite length_firstn.
  destruct (Nat.ltb_spec 5 (List.length l));
    destruct (Nat.ltb_spec 5 (Nat.min 6 (List.length l))); try reflexivity;
    lia.
Qed.

Lemma firstn_5_6 {A} (l : list A) : firstn 5 (firstn 6 l) = firstn 5 l.
Proof.
  rewrite firstn_firstn. reflexivity.
Qed.

Lemma In_firstn {A} n (l : list A) x : In x (firstn n l) -> In x l.
Proof.
  revert l. induction n as [|n IH]; intros [|a l] H; simpl in *; try tauto.
  destruct H as [H|H]; [now left|right; now apply IH].
Qed.

(** X20. The home page shows the first five categories and the first five
    routers of the user's store that are not soft-deleted, nothing else, and
    raises each of its two flags exactly when the store has more than five
    of them. *)
Theorem home_page_shows_five user db :
  let mine_c := filter (fun c => opt_nat_eqb (Some (Category.store c))
                                             (User.store user)
                                 && negb (Category.deleted c))
                       (Category_objects db) in
  let mine_r := filter (fun r => opt_nat_eqb (Router.store r) (User.store user)
                                 && negb (Router.deleted r))
                       (Router_objects db) in
  let page := HomePage_get user db in
  home_categories page = firstn 5 mine_c
  /\ home_routers page = firstn 5 mine_r
  /\ (more_categories page = true <-> 5 < List.length mine_c)
  /\ (more_routers page = true <-> 5 < List.length mine_r)
  /\ Forall (fun r => Router.deleted r = false
                      /\ opt_nat_eqb (Router.store r) (User.store user) = true)
            (home_routers page)
  /\ Forall (fun c => Category.deleted c = false) (home_categories page).
Proof.
  intros mine_c mine_r page. subst page mine_c mine_r. unfold HomePage_get.
  cbn [home_categories home_routers more_categories more_routers].
  rewrite !firstn_more, !firstn_5_6.
  split; [reflexivity|]. split; [reflexivity|].
  split; [apply Nat.ltb_lt|]. split; [apply Nat.ltb_lt|]. split.
  - apply Forall_forall. intros r Hr. apply In_firstn in Hr.
    apply filter_In in Hr. destruct Hr as [_ Hp].
    apply andb_prop in Hp. destruct Hp as [Hs Hd].
    apply negb_true_iff in Hd. auto.
  - apply Forall_forall. intros c Hc. apply In_firstn in Hc.
    apply filter_In in Hc. destruct Hc as [_ Hp].
    apply andb_prop in Hp. destruct Hp as [_ Hd].
    now apply negb_true_iff in Hd.
Qed.

(* ================================================================== *)
(** ** Accounts *)

Lemma saved_accounts_absent a rows :
  ~ In (Account.id a) (map Account.id rows) ->
  map (fun x => if Nat.eqb (Account.id x) (Account.id a) then a else x) rows
  = rows.
Proof.
  intros H. rewrite <- (map_id rows) at 2. apply map_ext_in. intros x Hx.
  destruct (Nat.eqb (Account.id x) (Account.id a)) eqn:E; [|reflexivity].
  apply Nat.eqb_eq in E. exfalso. apply H. rewrite <- E. now apply in_map.
Qed.

Lemma saved_accounts_new a a' rows :
  Account.id a' = Account.id a ->
  ~ In (Account.id a) (map Account.id rows) ->
  saved_accounts a (rows ++ [a']) = rows ++ [a].
Proof.
  intros E H. unfold saved_accounts. rewrite existsb_app. simpl.
  rewrite E, Nat.eqb_refl, orb_true_r. rewrite map_app. simpl.
  rewrite E, Nat.eqb_refl. f_equal. now apply saved_accounts_absent.
Qed.

Lemma username_free u e users :
  username_or_email_exists u e users = false ->
  ~ In u (map Account.username users) /\ ~ In e (map Account.email users).
Proof.
  unfold username_or_email_exists. intros H.
  split; intros Hin; apply in_map_iff in Hin; destruct Hin as [a [Ha Hin]];
    assert (T : existsb (fun u0 => String.eqb (Account.username u0) u
                                   || String.eqb (Account.email u0) e) users
                = true)
      by (apply existsb_exists; exists a; split; [exact Hin|];
          rewrite Ha, String.eqb_refl; now rewrite ?orb_true_r);
    congruence.
Qed.

Lemma SignupView_post_ok make_password u e p users :
  u <> "" -> e <> "" -> 8 <= len p ->
  username_or_email_exists u e users = false ->
  SignupView_post make_password
    (mkSignupBody (Some u) (Some e) (Some p) (Some p)) users
  = (users ++ [Account.mk (new_id (map Account.id users)) u e
                          (make_password p) None None],
     response_ok).
Proof.
  intros Hu He Hp Hx. unfold SignupView_post.
  cbn [signup_username signup_email password1 password2 forallb truthy].
  assert (P : p <> "") by (intros ->; simpl in Hp; lia).
  apply String.eqb_neq in Hu, He, P. rewrite Hu, He, P.
  cbn [negb andb]. rewrite String.eqb_refl. cbn [negb].
  assert (L : Nat.ltb (len p) 8 = false) by (apply Nat.ltb_ge; lia).
  rewrite L, Hx. unfold User_create.
  destruct (username_free _ _ _ Hx) as [Fu _].
  replace (existsb _ users) with false.
  - cbn [Account.set_password Account.id Account.username Account.email
         Account.role Account.store].
    rewrite saved_accounts_new; [reflexivity|reflexivity|].
    apply new_id_absent.
  - symmetry. apply not_true_is_false. intros T.
    apply existsb_exists in T. destruct T as [a [Hin Ha]].
    apply String.eqb_eq in Ha. apply Fu. rewrite <- Ha. now apply in_map.
Qed.

Lemma SignupView_post_cases make_password body users :
  (exists u e p,
      body = mkSignupBody (Some u) (Some e) (Some p) (Some p)
      /\ u <> "" /\ e <> "" /\ 8 <= len p
      /\ username_or_email_exists u e users = false)
  \/ (fst (SignupView_post make_password body users) = users
      /\ status (snd (SignupView_post make_password body users)) = 500).
Proof.
  destruct body as [[u|] [e|] [p1|] [p2|]];
    try (right; unfold SignupView_post;
         cbn [signup_username signup_email password1 password2 forallb truthy];
         rewrite ?andb_false_r; cbn [negb]; split; reflexivity).
  destruct (String.eqb_spec u "") as [->|Hu];
    [right; split; reflexivity|].
  destruct (String.eqb_spec e "") as [->|He];
    [right; unfold SignupView_post;
     cbn [signup_username signup_email password1 password2 forallb truthy];
     rewrite String.eqb_refl; cbn [negb andb];
     rewrite ?andb_false_r; split; reflexivity|].
  destruct (String.eqb_spec p1 "") as [->|Hp1];
    [right; unfold SignupView_post;
     cbn [signup_username signup_email password1 password2 forallb truthy];
     rewrite String.eqb_refl; cbn [negb andb];
     rewrite ?andb_false_r; split; reflexivity|].
  destruct (String.eqb_spec p2 "") as [->|Hp2];
    [right; unfold SignupView_post;
     cbn [signup_username signup_email password1 password2 forallb truthy];
     rewrite String.eqb_refl; cbn [negb andb];
     rewrite ?andb_false_r; split; reflexivity|].
  unfold SignupView_post.
  cbn [signup_username signup_email password1 password2 forallb truthy].
  apply String.eqb_neq in Hu, He, Hp1, Hp2. rewrite Hu, He, Hp1, Hp2.
  cbn [negb andb].
  destruct (String.eqb_spec p1 p2) as [->|Hne]; cbn [negb];
    [|right; split; reflexivity].
  destruct (Nat.ltb_spec (len p2) 8) as [Hl|Hl];
    [right; split; reflexivity|].
  destruct (username_or_email_exists u e users) eqn:Hx;
    [right; split; reflexivity|].
  left. exists u, e, p2. apply String.eqb_neq in Hu, He.
  repeat split; assumption.
Qed.

(** X21. Signing up never brings a second account with a user name or an
    e-mail address that is already there: both stay free of duplicates. The
    request succeeds exactly when the four fields are present and not empty,
    the two passwords are equal and at least eight characters long
    (characters of the text, not bytes of its encoding), and no
    account has this user name or this e-mail address; the new account then
    has no role and no store, and stores the hash of the password. Every
    refused request answers 500 and leaves the accounts as they were. *)
Theorem signup_keeps_names_unique make_password body users :
  NoDup (map Account.username users) ->
  NoDup (map Account.email users) ->
  let users' := fst (SignupView_post make_password body users) in
  let res := snd (SignupView_post make_password body users) in
  NoDup (map Account.username users')
  /\ NoDup (map Account.email users')
  /\ (status res = 200 <->
      exists u e p,
        body = mkSignupBody (Some u) (Some e) (Some p) (Some p)
        /\ u <> "" /\ e <> "" /\ 8 <= len p
        /\ username_or_email_exists u e users = false)
  /\ (status res = 200 ->
      exists a,
        users' = users ++ [a]
        /\ ~ In (Account.id a) (map Account.id users)
        /\ Some (Account.username a) = signup_username body
        /\ Some (Account.email a) = signup_email body
        /\ Some (Account.password a)
           = option_map make_password (password1 body)
        /\ Account.role a = None /\ Account.store a = None)
  /\ (status res <> 200 -> users' = users /\ status res = 500).
Proof.
  intros Nu Ne users' res. subst users' res.
  destruct (SignupView_post_cases make_password body users)
    as [[u [e [p [-> [Hu [He [Hp Hx]]]]]]]|[E1 E2]].
  - rewrite (SignupView_post_ok make_password u e p users Hu He Hp Hx).
    cbn [fst snd response_ok status].
    destruct (username_free _ _ _ Hx) as [Fu Fe].
    rewrite !map_app. cbn [map Account.username Account.email].
    split; [|split; [|split; [|split]]].
    + apply NoDup_app; [exact Nu|repeat constructor; simpl; tauto|].
      intros x Hx1 [<-|[]]. tauto.
    + apply NoDup_app; [exact Ne|repeat constructor; simpl; tauto|].
      intros x Hx1 [<-|[]]. tauto.
    + split; [intros _|reflexivity]. exists u, e, p. repeat split; assumption.
    + intros _. eexists. split; [reflexivity|].
      cbn [Account.id Account.username Account.email Account.password
           Account.role Account.store signup_username signup_email password1
           option_map].
      repeat split. apply new_id_absent.
    + intros H. congruence.
  - rewrite E1, E2. split; [exact Nu|]. split; [exact Ne|].
    split; [|split].
    + split; [discriminate|].
      intros [u [e [p [-> [Hu [He [Hp Hx]]]]]]].
      rewrite (SignupView_post_ok make_password u e p users Hu He Hp Hx) in E2.
      discriminate.
    + discriminate.
    + intros _. split; reflexivity.
Qed.

Lemma find_saved_accounts_id a rows :
  find (fun x => Nat.eqb (Account.id x) (Account.id a)) (saved_accounts a rows)
  = Some a.
Proof.
  unfold saved_accounts.
  destruct (existsb _ rows) eqn:E.
  - induction rows as [|x rows IH]; [discriminate|].
    simpl in *. destruct (Nat.eqb (Account.id x) (Account.id a)) eqn:Ex.
    + now rewrite Nat.eqb_refl.
    + rewrite Ex. apply IH. exact E.
  - induction rows as [|x rows IH]; simpl in *.
    + now rewrite Nat.eqb_refl.
    + apply orb_false_elim in E. destruct E as [Ex E].
      rewrite Ex. now apply IH.
Qed.

Lemma find_saved_accounts_at a rows i :
  i = Account.id a ->
  find (fun x => Nat.eqb (Account.id x) i) (saved_accounts a rows) = Some a.
Proof.
  intros ->. apply find_saved_accounts_id.
Qed.

Lemma find_saved_accounts_other a rows i :
  i <> Account.id a ->
  find (fun x => Nat.eqb (Account.id x) i) (saved_accounts a rows)
  = find (fun x => Nat.eqb (Account.id x) i) rows.
Proof.
  intros Hi. unfold saved_accounts.
  assert (Hr : Nat.eqb (Account.id a) i = false)
    by (apply Nat.eqb_neq; congruence).
  destruct (existsb _ rows).
  - induction rows as [|x rows IH]; [reflexivity|]. simpl.
    destruct (Nat.eqb (Account.id x) (Account.id a)) eqn:Ex.
    + apply Nat.eqb_eq in Ex. rewrite Hr.
      replace (Nat.eqb (Account.id x) i) with false; [exact IH|].
      symmetry. apply Nat.eqb_neq. congruence.
    + now rewrite IH.
  - induction rows as [|x rows IH]; simpl.
    + now rewrite Hr.
    + now rewrite IH.
Qed.

Lemma opt_nat_eqb_eq a b : opt_nat_eqb a b = true -> a = b.
Proof.
  destruct a, b; simpl; try discriminate; try reflexivity.
  intros H. apply Nat.eqb_eq in H. now subst.
Qed.

(** X22. [ProfileView.delete] looks the account up by its key alone: a store
    manager takes any account out of its store and role, whatever store the
    account was in (another store's, none, the manager's own account), and no
    other account changes. Who is not a store manager is answered 403 and
    changes nothing. *)
Theorem remove_user_is_not_scoped user i a users :
  User_by_id (Some i) users = Some a ->
  let users' := fst (ProfileView_delete user (Some i) users) in
  let res := snd (ProfileView_delete user (Some i) users) in
  (is_store_manager user = false ->
   users' = users
   /\ res = mkResponse 403 (Some "You don't have enough permissions"))
  /\ (is_store_manager user = true ->
      res = mkResponse 200 (Some "User deleted successfully")
      /\ User_by_id (Some i) users'
         = Some (Account.mk i (Account.username a) (Account.email a)
                            (Account.password a) None None)
      /\ forall j, j <> i ->
                   User_by_id (Some j) users' = User_by_id (Some j) users).
Proof.
  intros H users' res. subst users' res. unfold ProfileView_delete.
  assert (Hi : Account.id a = i).
  { simpl in H. apply find_some in H. destruct H as [_ H].
    now apply Nat.eqb_eq in H. }
  split; intros Hm; rewrite Hm; cbn [negb fst snd]; [split; reflexivity|].
  rewrite H. cbn [fst snd]. split; [reflexivity|].
  pose (a' := Account.set_store None (Account.set_role None a)).
  assert (Hi' : i = Account.id a') by (symmetry; exact Hi).
  fold a'. unfold User_by_id. split.
  - rewrite (find_saved_accounts_at a' users i Hi').
    subst a'. now rewrite <- Hi.
  - intros j Hj. apply find_saved_accounts_other. congruence.
Qed.

(** X23. [ProfileView.post] looks the account up by user name or e-mail
    address among all accounts: a store manager moves whatever account is
    found into the manager's own store with the role of the request (any
    text, or none), answering 'added' when the account was in another store
    or in none and 'edited' when it was in the manager's; no other account
    changes. Who is not a store manager is answered 403 and changes
    nothing. *)
Theorem add_user_takes_over user name role a users :
  User_by_name (Some name) users = Some a ->
  let users' := fst (ProfileView_post user (Some name) role users) in
  let res := snd (ProfileView_post user (Some name) role users) in
  (is_store_manager user = false ->
   users' = users
   /\ res = mkResponse 403 (Some "You don't have enough permissions"))
  /\ (is_store_manager user = true ->
      res = mkResponse 200
              (Some (if opt_nat_eqb (Account.store a) (User.store user)
                     then "User edited successfully"
                     else "User added successfully"))
      /\ User_by_id (Some (Account.id a)) users'
         = Some (Account.mk (Account.id a) (Account.username a)
                            (Account.email a) (Account.password a)
                            role (User.store user))
      /\ forall j, j <> Account.id a ->
                   User_by_id (Some j) users' = User_by_id (Some j) users).
Proof.
  intros H users' res. subst users' res. unfold ProfileView_post.
  split; intros Hm; rewrite Hm; cbn [negb fst snd]; [split; reflexivity|].
  rewrite H.
  destruct (opt_nat_eqb (Account.store a) (User.store user)) eqn:Es;
    cbn [fst snd]; (split; [reflexivity|]).
  - apply opt_nat_eqb_eq in Es.
    unfold User_by_id. split.
    + rewrite find_saved_accounts_at by reflexivity.
      unfold Account.set_role. now rewrite Es.
    + intros j Hj. apply find_saved_accounts_other. simpl. congruence.
  - unfold User_by_id. split.
    + rewrite find_saved_accounts_at by reflexivity. reflexivity.
    + intros j Hj. apply find_saved_accounts_other. simpl. congruence.
Qed.

Lemma find_saved_stores_at s rows i :
  i = Store.id s ->
  find (fun x => Nat.eqb (Store.id x) i) (saved_stores s rows) = Some s.
Proof.
  intros ->. unfold saved_stores.
  destruct (existsb _ rows) eqn:E.
  - induction rows as [|x rows IH]; [discriminate|].
    simpl in *. destruct (Nat.eqb (Store.id x) (Store.id s)) eqn:Ex.
    + now rewrite Nat.eqb_refl.
    + rewrite Ex. apply IH. exact E.
  - induction rows as [|x rows IH]; simpl in *.
    + now rewrite Nat.eqb_refl.
    + apply orb_false_elim in E. destruct E as [Ex E].
      rewrite Ex. now apply IH.
Qed.

Lemma find_saved_stores_other s rows i :
  i <> Store.id s ->
  find (fun x => Nat.eqb (Store.id x) i) (saved_stores s rows)
  = find (fun x => Nat.eqb (Store.id x) i) rows.
Proof.
  intros Hi. unfold saved_stores.
  assert (Hr : Nat.eqb (Store.id s) i = false)
    by (apply Nat.eqb_neq; congruence).
  destruct (existsb _ rows).
  - induction rows as [|x rows IH]; [reflexivity|]. simpl.
    destruct (Nat.eqb (Store.id x) (Store.id s)) eqn:Ex.
    + apply Nat.eqb_eq in Ex. rewrite Hr.
      replace (Nat.eqb (Store.id x) i) with false; [exact IH|].
      symmetry. apply Nat.eqb_neq. congruence.
    + now rewrite IH.
  - induction rows as [|x rows IH]; simpl.
    + now rewrite Hr.
    + now rewrite IH.
Qed.

(** X24. [ProfileView.put] asks for no role: any user of a store sets its
    alert threshold to any integer but 0 that the database can hold (64
    bits, signed), a negative one included. The new value is written to
    that store's row alone, every other store and every other table stay as
    they were. A request without a value, with the value 0, or with an
    integer beyond that range is answered 500 and writes nothing. *)
Theorem threshold_any_role_never_zero user value db sid s :
  User.store user = Some sid ->
  Store_by_id (Some sid) db = Some s ->
  let db' := fst (ProfileView_put user value db) in
  let res := snd (ProfileView_put user value db) in
  let refused :=
    mkResponse 500 (Some "An error occured while processing the request") in
  (value = None \/ value = Some 0%Z -> db' = db /\ res = refused)
  /\ (forall v, value = Some v ->
                (v < - 2 ^ 63 \/ 2 ^ 63 <= v)%Z -> db' = db /\ res = refused)
  /\ (forall v, value = Some v -> v <> 0%Z ->
                (- 2 ^ 63 <= v < 2 ^ 63)%Z ->
      res = mkResponse 200 (Some "Alert threshold edited successfully")
      /\ Store_by_id (Some sid) db' = Some (Store.mk sid (Store.name s) v)
      /\ (forall j, j <> sid ->
                    Store_by_id (Some j) db' = Store_by_id (Some j) db)
      /\ db' = with_stores (Store_objects db') db).
Proof.
  intros Hs Hf db' res refused. subst db' res refused.
  assert (Hid : Store.id s = sid).
  { simpl in Hf. apply find_some in Hf. destruct Hf as [_ Hf].
    now apply Nat.eqb_eq in Hf. }
  assert (A : acting_store user db = (db, inr s)).
  { unfold acting_store, get_store. rewrite Hs. simpl in Hf. now rewrite Hf. }
  unfold ProfileView_put. split; [|split].
  - intros [->| ->]; split; reflexivity.
  - intros v -> Hv. destruct (truthy_value (Some v)); [|split; reflexivity].
    rewrite A. unfold Store_save. cbn [Store.alert_on].
    replace (fits_integer v) with false; [split; reflexivity|].
    symmetry. unfold fits_integer. apply andb_false_iff.
    destruct Hv as [Hv|Hv]; [left; apply Z.leb_gt|right; apply Z.ltb_ge];
      exact Hv.
  - intros v -> Hv Hr. cbn [truthy_value].
    apply Z.eqb_neq in Hv. rewrite Hv. cbn [negb]. rewrite A.
    unfold Store_save. cbn [Store.alert_on Store.id Store.name].
    replace (fits_integer v) with true.
    2:{ symmetry. unfold fits_integer. apply andb_true_iff.
        split; [apply Z.leb_le|apply Z.ltb_lt]; lia. }
    cbn [fst snd]. rewrite Hid.
    split; [reflexivity|]. split; [|split].
    + simpl. now rewrite find_saved_stores_at.
    + intros j Hj. simpl. apply find_saved_stores_other. simpl. congruence.
    + reflexivity.
Qed.

Lemma store_exists_fresh db sid :
  store_exists db sid = true ->
  Nat.eqb sid (new_id (map Store.id (Store_objects db))) = false.
Proof.
  unfold store_exists. intros H. apply existsb_exists in H.
  destruct H as [s [Hin Hs]]. apply Nat.eqb_eq in Hs. subst sid.
  apply Nat.eqb_neq.
  pose proof (new_id_fresh (map Store.id (Store_objects db)) (Store.id s)
                           (in_map _ _ _ Hin)). lia.
Qed.

Lemma filter_nil {A} (p : A -> bool) l :
  (forall x, In x l -> p x = false) -> filter p l = [].
Proof.
  induction l as [|a l IH]; intros H; [reflexivity|]. simpl.
  rewrite (H a (or_introl eq_refl)). apply IH. intros x Hx. apply H. now right.
Qed.

(** X25. [CreateStoreView.post] checks neither the role nor the store of the
    acting user: whoever posts a name gets a new store with the threshold 50
    and becomes its store manager, leaving any store they were in; no other
    account and no other store changes. As long as every router and category
    refers to a store that exists, the new store starts empty: its in-stock
    count is 0 and its home page lists nothing. A request without a name is
    answered 500 and changes nothing. *)
Theorem create_store_makes_manager user name db users :
  forallb (fk_store db) (Router_objects db) = true ->
  forallb (fun c => store_exists db (Category.store c)) (Category_objects db)
  = true ->
  let out := CreateStoreView_post user name db users in
  let db' := fst (fst out) in
  let users' := snd (fst out) in
  let sid := new_id (map Store.id (Store_objects db)) in
  (name = None ->
   out = (db, users,
          mkResponse 500 (Some "An error occured while processing the request")))
  /\ (forall n, name = Some n ->
      snd out = mkResponse 200 None
      /\ db' = with_stores (Store_objects db ++ [Store.mk sid n 50]) db
      /\ store_exists db sid = false
      /\ User_by_id (Some (Account.id user)) users'
         = Some (Account.mk (Account.id user) (Account.username user)
                            (Account.email user) (Account.password user)
                            (Some "store_manager") (Some sid))
      /\ (forall j, j <> Account.id user ->
                    User_by_id (Some j) users' = User_by_id (Some j) users)
      /\ Store_count_routers db' sid = 0%Z
      /\ forall me, User.store me = Some sid ->
                    HomePage_get me db' = mkHomeContext false false [] []).
Proof.
  intros Fr Fc out db' users' sid. subst out db' users'.
  split; [intros ->; reflexivity|]. intros n ->.
  unfold CreateStoreView_post. cbn [fst snd]. fold sid.
  assert (R : forall r, In r (Router_objects db) ->
                        opt_nat_eqb (Router.store r) (Some sid) = false).
  { intros r Hr. rewrite forallb_forall in Fr. specialize (Fr r Hr).
    unfold fk_store in Fr. destruct (Router.store r) as [i|]; [|reflexivity].
    simpl. now apply store_exists_fresh. }
  assert (C : forall c, In c (Category_objects db) ->
                        Nat.eqb (Category.store c) sid = false).
  { intros c Hc. rewrite forallb_forall in Fc. specialize (Fc c Hc).
    now apply store_exists_fresh. }
  split; [reflexivity|]. split; [reflexivity|]. split.
  { apply not_true_is_false. intros T. apply store_exists_fresh in T.
    fold sid in T. now rewrite Nat.eqb_refl in T. }
  split.
  { unfold User_by_id. now rewrite find_saved_accounts_at. }
  split.
  { intros j Hj. unfold User_by_id. apply find_saved_accounts_other.
    simpl. congruence. }
  split.
  - unfold Store_count_routers. cbn [with_stores Router_objects].
    rewrite filter_nil; [reflexivity|]. intros r Hr. now rewrite (R r Hr).
  - intros me Hme. unfold HomePage_get.
    cbn [with_stores Router_objects Category_objects]. rewrite Hme.
    rewrite (filter_nil _ (Category_objects db)).
    + rewrite (filter_nil _ (Router_objects db)); [reflexivity|].
      intros r Hr. now rewrite (R r Hr).
    + intros c Hc. simpl. now rewrite (C c Hc).
Qed.

(* ================================================================== *)
(** ** Soft-deleted routers in the lists *)

Lemma filter_map_commute_in {A} (p : A -> bool) (f : A -> A) l :
  (forall x, In x l -> p (f x) = p x) ->
  filter p (map f l) = map f (filter p l).
Proof.
  induction l as [|x l IH]; intros H; [reflexivity|]. simpl.
  rewrite (H x (or_introl eq_refl)).
  destruct (p x); simpl; rewrite IH; auto; intros y Hy; apply H; now right.
Qed.

Lemma RouterView_get_ids user db :
  map row_id (RouterView_get user db)
  = rev (map Router.id
           (filter (fun r => opt_nat_eqb (Router.store r) (User.store user))
                   (Router_objects db))).
Proof.
  unfold RouterView_get. rewrite map_map. cbn [row_id]. now rewrite map_rev.
Qed.

(** X26. [RouterView.get] does not filter on the deleted flag: after a
    successful [RouterView.delete] the router list of the store has the same
    keys as before, the deleted router among them, while the home page of
    the same user no longer shows it. *)
Theorem deleted_router_still_listed today user body db :
  NoDup (map Router.id (Router_objects db)) ->
  let db' := fst (RouterView_delete today user body db) in
  succeeds (snd (RouterView_delete today user body db)) ->
  exists r,
    own_router user (rbody_id body) db = Some r
    /\ lookup_router db' (Router.id r) = Some (Router.set_deleted true r)
    /\ map row_id (RouterView_get user db')
       = map row_id (RouterView_get user db)
    /\ In (Router.id r) (map row_id (RouterView_get user db'))
    /\ ~ In (Router.id r)
            (map Router.id (home_routers (HomePage_get user db'))).
Proof.
  intros N db' Hok.
  destruct (RouterView_delete_rows today user body db Hok) as (r & Ho & Hr).
  fold db' in Hr. exists r. split; [exact Ho|].
  destruct (own_router_in _ _ _ _ Ho) as (Hin & _ & Hs).
  assert (Hmap : Router_objects db'
                 = map (fun x => if Nat.eqb (Router.id x) (Router.id r)
                                 then Router.set_deleted true r else x)
                       (Router_objects db)).
  { rewrite Hr. unfold saved_rows.
    replace (existsb _ (Router_objects db)) with true; [reflexivity|].
    symmetry. apply existsb_exists. exists r. split; [exact Hin|].
    apply Nat.eqb_refl. }
  assert (Hids : map row_id (RouterView_get user db')
                 = map row_id (RouterView_get user db)).
  { rewrite !RouterView_get_ids. f_equal. rewrite Hmap.
    rewrite filter_map_commute_in.
    - rewrite map_map. apply map_ext. intros x.
      destruct (Nat.eqb (Router.id x) (Router.id r)) eqn:E; [|reflexivity].
      apply Nat.eqb_eq in E. now rewrite E.
    - intros x Hx.
      destruct (Nat.eqb (Router.id x) (Router.id r)) eqn:E; [|reflexivity].
      apply Nat.eqb_eq in E.
      assert (x = r) by (apply (NoDup_map_inj Router.id _ x r N Hx Hin E)).
      now subst x. }
  split.
  { unfold lookup_router. rewrite Hr.
    change (Router.id r) with (Router.id (Router.set_deleted true r)) at 1.
    apply find_saved_rows_id. }
  split; [exact Hids|]. split.
  - rewrite Hids, RouterView_get_ids. apply in_rev with (l := map Router.id _).
    apply in_map. apply filter_In. split; [exact Hin|exact Hs].
  - intros H. apply in_map_iff in H. destruct H as (x & Hx & Hhome).
    unfold HomePage_get in Hhome. cbn [home_routers] in Hhome.
    apply In_firstn in Hhome. apply In_firstn in Hhome.
    apply filter_In in Hhome. destruct Hhome as [Hin' Hp].
    apply andb_prop in Hp. destruct Hp as [_ Hd].
    rewrite Hmap in Hin'. apply in_map_iff in Hin'.
    destruct Hin' as (y & Hy & _).
    destruct (Nat.eqb (Router.id y) (Router.id r)) eqn:E.
    + subst x. discriminate Hd.
    + subst y. apply Nat.eqb_neq in E. contradiction.
Qed.

(* ================================================================== *)
(** ** The primary router, in terms of the rows *)

Lemma opt_nat_eqb_refl a : opt_nat_eqb a a = true.
Proof. destruct a; simpl; [apply Nat.eqb_refl|reflexivity]. Qed.

(** What the lookup in the acting store finds, said of the rows: serial
    numbers are unique, so everything depends on the one row with the serial
    number, if there is one, and on its store. *)
Lemma scoped_lookup store sn rows :
  NoDup (map Router.serial_number rows) ->
  (forall r, In r rows -> Router.serial_number r = sn ->
             Router.store r = store ->
             find (in_store store sn) rows = Some r)
  /\ (find (in_store store sn) rows = None
      <-> forall r, In r rows -> Router.serial_number r = sn ->
                    Router.store r <> store).
Proof.
  intros N. split.
  - intros r Hin Hsn Hst.
    destruct (find (in_store store sn) rows) as [x|] eqn:E.
    + apply find_some in E. destruct E as [Hx Hp].
      apply in_store_serial in Hp. f_equal.
      apply (NoDup_map_inj Router.serial_number rows x r N Hx Hin).
      congruence.
    + apply (find_none _ _ E) in Hin. unfold in_store in Hin.
      rewrite Hst, opt_nat_eqb_refl in Hin. simpl in Hin.
      apply String.eqb_neq in Hin. contradiction.
  - split.
    + intros E r Hin Hsn Hst. apply (find_none _ _ E) in Hin.
      unfold in_store in Hin. rewrite Hst, opt_nat_eqb_refl in Hin.
      simpl in Hin. apply String.eqb_neq in Hin. contradiction.
    + intros H. destruct (find (in_store store sn) rows) as [x|] eqn:E;
        [|reflexivity].
      apply find_some in E. destruct E as [Hx Hp]. pose proof Hp as Hq.
      apply in_store_serial in Hp. unfold in_store in Hq.
      apply andb_prop in Hq. destruct Hq as [Hq _].
      apply opt_nat_eqb_eq in Hq. now elim (H x Hx Hp).
Qed.

Lemma post_not_found today user body db :
  resolve_router1 today (User.store user) body db = (db, inr None) ->
  ActionsView_post today user body db
  = (db, mkResponse 500
           (Some "We can't find the router with the provided details")).
Proof.
  intros R. unfold ActionsView_post, try_except.
  now rewrite (bind_inr _ _ _ _ _ R).
Qed.

(** C7. The primary router is the row with the serial number when the
    acting store holds it, whatever the action; when another store (or none)
    holds it, a return or a swap takes that row and any other action finds
    nothing; when no row has the serial number, a return or a swap inserts a
    row with every column at its default, which takes the acting store, and
    any other action finds nothing. The view answers that it cannot find the
    router exactly when the acting store holds no row with the serial number
    and the action is neither a return nor a swap. *)
Theorem primary_router_resolution today user body db :
  NoDup (map Router.serial_number (Router_objects db)) ->
  let store := User.store user in
  let sn1 := body_sn1 body in
  let fallback := body_action body = "return" \/ body_action body = "swap" in
  let not_found :=
    mkResponse 500 (Some "We can't find the router with the provided details")
  in
  let created :=
    Router.mk (new_id (map Router.id (Router_objects db))) None None sn1 None
              "in_stock" None false false in
  (forall r, In r (Router_objects db) ->
     Router.serial_number r = sn1 -> Router.store r = store ->
     resolve_router1 today store body db = (db, inr (Some r))
     /\ snd (ActionsView_post today user body db) <> not_found)
  /\ (forall r, In r (Router_objects db) ->
        Router.serial_number r = sn1 -> Router.store r <> store ->
        (fallback ->
         resolve_router1 today store body db = (db, inr (Some r))
         /\ snd (ActionsView_post today user body db) <> not_found)
        /\ (~ fallback ->
            resolve_router1 today store body db = (db, inr None)
            /\ ActionsView_post today user body db = (db, not_found)))
  /\ ((forall r, In r (Router_objects db) -> Router.serial_number r <> sn1) ->
        (fallback ->
         resolve_router1 today store body db
         = (with_routers (Router_objects db ++ [created]) db,
            inr (Some (Router.set_store store created)))
         /\ snd (ActionsView_post today user body db) <> not_found)
        /\ (~ fallback ->
            resolve_router1 today store body db = (db, inr None)
            /\ ActionsView_post today user body db = (db, not_found)))
  /\ (snd (ActionsView_post today user body db) = not_found
      <-> (forall r, In r (Router_objects db) ->
                     Router.serial_number r = sn1 -> Router.store r <> store)
          /\ ~ fallback).
Proof.
  intros N store sn1 fallback not_found created.
  destruct (resolve_router1_cases today user body db N)
    as (C1 & C2 & C3 & C4).
  destruct (scoped_lookup store sn1 (Router_objects db) N) as [S1 S2].
  fold store sn1 in C1, C2, C3, C4. fold fallback in C2, C3, C4.
  assert (NF : forall d r, resolve_router1 today store body db
                           = (d, inr (Some r)) ->
                           snd (ActionsView_post today user body db)
                           <> not_found).
  { intros d r R. exact (post_not_RouterNotFound today user body db d r R). }
  assert (Skip : find (in_store store sn1) (Router_objects db) = None ->
                 ~ fallback ->
                 resolve_router1 today store body db = (db, inr None)
                 /\ ActionsView_post today user body db = (db, not_found)).
  { intros E F.
    assert (R : resolve_router1 today store body db = (db, inr None)).
    { apply resolve_router1_skipped; [exact E| |];
        intros A; apply F; [now left|now right]. }
    split; [exact R|]. now apply post_not_found. }
  split; [|split; [|split]].
  - intros r Hin Hsn Hst. pose proof (C1 r (S1 r Hin Hsn Hst)) as R.
    split; [exact R|exact (NF _ _ R)].
  - intros r Hin Hsn Hst.
    assert (E : find (in_store store sn1) (Router_objects db) = None).
    { apply (proj2 S2). intros x Hx Hxs.
      assert (x = r)
        by (apply (NoDup_map_inj Router.serial_number _ x r N Hx Hin);
            congruence).
      now subst x. }
    split.
    + intros F. pose proof (C2 r E F Hin Hsn) as R.
      split; [exact R|exact (NF _ _ R)].
    + now apply Skip.
  - intros Hno.
    assert (E : find (in_store store sn1) (Router_objects db) = None)
      by now apply find_in_store_absent.
    split.
    + intros F. pose proof (C3 E F Hno) as R.
      split; [exact R|exact (NF _ _ R)].
    + now apply Skip.
  - split.
    + intros H. apply C4 in H. destruct H as [E F].
      split; [exact (proj1 S2 E)|exact F].
    + intros [E F]. apply C4. split; [exact (proj2 S2 E)|exact F].
Qed.

(* ================================================================== *)
(** ** The second serial number, when it is the first *)

(** The action row and the two saves, when the second router is the row the
    first was read from: the second save writes the row back as it was. *)
Lemma stale_commit today user body db r r1' reason a2 ord :
  NoDup (map Router.id (Router_objects db)) ->
  In r (Router_objects db) ->
  fk_store db r = true -> fk_store db r1' = true ->
  Router.id r1' = Router.id r ->
  exists db',
    ActionsView_commit today user body
      (mkLocals r1' (Some r) reason a2 ord) db = (db', inr response_ok)
    /\ Router_objects db' = Router_objects db
    /\ Store_objects db' = Store_objects db
    /\ List.length (Action_objects db') = S (List.length (Action_objects db)).
Proof.
  intros N Hin F F' Hid.
  destruct (ActionsView_commit_ok today user body
              (mkLocals r1' (Some r) reason a2 ord) db F' F)
    as (db' & E & C).
  exists db'. split; [exact E|].
  destruct C as (Cr & Ca & Cs & _). cbn [l_router1 l_router2] in Cr.
  split; [rewrite Cr; now apply saved_rows_twice|].
  split; [exact Cs|]. rewrite Ca, length_app. simpl. lia.
Qed.

Lemma resolve_router2_same today store body db r :
  NoDup (map Router.serial_number (Router_objects db)) ->
  In r (Router_objects db) -> Router.serial_number r = body_sn1 body ->
  body_sn2 body = Some (body_sn1 body) -> body_sn1 body <> "" ->
  resolve_router2 today store body db = (db, inr (Some r)).
Proof.
  intros N Hin Hsn H2 Hne.
  rewrite (resolve_router2_given today store body db _ H2 Hne).
  erewrite bind_inr;
    [reflexivity|apply get_or_create_for_present; now apply serial_filter_unique].
Qed.

Lemma sale_same_run today user sid body db r :
  User.store user = Some sid ->
  store_exists db sid = true ->
  NoDup (map Router.id (Router_objects db)) ->
  NoDup (map Router.serial_number (Router_objects db)) ->
  find (in_store (Some sid) (body_sn1 body)) (Router_objects db) = Some r ->
  body_sn2 body = Some (body_sn1 body) -> body_sn1 body <> "" ->
  Router.status r = "in_stock" ->
  body_action body = "sale" \/ body_action body = "collect" ->
  exists db',
    ActionsView_post today user body db = (db', mkResponse 200 None)
    /\ Router_objects db' = Router_objects db
    /\ Store_objects db' = Store_objects db
    /\ List.length (Action_objects db') = S (List.length (Action_objects db)).
Proof.
  intros Hu Hst Ni Ns Hf H2 Hne Hs Ha.
  pose proof (find_some _ _ Hf) as [Hin Hp].
  pose proof (in_store_serial _ _ _ Hp) as Hsn.
  pose proof (in_store_fk db sid _ r Hst Hp) as Hfk.
  rewrite <- Hu in Hf.
  pose proof (resolve_router1_found today _ body db r Hf) as R1.
  pose proof (resolve_router2_same today (User.store user) body db r
                Ns Hin Hsn H2 Hne) as R2.
  unfold ActionsView_post, try_except.
  rewrite (bind_inr _ _ _ _ _ R1), (bind_inr _ _ _ _ _ R2).
  unfold ActionsView_branch.
  destruct Ha as [Ha|Ha]; rewrite Ha; simpl; unfold Router.STATUS; simpl;
    rewrite Hs; simpl; rewrite ?Hu; cbn [user_set bind ret].
  - edestruct (stale_commit today user body db r
                 (Router.set_status "new_sale" r) None None
                 (body_order_number body) Ni Hin Hfk)
      as (db' & E & Cr & Cs & Ca); [exact Hfk|reflexivity|].
    rewrite E. exists db'. repeat split; assumption.
  - edestruct (stale_commit today user body db r
                 (Router.set_status "collected" r) None None
                 (body_order_number body) Ni Hin Hfk)
      as (db' & E & Cr & Cs & Ca); [exact Hfk|reflexivity|].
    rewrite E. exists db'. repeat split; assumption.
Qed.

(** C1. A sale sets the status on one copy of the row and, when the request
    names the same serial number a second time, saves a second copy read
    before the change after it: for a router in stock that the acting store
    holds, a sale (or a collect) whose second serial number is the first
    answers 200, records an action, and leaves the router table as it was,
    the router still in stock; the same sale sent again answers 200 again
    instead of being refused as already sold. *)
Theorem sale_with_repeated_serial today user sid body db r :
  User.store user = Some sid ->
  store_exists db sid = true ->
  NoDup (map Router.id (Router_objects db)) ->
  NoDup (map Router.serial_number (Router_objects db)) ->
  In r (Router_objects db) ->
  Router.store r = Some sid ->
  Router.serial_number r = body_sn1 body ->
  body_sn2 body = Some (body_sn1 body) -> body_sn1 body <> "" ->
  Router.status r = "in_stock" ->
  body_action body = "sale" \/ body_action body = "collect" ->
  let db' := fst (ActionsView_post today user body db) in
  snd (ActionsView_post today user body db) = mkResponse 200 None
  /\ Router_objects db' = Router_objects db
  /\ router_status db' (Router.id r) = Some "in_stock"
  /\ List.length (Action_objects db') = S (List.length (Action_objects db))
  /\ snd (ActionsView_post today user body db') = mkResponse 200 None.
Proof.
  intros Hu Hst Ni Ns Hin0 Hst0 Hsn0 H2 Hne Hs Ha db'.
  pose proof (proj1 (scoped_lookup (Some sid) (body_sn1 body)
                       (Router_objects db) Ns) r Hin0 Hsn0 Hst0) as Hf.
  destruct (sale_same_run today user sid body db r
              Hu Hst Ni Ns Hf H2 Hne Hs Ha) as (d & E & Cr & Cs & Ca).
  subst db'. rewrite E. cbn [fst snd].
  split; [reflexivity|]. split; [exact Cr|]. split.
  { unfold router_status. pose proof (find_some _ _ Hf) as [Hin _].
    rewrite (lookup_router_in d r); [simpl; now rewrite Hs| |];
      now rewrite Cr. }
  split; [exact Ca|].
  assert (Hst' : store_exists d sid = true)
    by (unfold store_exists; now rewrite Cs).
  rewrite <- Cr in Ni, Ns, Hf.
  destruct (sale_same_run today user sid body d r
              Hu Hst' Ni Ns Hf H2 Hne Hs Ha) as (d2 & E2 & _).
  now rewrite E2.
Qed.

(** C6. A return sets status, reason and store on one copy of the row and,
    when the request names the same serial number a second time, saves a
    second copy read before the change after it: for any router, whatever
    its status and store, a return whose second serial number is the first
    answers 200 and leaves the router as it was, neither in status return
    nor moved to the acting store. *)
Theorem return_with_repeated_serial today user sid body db r1 :
  User.store user = Some sid ->
  store_exists db sid = true ->
  wf_routers db = true ->
  In r1 (Router_objects db) ->
  Router.serial_number r1 = body_sn1 body ->
  body_action body = "return" ->
  body_sn2 body = Some (body_sn1 body) -> body_sn1 body <> "" ->
  let db' := fst (ActionsView_post today user body db) in
  snd (ActionsView_post today user body db) = mkResponse 200 None
  /\ Router_objects db' = Router_objects db
  /\ router_status db' (Router.id r1) = Some (Router.status r1)
  /\ router_store db' (Router.id r1) = Some (Router.store r1)
  /\ List.length (Action_objects db') = S (List.length (Action_objects db)).
Proof.
  intros Hu Hst Hwf Hin Hsn Ha H2 Hne db'.
  pose proof (wf_routers_ids db Hwf) as Ni.
  pose proof (wf_routers_serials db Hwf) as Ns.
  pose proof (wf_routers_fk db r1 Hwf Hin) as Hfk.
  pose proof (resolve_router1_existing today (User.store user) body db r1
                Ns Hin Hsn (or_introl Ha)) as R1.
  pose proof (resolve_router2_same today (User.store user) body db r1
                Ns Hin Hsn H2 Hne) as R2.
  subst db'. unfold ActionsView_post, try_except.
  rewrite (bind_inr _ _ _ _ _ R1), (bind_inr _ _ _ _ _ R2).
  unfold ActionsView_branch. rewrite Ha, Hu.
  cbn [String.eqb Ascii.eqb Bool.eqb user_set bind ret Router.STATUS
       Router.STATUSES nth fst].
  edestruct (stale_commit today user body db r1
               (Router.set_store (Some sid)
                  (Router.set_reason (body_return_reason body)
                     (Router.set_status "return" r1)))
               (body_return_reason body) None None Ni Hin Hfk)
    as (d & E & Cr & Cs & Ca); [exact Hst|reflexivity|].
  rewrite E. cbn [fst snd]. split; [reflexivity|]. split; [exact Cr|].
  assert (L : lookup_router d (Router.id r1) = Some r1)
    by (apply lookup_router_in; now rewrite Cr).
  unfold router_status, router_store. rewrite L.
  split; [reflexivity|]. split; [reflexivity|exact Ca].
Qed.

(* ================================================================== *)
(** ** The scenarios of the other views *)

Lemma NoDup_ids (l : list nat) : distinct Nat.eqb l = true -> NoDup l.
Proof.
  apply (distinct_NoDup Nat.eqb). apply Nat.eqb_eq.
Qed.

Lemma NoDup_names (l : list string) : distinct String.eqb l = true -> NoDup l.
Proof.
  apply (distinct_NoDup String.eqb). apply String.eqb_eq.
Qed.

(** A stock handler of store A flags router X as shipped, then takes the
    flag back. *)
Lemma patch_toggles_shipped_witness :
  let db1 := fst (RouterView_patch 0 demo_handler (Some 1) demo_db) in
  lookup_router db1 1 = Some (set_shipped true demo_X)
  /\ Router_objects (fst (RouterView_patch 0 demo_handler (Some 1) db1))
     = Router_objects demo_db.
Proof.
  pose proof (patch_toggles_shipped 0 demo_handler 0 demo_db demo_X
                (wf_routers_ids demo_db eq_refl) eq_refl eq_refl) as H.
  cbv zeta in H. destruct H as (_ & H2 & _ & _ & H5).
  split; [exact H2|exact H5].
Defined.

(** The manager of store A flips the shipped flag of the sale on record
    twice. *)
Lemma action_put_only_flips_shipped_witness :
  let db' := fst (ActionsView_put demo_user (Some 1) demo_action_db) in
  map Action.shipped (Action_objects db') = [true]
  /\ fst (ActionsView_put demo_user (Some 1) db') = demo_action_db.
Proof.
  pose proof (action_put_only_flips_shipped demo_user (Some 1) demo_action_db
                (NoDup_ids [1] eq_refl)) as H.
  cbv zeta in H. destruct H as (_ & _ & _ & _ & H5).
  split; [reflexivity|exact H5].
Defined.

(** The sale of X leaves two routers counted in store A and in category C. *)
Lemma sale_and_collect_lower_counts_witness :
  let db' := fst (ActionsView_post 0 demo_user (demo_body "sale" "X" None)
                    demo_db) in
  Store_count_routers db' 1 = 2%Z /\ Category_count_routers db' 1 = 2%Z.
Proof.
  pose proof (sale_and_collect_lower_counts 0 demo_user 1
                (demo_body "sale" "X" None) demo_db demo_X
                eq_refl eq_refl (wf_routers_ids demo_db eq_refl) eq_refl
                eq_refl (or_introl eq_refl)) as H.
  cbv zeta in H. destruct (H eq_refl) as [H1 H2].
  split; [exact (H1 1)|exact (H2 1)].
Defined.

(** The manager of store A deletes X: the row stays, the count drops. *)
Lemma soft_delete_lowers_counts_witness :
  let db' := fst (RouterView_delete 0 demo_user
                    (mkRouterBody (Some 1) None None None None) demo_db) in
  map Router.id (Router_objects db') = [1; 2; 3; 4]
  /\ Store_count_routers db' 1 = 2%Z.
Proof.
  pose proof (soft_delete_lowers_counts 0 demo_user
                (mkRouterBody (Some 1) None None None None) demo_db
                (wf_routers_ids demo_db eq_refl)) as H.
  cbv zeta in H. destruct (H eq_refl) as (r & Hr & Hids & Hs & _).
  split; [exact Hids|].
  assert (E : Some r = Some demo_X) by (rewrite <- Hr; reflexivity).
  injection E as E. rewrite (Hs 1), E. reflexivity.
Defined.

(** On [demo_db] the sweep and the latch give the same tables in both
    orders. *)
Lemma sweep_and_latch_commute_witness :
  fst (create_alerts (fst (create_monitoring 0 demo_db)))
  = fst (create_monitoring 0 (fst (create_alerts demo_db))).
Proof.
  exact (sweep_and_latch_commute 0 demo_db (wf_categories_ids demo_db eq_refl)).
Defined.

(** The second request for [/] of the day finds the rows of the first. *)
Lemma middleware_once_a_day_witness :
  let db' := fst (process_request "/" 0 demo_db) in
  process_request "/" 0 db' = (db', inr tt)
  /\ fst (process_request "/logs/" 0 demo_db) = demo_db.
Proof.
  pose proof (middleware_once_a_day "/" 0 demo_db (NoDup_nil _)) as H.
  pose proof (middleware_once_a_day "/logs/" 0 demo_db (NoDup_nil _)) as G.
  cbv zeta in H, G. destruct H as (_ & _ & H3 & _). destruct G as (G1 & _).
  split.
  - apply H3. exists demo_store, demo_C.
    split; [now left|]. split; [now left|reflexivity].
  - apply G1. discriminate.
Defined.

(** The manager of store A sends the serial number of X again. *)
Lemma create_router_refusals_witness :
  CreateRouterView_post 0 demo_user
    (mkRouterBody None (Some 1) (Some "X") None None) demo_db
  = (demo_db, response_error "Router already exists in the database").
Proof.
  pose proof (create_router_refusals 0 demo_user
                (mkRouterBody None (Some 1) (Some "X") None None) demo_db
                eq_refl eq_refl) as H.
  cbv zeta in H. destruct H as (H & _).
  destruct (H "X" eq_refl eq_refl) as [H1 H2].
  rewrite (surjective_pairing (CreateRouterView_post _ _ _ _)).
  now rewrite H1, H2.
Defined.

(** Category C has tripped; a fourth router resets its latch, and with four
    routers under a threshold of five the next latch run trips it again. *)
Lemma restock_resets_latch_witness :
  let db0 := fst (create_alerts demo_db) in
  let db' := fst (CreateRouterView_post 0 demo_user
                    (mkRouterBody None (Some 1) (Some "N") None None) db0) in
  Category_by_id (Some 1) db0 = Some (Category.set_alerted true demo_C)
  /\ Category_by_id (Some 1) db' = Some demo_C
  /\ exists tripped, snd (create_alerts db') = inr tripped /\ In 1 tripped.
Proof.
  pose proof (restock_resets_latch 0 demo_user
                (mkRouterBody None (Some 1) (Some "N") None None)
                (fst (create_alerts demo_db))
                (Category.set_alerted true demo_C) "N"
                eq_refl eq_refl
                (wf_categories_ids (fst (create_alerts demo_db)) eq_refl)
                eq_refl eq_refl eq_refl) as H.
  cbv zeta in H. destruct H as (_ & H2 & _ & H4).
  split; [reflexivity|]. split; [exact H2|].
  apply H4. reflexivity.
Defined.

(** Three serial numbers, one of them X: two routers and two log rows. *)
Lemma bulk_create_logs_each_router_witness :
  let db' := fst (CreateRoutersView_post 0 demo_user (Some 1)
                    ["N1"; "X"; "N2"] demo_db) in
  exists news logs,
    Router_objects db' = Router_objects demo_db ++ news
    /\ Log_objects db' = logs
    /\ map Router.serial_number news = ["N1"; "N2"]
    /\ map Log.instance_id logs = [Some 5; Some 6].
Proof.
  pose proof (bulk_create_logs_each_router 0 demo_user (Some 1)
                ["N1"; "X"; "N2"] demo_db eq_refl eq_refl) as H.
  cbv zeta in H. destruct H as (news & logs & H1 & H2 & H3 & H4 & _).
  exists news, logs. split; [exact H1|]. split; [exact H2|].
  split; [exact H3|].
  pose proof H1 as E. cbv in E. injection E as E.
  rewrite H4, <- E. reflexivity.
Defined.

(** The manager of store A cannot delete Z, a router of store B. *)
Lemma edits_stay_in_store_witness :
  lookup_router
    (fst (RouterView_delete 0 demo_user
            (mkRouterBody (Some 4) None None None None) demo_db)) 4
  = Some demo_Z.
Proof.
  pose proof (edits_stay_in_store 0 demo_user demo_db
                (wf_routers_ids demo_db eq_refl)
                (wf_categories_ids demo_db eq_refl)) as H.
  destruct H as [H _].
  destruct (H demo_Z (or_intror (or_intror (or_intror (or_introl eq_refl))))
              eq_refl) as [H1 _].
  exact (proj2 (H1 (mkRouterBody (Some 4) None None None None))).
Defined.

(** An action named [repair] on X is recorded and changes no router. *)
Lemma unknown_action_is_recorded_witness :
  let db' := fst (ActionsView_post 0 demo_user (demo_body "repair" "X" None)
                    demo_db) in
  snd (ActionsView_post 0 demo_user (demo_body "repair" "X" None) demo_db)
  = response_ok
  /\ Router_objects db' = Router_objects demo_db
  /\ map Action.action (Action_objects db') = ["repair"].
Proof.
  assert (H : forall s, s <> "repair" -> "repair" <> s)
    by (intros s Hs E; apply Hs; now symmetry).
  pose proof (unknown_action_is_recorded 0 demo_user 1
                (demo_body "repair" "X" None) demo_db demo_X
                eq_refl eq_refl (wf_routers_ids demo_db eq_refl) eq_refl
                eq_refl) as G.
  cbv zeta in G.
  destruct G as (G1 & G2 & _); try (apply H; discriminate).
  split; [exact G1|]. split; [exact G2|reflexivity].
Defined.

(** A swap of X with no second serial number: the generic error, nothing
    written. *)
Lemma swap_without_second_serial_witness :
  ActionsView_post 0 demo_user (demo_body "swap" "X" None) demo_db
  = (demo_db, UnexpectedError).
Proof.
  pose proof (swap_without_second_serial 0 demo_user
                (demo_body "swap" "X" None) demo_db
                (wf_routers_serials demo_db eq_refl) eq_refl eq_refl) as H.
  cbv zeta in H. destruct H as (H1 & _ & H3 & _).
  rewrite (surjective_pairing (ActionsView_post _ _ _ _)).
  rewrite H1, H3; [reflexivity|].
  exists demo_X. split; [now left|reflexivity].
Defined.

(** A stock handler of store A imports an item with the key of the deleted
    router of store B. *)
Lemma import_revives_by_key_witness :
  let item := mkImportItem (Some 5) (Some "C") None (Some "NEW") in
  let db' := fst (RouterView_post 0 demo_handler [item] demo_deleted_db) in
  lookup_router db' 5
  = Some (Router.mk 5 (Some 2) (Some 1) "NEW" None "collected" None false
                    false)
  /\ map Log.store (Log_objects db') = [Some 1].
Proof.
  pose proof (import_revives_by_key 0 demo_handler
                (mkImportItem (Some 5) (Some "C") None (Some "NEW"))
                demo_deleted_db demo_old demo_C "NEW"
                eq_refl eq_refl eq_refl eq_refl eq_refl eq_refl) as H.
  cbv zeta in H. destruct H as (_ & H2 & _).
  split; [exact H2|reflexivity].
Defined.

(** A third account signs up next to ann and bob; ann's name is taken; a
    password of five characters is too short, though its encoding has ten
    bytes. *)
Lemma signup_keeps_names_unique_witness :
  let body := mkSignupBody (Some "cat") (Some "cat@c.example")
                           (Some "12345678") (Some "12345678") in
  let users' := fst (SignupView_post demo_hash body demo_users) in
  NoDup (map Account.username users')
  /\ users' = demo_users
              ++ [Account.mk 10 "cat" "cat@c.example" "hash$12345678"
                             None None]
  /\ snd (SignupView_post demo_hash
            (mkSignupBody (Some "ann") (Some "x@x.example")
                          (Some "12345678") (Some "12345678")) demo_users)
     = response_error "Username or email already exists"
  /\ String.length demo_short_password = 10
  /\ SignupView_post demo_hash
       (mkSignupBody (Some "cat") (Some "cat@c.example")
                     (Some demo_short_password) (Some demo_short_password))
       demo_users
     = (demo_users, response_error "The password is too short").
Proof.
  pose proof (signup_keeps_names_unique demo_hash
                (mkSignupBody (Some "cat") (Some "cat@c.example")
                              (Some "12345678") (Some "12345678"))
                demo_users
                (NoDup_names ["ann"; "bob"] eq_refl)
                (NoDup_names ["ann@a.example"; "bob@b.example"] eq_refl)) as H.
  cbv zeta in H. destruct H as (H1 & _).
  split; [exact H1|]. repeat split.
Defined.

(** The manager of store A removes bob, the manager of store B. *)
Lemma remove_user_is_not_scoped_witness :
  User_by_id (Some 9) (fst (ProfileView_delete demo_user (Some 9) demo_users))
  = Some (Account.mk 9 "bob" "bob@b.example" "h2" None None).
Proof.
  pose proof (remove_user_is_not_scoped demo_user 9 demo_bob demo_users
                eq_refl) as H.
  cbv zeta in H. destruct H as [_ H]. destruct (H eq_refl) as (_ & H2 & _).
  exact H2.
Defined.

(** The manager of store A takes bob, found by his e-mail address, into
    store A as a stock handler. *)
Lemma add_user_takes_over_witness :
  let out := ProfileView_post demo_user (Some "bob@b.example")
               (Some "stock_handler") demo_users in
  snd out = mkResponse 200 (Some "User added successfully")
  /\ User_by_id (Some 9) (fst out)
     = Some (Account.mk 9 "bob" "bob@b.example" "h2"
                        (Some "stock_handler") (Some 1)).
Proof.
  pose proof (add_user_takes_over demo_user "bob@b.example"
                (Some "stock_handler") demo_bob demo_users eq_refl) as H.
  cbv zeta in H. destruct H as [_ H]. destruct (H eq_refl) as (H1 & H2 & _).
  split; [exact H1|exact H2].
Defined.

(** A stock handler sets the threshold of store A to -3; the values 0 and
    2^63 are refused. *)
Lemma threshold_any_role_never_zero_witness :
  Store_by_id (Some 1) (fst (ProfileView_put demo_handler (Some (-3)%Z) demo_db))
  = Some (Store.mk 1 "A" (-3))
  /\ ProfileView_put demo_handler (Some 0%Z) demo_db
     = (demo_db,
        response_error "An error occured while processing the request")
  /\ ProfileView_put demo_handler (Some 9223372036854775808%Z) demo_db
     = (demo_db,
        response_error "An error occured while processing the request").
Proof.
  pose proof (threshold_any_role_never_zero demo_handler (Some (-3)%Z) demo_db
                1 demo_store eq_refl eq_refl) as H.
  cbv zeta in H. destruct H as (_ & _ & H).
  destruct (H (-3)%Z eq_refl) as (_ & H2 & _); [discriminate|lia|].
  split; [exact H2|]. split; reflexivity.
Defined.

(** ann, the manager of store A, creates a store: she manages the new
    store 3, which holds no router. *)
Lemma create_store_makes_manager_witness :
  let out := CreateStoreView_post demo_ann (Some "New") demo_db demo_users in
  User_by_id (Some 7) (snd (fst out))
  = Some (Account.mk 7 "ann" "ann@a.example" "h1" (Some "store_manager")
                     (Some 3))
  /\ Store_count_routers (fst (fst out)) 3 = 0%Z
  /\ Store_count_routers (fst (fst out)) 1 = 3%Z.
Proof.
  pose proof (create_store_makes_manager demo_ann (Some "New") demo_db
                demo_users eq_refl eq_refl) as H.
  cbv zeta in H. destruct H as [_ H].
  destruct (H "New" eq_refl) as (_ & _ & _ & H4 & _ & H6 & _).
  split; [exact H4|]. split; [exact H6|reflexivity].
Defined.

(** The manager of store A deletes X: the list of the store still has the
    keys 3, 2, 1, the home page shows the routers 2 and 3. *)
Lemma deleted_router_still_listed_witness :
  let db' := fst (RouterView_delete 0 demo_user
                    (mkRouterBody (Some 1) None None None None) demo_db) in
  map row_id (RouterView_get demo_user db') = [3; 2; 1]
  /\ map Router.id (home_routers (HomePage_get demo_user db')) = [2; 3].
Proof.
  pose proof (deleted_router_still_listed 0 demo_user
                (mkRouterBody (Some 1) None None None None) demo_db
                (wf_routers_ids demo_db eq_refl)) as H.
  cbv zeta in H. destruct (H eq_refl) as (r & _ & _ & Hids & _).
  split; [rewrite Hids|]; reflexivity.
Defined.

(** Anyone moves X, a router of store A, to store B. *)
Lemma switch_store_unguarded_witness :
  lookup_router (fst (SwitchStore_post 0 (Some 1) (Some 2) demo_db)) 1
  = Some (Router.set_store (Some 2) demo_X).
Proof.
  exact (proj1 (proj2 (switch_store_unguarded 0 (Some 1) (Some 2) demo_db))).
Defined.

(** The admin console edits category C: the receiver reads a local that was
    never assigned, and no log row is written. *)
Lemma admin_log_entries_witness :
  action_created (mkLogEntry (Some 1) "main | category" 2 7) demo_db
  = (demo_db, inl UnboundLocalError).
Proof.
  pose proof (admin_log_entries (mkLogEntry (Some 1) "main | category" 2 7)
                demo_db) as H.
  cbv zeta in H. destruct H as (_ & H & _).
  destruct (H demo_C eq_refl eq_refl eq_refl) as [H1 H2].
  rewrite (surjective_pairing (action_created _ _)).
  now rewrite H1, H2.
Defined.

(** Two items, the second with a category that does not exist: one router is
    imported and one log row written. *)
Lemma import_counts_what_it_logs_witness :
  let items := [ mkImportItem None (Some "C") None (Some "N1");
                 mkImportItem None (Some "none") None (Some "N2") ] in
  exists logs,
    snd (RouterView_post 0 demo_handler items demo_db)
    = mkResponse 200 (Some "1 routers imported")
    /\ Log_objects (fst (RouterView_post 0 demo_handler items demo_db)) = logs
    /\ List.length logs = 1.
Proof.
  pose proof (import_counts_what_it_logs 0 demo_handler
                [ mkImportItem None (Some "C") None (Some "N1");
                  mkImportItem None (Some "none") None (Some "N2") ]
                demo_db) as H.
  cbv zeta in H. destruct H as (logs & H1 & H2 & _).
  exists logs. split; [reflexivity|]. split; [exact H2|].
  change logs with (Log_objects demo_db ++ logs).
  rewrite <- H2. reflexivity.
Defined.

(** Store A sells X, found in its store; store A returns Z, which store B
    holds; store A cannot sell Z. *)
Lemma primary_router_resolution_witness :
  resolve_router1 0 (Some 1) (demo_body "sale" "X" None) demo_db
  = (demo_db, inr (Some demo_X))
  /\ resolve_router1 0 (Some 1) (demo_body "return" "Z" None) demo_db
     = (demo_db, inr (Some demo_Z))
  /\ ActionsView_post 0 demo_user (demo_body "sale" "Z" None) demo_db
     = (demo_db,
        mkResponse 500
          (Some "We can't find the router with the provided details")).
Proof.
  pose proof (primary_router_resolution 0 demo_user
                (demo_body "sale" "X" None) demo_db
                (wf_routers_serials demo_db eq_refl)) as HX.
  pose proof (primary_router_resolution 0 demo_user
                (demo_body "return" "Z" None) demo_db
                (wf_routers_serials demo_db eq_refl)) as HR.
  pose proof (primary_router_resolution 0 demo_user
                (demo_body "sale" "Z" None) demo_db
                (wf_routers_serials demo_db eq_refl)) as HZ.
  cbv zeta in HX, HR, HZ.
  destruct HX as (HX & _). destruct HR as (_ & HR & _).
  destruct HZ as (_ & HZ & _).
  split; [exact (proj1 (HX demo_X (or_introl eq_refl) eq_refl eq_refl))|].
  assert (In4 : In demo_Z (Router_objects demo_db))
    by (right; right; right; left; reflexivity).
  split.
  - apply (proj1 (HR demo_Z In4 eq_refl ltac:(discriminate))).
    now left.
  - apply (proj2 (HZ demo_Z In4 eq_refl ltac:(discriminate))).
    intros [E|E]; discriminate E.
Defined.

(** Store A sells X and names X a second time: 200, X still in stock, and
    the same sale again answers 200. *)
Lemma sale_with_repeated_serial_witness :
  let body := demo_body "sale" "X" (Some "X") in
  let db' := fst (ActionsView_post 0 demo_user body demo_db) in
  snd (ActionsView_post 0 demo_user body demo_db) = mkResponse 200 None
  /\ router_status db' 1 = Some "in_stock"
  /\ snd (ActionsView_post 0 demo_user body db') = mkResponse 200 None.
Proof.
  pose proof (sale_with_repeated_serial 0 demo_user 1
                (demo_body "sale" "X" (Some "X")) demo_db demo_X
                eq_refl eq_refl (wf_routers_ids demo_db eq_refl)
                (wf_routers_serials demo_db eq_refl) (or_introl eq_refl)
                eq_refl eq_refl eq_refl
                ltac:(discriminate) eq_refl (or_introl eq_refl)) as H.
  cbv zeta in H. destruct H as (H1 & _ & H3 & _ & H5).
  split; [exact H1|]. split; [exact H3|exact H5].
Defined.

(** Store A takes back Z, collected and held by store B, and names Z a
    second time: 200, Z still collected and still in store B. *)
Lemma return_with_repeated_serial_witness :
  let body := demo_body "return" "Z" (Some "Z") in
  let db' := fst (ActionsView_post 0 demo_user body demo_db) in
  snd (ActionsView_post 0 demo_user body demo_db) = mkResponse 200 None
  /\ router_status db' 4 = Some "collected"
  /\ router_store db' 4 = Some (Some 2).
Proof.
  pose proof (return_with_repeated_serial 0 demo_user 1
                (demo_body "return" "Z" (Some "Z")) demo_db demo_Z
                eq_refl eq_refl eq_refl
                (or_intror (or_intror (or_intror (or_introl eq_refl))))
                eq_refl eq_refl eq_refl ltac:(discriminate)) as H.
  cbv zeta in H. destruct H as (H1 & _ & H3 & H4 & _).
  split; [exact H1|]. split; [exact H3|exact H4].
Defined.
